(** * restream_app: the Kick -> YouTube restream supervisor

    A shallow embedding of [restream_app.py]: the module-level [state] dict,
    the [procs] dict of relay handles, the log sink, the source prober, the
    relay launcher, the supervisor loop [stream_loop] and the operator
    commands of class [API], followed by the properties of the
    specification that concern them.

    Conventions of the embedding.
    - Wall-clock readings ([time.time()]) are integers (whole seconds, [Z]);
      the formatted clock of [time.strftime] is a string handed in by the
      environment.
    - Everything the program observes from outside during one iteration of
      the loop (clock readings, the outcome of the streamlink run, the
      outcome of [subprocess.Popen], children that exited on their own) is
      collected in an [Obs] record; a run of the loop consumes a list of
      them.
    - A [subprocess.Popen] object is a handle: an index into the table
      [children] of all child processes this program has spawned.
    - Code that can raise lives in a state-and-exception monad [M]; the
      calls that leave the program are recorded, in order, in [trace].
    - A Python [str] is the string of its UTF-8 bytes.
    - A monadic definition is the function run to completion with no other
      thread in between. The program runs [stream_loop] in a thread of its
      own beside the operator commands, so this is one schedule among many:
      the relation [serially_reachable] covers the schedules in which
      commands, child exits and whole iterations follow one another, and
      the part on interleavings runs commands inside an iteration.

    The file has five parts: the embedding, with the closed forms of its
    effectful operations; invariants, branch tests and sample scenarios;
    lemmas; the claims C1 to C10; and further properties of the code. *)

From stdpp Require Import gmap strings list pretty.
From Stdlib Require Import ZArith Lia Ascii.

Set Default Proof Using "Type".

(** ** Constants *)

Definition OFFLINE_CHECK : Z := 30.
Definition LIVE_CHECK : Z := 10.
Definition FFMPEG_RESTART_DELAY : Z := 3.
Definition MAX_RESTARTS : nat := 3.
Definition CRASH_WINDOW : Z := 600.
Definition MIN_STREAM_DURATION : Z := 120.
Definition URL_REFRESH_INTERVAL : Z := 540.
Definition YT_RTMP : string := "rtmp://a.rtmp.youtube.com/live2/".

(** The bound of the log buffer (the literal [200] in [log]). *)
Definition LOG_LIMIT : nat := 200.

(** ** Data model *)

Record Config := mkConfig { kick_url : string; yt_key : string }.

Record LogEntry := mkLogEntry {
  log_time : string;
  log_msg : string;
  log_level : string
}.

(** The module-level [state] dict. *)
Record State := mkState {
  running : bool;
  is_live : bool;
  start_time : option Z;
  restarts : nat;
  crash_times : list Z;
  logs : list LogEntry;
  config : Config
}.

Inductive exit_cause := Crashed | Terminated | Killed.

Inductive proc_status := Running | Exited (c : exit_cause).

(** One spawned child process as the operating system sees it.
    [heeds_terminate] says whether the process exits within the 10 s grace
    period once asked to terminate. [rivals] is a ghost field: the number of
    children of this program that were running when this one was spawned. *)
Record Child := mkChild {
  pid : Z;
  argv : list string;
  heeds_terminate : bool;
  rivals : nat;
  status : proc_status
}.

(** The pywebview window; [js_ok script] tells whether [evaluate_js script]
    returns normally (it raises otherwise, e.g. when the page is not ready). *)
Record Window := mkWindow { js_ok : string → bool }.

(** Calls that leave the program, in the order they are made. *)
Inductive Event :=
| EvPrint (line : string)
| EvJs (script : string)
| EvSleep (secs : Z)
| EvRun (cmd : list string)
| EvPopen (cmd : list string)
| EvTerminate (h : nat)
| EvKill (h : nat)
| EvThread
| EvWriteConfig (data : Config).

Record World := mkWorld {
  state : State;
  procs : gmap string nat;
  children : list Child;
  window : option Window;
  trace : list Event
}.

(** Field updates. *)
Definition set_running (b : bool) (s : State) : State :=
  mkState b (is_live s) (start_time s) (restarts s) (crash_times s) (logs s) (config s).
Definition set_is_live (b : bool) (s : State) : State :=
  mkState (running s) b (start_time s) (restarts s) (crash_times s) (logs s) (config s).
Definition set_start_time (t : option Z) (s : State) : State :=
  mkState (running s) (is_live s) t (restarts s) (crash_times s) (logs s) (config s).
Definition set_restarts (n : nat) (s : State) : State :=
  mkState (running s) (is_live s) (start_time s) n (crash_times s) (logs s) (config s).
Definition set_crash_times (l : list Z) (s : State) : State :=
  mkState (running s) (is_live s) (start_time s) (restarts s) l (logs s) (config s).
Definition set_logs (l : list LogEntry) (s : State) : State :=
  mkState (running s) (is_live s) (start_time s) (restarts s) (crash_times s) l (config s).
Definition set_config (c : Config) (s : State) : State :=
  mkState (running s) (is_live s) (start_time s) (restarts s) (crash_times s) (logs s) c.

Definition with_state (f : State → State) (w : World) : World :=
  mkWorld (f (state w)) (procs w) (children w) (window w) (trace w).
Definition with_procs (f : gmap string nat → gmap string nat) (w : World) : World :=
  mkWorld (state w) (f (procs w)) (children w) (window w) (trace w).
Definition with_children (f : list Child → list Child) (w : World) : World :=
  mkWorld (state w) (procs w) (f (children w)) (window w) (trace w).
Definition with_trace (f : list Event → list Event) (w : World) : World :=
  mkWorld (state w) (procs w) (children w) (window w) (f (trace w)).

(** The module as it is right after import, for a given configuration file
    content and before [main] has created the window. *)
Definition initial_state (c : Config) : State :=
  mkState false false None 0 [] [] c.
Definition initial_world (c : Config) : World :=
  mkWorld (initial_state c) ∅ [] None [].

(** ** The state-and-exception monad *)

Inductive exn :=
| FileNotFoundError (what : string)
| TimeoutExpired (what : string)
| OtherException (what : string).

Definition exn_str (e : exn) : string :=
  match e with
  | FileNotFoundError s | TimeoutExpired s | OtherException s => s
  end.

Inductive result (A : Type) :=
| Ret (a : A)
| Raise (e : exn).
Arguments Ret {A} a.
Arguments Raise {A} e.

Definition M (A : Type) : Type := World → result A * World.

#[global] Instance M_ret : MRet M := λ A a w, (Ret a, w).
#[global] Instance M_bind : MBind M := λ A B f m w,
  match m w with
  | (Ret a, w') => f a w'
  | (Raise e, w') => (Raise e, w')
  end.

Definition raise {A} (e : exn) : M A := λ w, (Raise e, w).

(** [try: m except: h]. The handler [h] returns [None] for an exception the
    [except] clause does not name, which then propagates. *)
Definition try_except {A} (m : M A) (h : exn → option (M A)) : M A := λ w,
  match m w with
  | (Ret a, w') => (Ret a, w')
  | (Raise e, w') =>
      match h e with
      | Some k => k w'
      | None => (Raise e, w')
      end
  end.

Definition gets {A} (f : World → A) : M A := λ w, (Ret (f w), w).
Definition modify (f : World → World) : M unit := λ w, (Ret tt, f w).
Definition emit (e : Event) : M unit := modify (with_trace (λ t, t ++ [e])).

Definition get_state {A} (f : State → A) : M A := gets (λ w, f (state w)).
Definition put_state (f : State → State) : M unit := modify (with_state f).

(** Handlers of the three [except] forms the program uses. *)
Definition except_all {A} (k : exn → M A) : exn → option (M A) := λ e, Some (k e).
Definition except_FileNotFoundError {A} (k : M A) : exn → option (M A) := λ e,
  match e with FileNotFoundError _ => Some k | _ => None end.
Definition except_TimeoutExpired {A} (k : M A) : exn → option (M A) := λ e,
  match e with TimeoutExpired _ => Some k | _ => None end.

(** A [for] loop over a list. *)
Fixpoint for_each {A} (l : list A) (body : A → M unit) : M unit :=
  match l with
  | [] => mret tt
  | x :: l' => body x;; for_each l' body
  end.

(** ** Strings *)

(** [s.replace(c, by)] for a one-character pattern. *)
Fixpoint replace_char (c : Ascii.ascii) (by_ : string) (s : string) : string :=
  match s with
  | EmptyString => EmptyString
  | String a s' =>
      if Ascii.eqb a c then by_ +:+ replace_char c by_ s'
      else String a (replace_char c by_ s')
  end.

(** Whitespace as [str.strip()] sees it. A Python [str] is represented by
    the string of its UTF-8 bytes, so a whitespace character is one byte
    (U+0009 to U+000D, U+001C to U+0020), two (U+0085, U+00A0) or three
    (U+1680, U+2000 to U+200A, U+2028, U+2029, U+202F, U+205F, U+3000). *)
Definition is_space (a : Ascii.ascii) : bool :=
  let n := Ascii.N_of_ascii a in
  ((9 <=? n) && (n <=? 13) || (28 <=? n) && (n <=? 32))%N.

Definition is_space2 (a b : Ascii.ascii) : bool :=
  let a := Ascii.N_of_ascii a in
  let b := Ascii.N_of_ascii b in
  ((a =? 194) && ((b =? 133) || (b =? 160)))%N.

Definition is_space3 (a b c : Ascii.ascii) : bool :=
  let a := Ascii.N_of_ascii a in
  let b := Ascii.N_of_ascii b in
  let c := Ascii.N_of_ascii c in
  ((a =? 225) && (b =? 154) && (c =? 128)
   || (a =? 226) && (b =? 128)
      && ((128 <=? c) && (c <=? 138) || (c =? 168) || (c =? 169) || (c =? 175))
   || (a =? 226) && (b =? 129) && (c =? 159)
   || (a =? 227) && (b =? 128) && (c =? 128))%N.

Fixpoint lstrip (s : string) : string :=
  match s with
  | EmptyString => EmptyString
  | String a s1 =>
      if is_space a then lstrip s1 else
      match s1 with
      | EmptyString => s
      | String b s2 =>
          if is_space2 a b then lstrip s2 else
          match s2 with
          | EmptyString => s
          | String c s3 => if is_space3 a b c then lstrip s3 else s
          end
      end
  end.

(** [lstrip] on a reversed string, whose characters come last byte first. *)
Fixpoint lstrip_reversed (s : string) : string :=
  match s with
  | EmptyString => EmptyString
  | String c s1 =>
      if is_space c then lstrip_reversed s1 else
      match s1 with
      | EmptyString => s
      | String b s2 =>
          if is_space2 b c then lstrip_reversed s2 else
          match s2 with
          | EmptyString => s
          | String a s3 => if is_space3 a b c then lstrip_reversed s3 else s
          end
      end
  end.

Definition rstrip (s : string) : string :=
  String.rev (lstrip_reversed (String.rev s)).

Definition strip (s : string) : string := rstrip (lstrip s).

Definition startswith (s p : string) : bool := String.prefix p s.

(** Truthiness of a Python string. *)
Definition nonempty (s : string) : bool :=
  match s with EmptyString => false | _ => true end.

(** Truthiness of an optional timestamp: [None] and [0] are false. *)
Definition truthy_time (t : option Z) : bool :=
  match t with
  | Some v => negb (v =? 0)%Z
  | None => false
  end.

(** ** The log sink *)

Definition print (line : string) : M unit := emit (EvPrint line).

(** [window.evaluate_js(script)]. *)
Definition evaluate_js (win : Window) (script : string) : M unit :=
  if js_ok win script then emit (EvJs script)
  else raise (OtherException "evaluate_js").

Definition addLog_script (t safe level : string) : string :=
  "addLog('" +:+ t +:+ "', '" +:+ safe +:+ "', '" +:+ level +:+ "')".

(** [log(msg, level)]; [t] is the reading of [time.strftime("%H:%M:%S")]. *)
Definition log (t : string) (msg level : string) : M unit :=
  put_state (λ s, set_logs (logs s ++ [mkLogEntry t msg level]) s);;
  n ← get_state (λ s, length (logs s));
  (if decide (LOG_LIMIT < n) then put_state (λ s, set_logs (drop 1 (logs s)) s)
   else mret tt);;
  print (t +:+ "  " +:+ msg);;
  win ← gets window;
  match win with
  | Some win =>
      try_except
        (let safe := replace_char "`"%char "\`" (replace_char "'"%char "\'" msg) in
         evaluate_js win (addLog_script t safe level))
        (except_all (λ _, mret tt))
  | None => mret tt
  end.

(** ** What one iteration observes from outside *)

Inductive RunOutcome :=
| Completed (returncode : Z) (stdout : string)
| RunRaised (e : exn).

Inductive SpawnOutcome :=
| Spawned (new_pid : Z) (heeds : bool)
| SpawnRaised (e : exn).

Record Obs := mkObs {
  exits : list nat;      (* children that exited on their own since the last look *)
  now : Z;               (* first reading of time.time() in the iteration *)
  now2 : Z;              (* second reading of time.time() in the iteration *)
  hms : string;          (* time.strftime("%H:%M:%S") *)
  run : RunOutcome;      (* what subprocess.run of streamlink does *)
  spawn : SpawnOutcome   (* what subprocess.Popen of ffmpeg does *)
}.

(** ** Child processes *)

Definition set_status (st : proc_status) (c : Child) : Child :=
  mkChild (pid c) (argv c) (heeds_terminate c) (rivals c) st.

Definition is_running (c : Child) : bool :=
  match status c with Running => true | Exited _ => false end.

Definition running_children (cs : list Child) : nat :=
  length (List.filter is_running cs).

(** A running child that exits on its own. *)
Definition crash (c : Child) : Child :=
  if is_running c then set_status (Exited Crashed) c else c.

Definition os_exits (hs : list nat) (cs : list Child) : list Child :=
  foldr (λ h acc, alter crash h acc) cs hs.

(** [proc.poll()]: [None] while the process runs. *)
Definition poll (h : nat) : M (option exit_cause) :=
  gets (λ w, match children w !! h with
             | Some c => match status c with Running => None | Exited x => Some x end
             | None => Some Crashed
             end).

Definition terminate (h : nat) : M unit := emit (EvTerminate h).

(** [proc.wait(timeout=10)] after [terminate]. *)
Definition wait (h : nat) : M unit :=
  c ← gets (λ w, children w !! h);
  match c with
  | Some c =>
      if is_running c then
        if heeds_terminate c
        then modify (with_children (alter (set_status (Exited Terminated)) h))
        else raise (TimeoutExpired "ffmpeg")
      else mret tt
  | None => mret tt
  end.

Definition kill (h : nat) : M unit :=
  emit (EvKill h);;
  modify (with_children (alter (λ c, if is_running c then set_status (Exited Killed) c else c) h)).

Definition sleep (secs : Z) : M unit := emit (EvSleep secs).

(** ** The source prober *)

Definition subprocess_run (o : Obs) (cmd : list string) : M (Z * string) :=
  emit (EvRun cmd);;
  match run o with
  | Completed rc out => mret (rc, out)
  | RunRaised e => raise e
  end.

Definition get_hls_url (o : Obs) : M (option string) :=
  try_except
    (src ← get_state (λ s, kick_url (config s));
     result ← subprocess_run o ["python"; "-m"; "streamlink"; src; "--stream-url"; "best"];
     let url := strip result.2 in
     if (result.1 =? 0)%Z && startswith url "http" then mret (Some url)
     else mret None)
    (except_all (λ e,
       log (hms o) ("Streamlink error: " +:+ exn_str e) "yellow";;
       mret None)).

(** Truthiness of what [get_hls_url] returned. *)
Definition truthy_url (u : option string) : bool :=
  match u with Some s => nonempty s | None => false end.

(** ** The relay launcher *)

Definition build_cmd (hls_url yt_key : string) : list string :=
  [ "ffmpeg"; "-hide_banner"; "-loglevel"; "warning";
    "-re"; "-i"; hls_url;
    "-c:v"; "h264_amf";
    "-b:v"; "6000k"; "-minrate"; "6000k"; "-maxrate"; "6000k"; "-bufsize"; "6000k";
    "-r"; "30"; "-g"; "60";
    "-c:a"; "aac"; "-b:a"; "192k";
    "-f"; "flv";
    YT_RTMP +:+ yt_key ].

(** [subprocess.Popen(cmd, ...)]: on success a new running child is
    appended to the process table and its handle returned. *)
Definition Popen (o : Obs) (cmd : list string) : M nat :=
  emit (EvPopen cmd);;
  match spawn o with
  | Spawned p heeds =>
      h ← gets (λ w, length (children w));
      modify (with_children (λ cs, cs ++ [mkChild p cmd heeds (running_children cs) Running]));;
      mret h
  | SpawnRaised e => raise e
  end.

Definition pid_of (h : nat) : M Z :=
  gets (λ w, match children w !! h with Some c => pid c | None => 0%Z end).

Definition start_ffmpeg (o : Obs) (hls_url : string) : M bool :=
  key ← get_state (λ s, yt_key (config s));
  if negb (nonempty key) then
    log (hms o) "No YouTube key set — open Settings first" "red";;
    put_state (set_running false);;
    mret false
  else
    try_except
      (proc ← Popen o (build_cmd hls_url key);
       modify (with_procs (λ m, <["ffmpeg" := proc]> m));;
       p ← pid_of proc;
       log (hms o) ("FFmpeg started (PID " +:+ pretty p +:+ ")") "green";;
       mret true)
      (except_FileNotFoundError
         (log (hms o) "FFmpeg not found! Install it and add to PATH." "red";;
          put_state (set_running false);;
          mret false)).

Definition stop_proc (h : nat) : M unit :=
  st ← poll h;
  match st with
  | None =>
      terminate h;;
      try_except (wait h) (except_TimeoutExpired (kill h))
  | Some _ => mret tt
  end.

Definition stop_ffmpeg : M unit :=
  items ← gets (λ w, map_to_list (procs w));
  for_each items (λ kp, stop_proc kp.2);;
  modify (with_procs (λ _, ∅)).

Definition update_ui_status : M unit :=
  win ← gets window;
  match win with
  | None => mret tt
  | Some win =>
      try_except
        (live ← get_state is_live;
         r ← get_state restarts;
         let is_live_js : string := if (live : bool) then "true" else "false" in
         evaluate_js win ("updateStatus(" +:+ is_live_js +:+ ", " +:+ pretty r +:+ ")"))
        (except_all (λ _, mret tt))
  end.

(** ** The crash ledger

    Lines 152-154 of [stream_loop]: drop the entries that left the trailing
    window, then append the time of the death just seen. *)

Definition in_window (now_ t : Z) : bool := (now_ - t <? CRASH_WINDOW)%Z.

Definition prune (now_ : Z) (ledger : list Z) : list Z :=
  List.filter (in_window now_) ledger.

Definition record_death (now_ : Z) (ledger : list Z) : list Z :=
  prune now_ ledger ++ [now_].

(** ** The supervisor loop *)

(** How one iteration of the [while] ends: [continue] (or falling off the end
    of the body) with the value the local [stream_start_time] then has, or
    [return]. *)
Inductive Ctl :=
| Continue (stream_start_time : option Z)
| Return_.

Definition streaming_msg (duration : Z) : string :=
  let h := (duration / 3600)%Z in
  let m := ((duration `mod` 3600) / 60)%Z in
  let s := (duration `mod` 60)%Z in
  "Streaming — " +:+ pretty h +:+ "h " +:+ pretty m +:+ "m " +:+ pretty s +:+ "s".

Definition crashed_msg (r : nat) : string :=
  "FFmpeg crashed — getting fresh URL (" +:+ pretty r +:+ "/" +:+ pretty MAX_RESTARTS +:+ ")".

Definition offline_msg : string :=
  "Kick offline — checking in " +:+ pretty OFFLINE_CHECK +:+ "s".

(** The relay is believed live and its handle polls as running. *)
Definition relay_alive (o : Obs) (stream_start_time : option Z) : M Ctl :=
  t0 ← get_state start_time;
  let duration := if truthy_time t0 then (now o - default 0 t0)%Z else 0%Z in
  (if (0 <? duration)%Z && (duration `mod` URL_REFRESH_INTERVAL <? LIVE_CHECK)%Z then
     log (hms o) "Refreshing URL before expiry..." "yellow";;
     fresh_url ← get_hls_url o;
     (if truthy_url fresh_url then
        stop_ffmpeg;;
        sleep 2;;
        start_ffmpeg o (default "" fresh_url);;
        log (hms o) "URL refreshed — stream continuing" "green"
      else mret tt)
   else mret tt);;
  log (hms o) (streaming_msg duration) "muted";;
  sleep LIVE_CHECK;;
  mret (Continue stream_start_time).

(** The relay is believed live and its handle polls as exited. *)
Definition relay_dead (o : Obs) (stream_start_time : option Z) : M Ctl :=
  let now_ := now o in
  put_state (λ s, set_crash_times (prune now_ (crash_times s)) s);;
  put_state (λ s, set_crash_times (crash_times s ++ [now_]) s);;
  n ← get_state (λ s, length (crash_times s));
  if decide (MAX_RESTARTS ≤ n) then
    log (hms o) "3 crashes in 10 min — stopping" "red";;
    stop_ffmpeg;;
    put_state (set_is_live false);;
    put_state (set_running false);;
    update_ui_status;;
    mret Return_
  else if truthy_time stream_start_time
          && (now2 o - default 0 stream_start_time <? MIN_STREAM_DURATION)%Z then
    log (hms o) "Stream under 2 min — skipping restart" "yellow";;
    stop_ffmpeg;;
    put_state (set_is_live false);;
    update_ui_status;;
    sleep OFFLINE_CHECK;;
    mret (Continue stream_start_time)
  else
    put_state (λ s, set_restarts (restarts s + 1) s);;
    r ← get_state restarts;
    log (hms o) (crashed_msg r) "yellow";;
    sleep FFMPEG_RESTART_DELAY;;
    fresh_url ← get_hls_url o;
    (if truthy_url fresh_url then
       start_ffmpeg o (default "" fresh_url);;
       update_ui_status
     else
       log (hms o) "Channel went offline" "yellow";;
       stop_ffmpeg;;
       put_state (set_is_live false);;
       update_ui_status);;
    sleep LIVE_CHECK;;
    mret (Continue stream_start_time).

(** No relay is believed live, or its handle is missing: ask the prober. *)
Definition check_kick (o : Obs) (stream_start_time : option Z) : M Ctl :=
  log (hms o) "Checking if Kick is live..." "muted";;
  url ← get_hls_url o;
  live ← get_state is_live;
  if truthy_url url && negb live then
    log (hms o) "Kick LIVE — starting restream now" "green";;
    put_state (set_is_live true);;
    put_state (set_start_time (Some (now o)));;
    put_state (set_restarts 0);;
    put_state (set_crash_times []);;
    start_ffmpeg o (default "" url);;
    update_ui_status;;
    sleep LIVE_CHECK;;
    mret (Continue (Some (now2 o)))
  else if negb (truthy_url url) && live then
    log (hms o) "Kick ended — stopping restream" "green";;
    stop_ffmpeg;;
    put_state (set_is_live false);;
    put_state (set_start_time None);;
    update_ui_status;;
    sleep OFFLINE_CHECK;;
    mret (Continue None)
  else
    log (hms o) offline_msg "muted";;
    sleep OFFLINE_CHECK;;
    mret (Continue stream_start_time).

(** The body of [while state["running"]]. *)
Definition loop_body (o : Obs) (stream_start_time : option Z) : M Ctl :=
  live ← get_state is_live;
  h ← gets (λ w, procs w !! "ffmpeg");
  match h with
  | Some proc =>
      if (live : bool) then
        st ← poll proc;
        match st with
        | None => relay_alive o stream_start_time
        | Some _ => relay_dead o stream_start_time
        end
      else check_kick o stream_start_time
  | None => check_kick o stream_start_time
  end.

(** What the operating system does to the children between two looks of the
    program. *)
Definition os_step (o : Obs) : M unit :=
  modify (with_children (os_exits (exits o))).

(** One turn of the loop: the test of [state["running"]], then the body, run
    against the process table as the operating system left it. *)
Definition tick (o : Obs) (stream_start_time : option Z) : M Ctl :=
  r ← get_state running;
  if (r : bool) then os_step o;; loop_body o stream_start_time
  else mret Return_.

(** How a run of the loop over finitely many observations ends: the function
    returned, or the thread is still in the loop, about to test
    [state["running"]] again. *)
Inductive LoopEnd :=
| Returned
| Parked (stream_start_time : option Z).

Fixpoint while_running (obs : list Obs) (stream_start_time : option Z) : M LoopEnd :=
  match obs with
  | [] => mret (Parked stream_start_time)
  | o :: obs' =>
      c ← tick o stream_start_time;
      match c with
      | Continue sst => while_running obs' sst
      | Return_ => mret Returned
      end
  end.

(** [stream_loop()]; [t] is the clock string for the log line of the guard. *)
Definition stream_loop (t : string) (obs : list Obs) : M LoopEnd :=
  src ← get_state (λ s, kick_url (config s));
  if negb (nonempty src) then
    log t "No Kick URL set — open Settings first" "red";;
    put_state (set_running false);;
    mret Returned
  else while_running obs None.

(** ** The operator commands (class [API]) *)

Definition API_start : M string :=
  r ← get_state running;
  if negb r then
    put_state (set_running true);;
    put_state (set_restarts 0);;
    put_state (set_crash_times []);;
    emit EvThread;;
    mret "started"
  else mret "already running".

Definition API_stop (t : string) : M string :=
  put_state (set_running false);;
  stop_ffmpeg;;
  put_state (set_is_live false);;
  put_state (set_start_time None);;
  update_ui_status;;
  log t "Stopped by user" "red";;
  mret "stopped".

(** What [open(CONFIG_FILE, "w")] and [json.dump] do: the file is written, or
    one of the two raises (no permission, disk full). *)
Inductive WriteOutcome :=
| Written
| WriteRaised (e : exn).

(** [save_config(data)]. *)
Definition save_config (fo : WriteOutcome) (data : Config) : M unit :=
  emit (EvWriteConfig data);;
  match fo with
  | Written => mret tt
  | WriteRaised e => raise e
  end.

(** [save_settings(kick_url, yt_key)]; [fo] is what the write of the
    configuration file does. *)
Definition API_save_settings (t : string) (fo : WriteOutcome)
    (kick_url_ yt_key_ : string) : M string :=
  put_state (λ s, set_config (mkConfig kick_url_ (yt_key (config s))) s);;
  put_state (λ s, set_config (mkConfig (kick_url (config s)) yt_key_) s);;
  data ← get_state config;
  save_config fo data;;
  log t ("Settings saved — " +:+ kick_url_) "green";;
  mret "saved".

(** * Closed forms of the effectful operations

    Each operation that cannot raise is a function of the world it starts in;
    the definitions below name those functions, and the lemmas of the next
    part show that the monadic code computes them. *)

(** The log buffer after one more entry. *)
Definition logged (e : LogEntry) (l : list LogEntry) : list LogEntry :=
  if decide (LOG_LIMIT < length (l ++ [e])) then drop 1 (l ++ [e]) else l ++ [e].

Definition safe_js (msg : string) : string :=
  replace_char "`"%char "\`" (replace_char "'"%char "\'" msg).

Definition log_events (win : option Window) (t msg level : string) : list Event :=
  EvPrint (t +:+ "  " +:+ msg) ::
  match win with
  | Some win =>
      if js_ok win (addLog_script t (safe_js msg) level)
      then [EvJs (addLog_script t (safe_js msg) level)] else []
  | None => []
  end.

Definition log_world (t msg level : string) (w : World) : World :=
  mkWorld (set_logs (logged (mkLogEntry t msg level) (logs (state w))) (state w))
          (procs w) (children w) (window w)
          (trace w ++ log_events (window w) t msg level).

Definition status_script (s : State) : string :=
  "updateStatus(" +:+ (if is_live s then "true" else "false") +:+ ", "
    +:+ pretty (restarts s) +:+ ")".

Definition ui_events (w : World) : list Event :=
  match window w with
  | Some win =>
      if js_ok win (status_script (state w)) then [EvJs (status_script (state w))] else []
  | None => []
  end.

Definition ui_world (w : World) : World := with_trace (λ t, t ++ ui_events w) w.

Definition sleep_world (secs : Z) (w : World) : World :=
  with_trace (λ t, t ++ [EvSleep secs]) w.

Definition streamlink_cmd (w : World) : list string :=
  ["python"; "-m"; "streamlink"; kick_url (config (state w)); "--stream-url"; "best"].

(** What [get_hls_url] returns, as a function of what the streamlink run did. *)
Definition probe_result (o : Obs) : option string :=
  match run o with
  | Completed rc out =>
      if (rc =? 0)%Z && startswith (strip out) "http" then Some (strip out) else None
  | RunRaised _ => None
  end.

Definition probe_world (o : Obs) (w : World) : World :=
  match run o with
  | Completed _ _ => with_trace (λ t, t ++ [EvRun (streamlink_cmd w)]) w
  | RunRaised e =>
      log_world (hms o) ("Streamlink error: " +:+ exn_str e) "yellow"
        (with_trace (λ t, t ++ [EvRun (streamlink_cmd w)]) w)
  end.

(** A child after [stop_proc]. *)
Definition stop_child (c : Child) : Child :=
  if is_running c then
    set_status (Exited (if heeds_terminate c then Terminated else Killed)) c
  else c.

Definition stop_events (h : nat) (cs : list Child) : list Event :=
  match cs !! h with
  | Some c =>
      if is_running c then
        EvTerminate h :: (if heeds_terminate c then [] else [EvKill h])
      else []
  | None => []
  end.

Definition stop_proc_world (h : nat) (w : World) : World :=
  mkWorld (state w) (procs w) (alter stop_child h (children w)) (window w)
          (trace w ++ stop_events h (children w)).

Definition stop_all_world (hs : list nat) (w : World) : World :=
  foldl (λ w h, stop_proc_world h w) w hs.

Definition stop_world (w : World) : World :=
  with_procs (λ _, ∅) (stop_all_world ((map_to_list (procs w)).*2) w).

(** The outcomes of [start_ffmpeg]. *)
Definition no_key_world (o : Obs) (w : World) : World :=
  with_state (set_running false)
    (log_world (hms o) "No YouTube key set — open Settings first" "red" w).

Definition popen_world (cmd : list string) (w : World) : World :=
  with_trace (λ t, t ++ [EvPopen cmd]) w.

Definition spawned_world (o : Obs) (cmd : list string) (p : Z) (heeds : bool) (w : World) : World :=
  log_world (hms o) ("FFmpeg started (PID " +:+ pretty p +:+ ")") "green"
    (mkWorld (state w) (<["ffmpeg" := length (children w)]> (procs w))
             (children w ++ [mkChild p cmd heeds (running_children (children w)) Running])
             (window w)
             (trace w ++ [EvPopen cmd])).

Definition not_found_world (o : Obs) (cmd : list string) (w : World) : World :=
  with_state (set_running false)
    (log_world (hms o) "FFmpeg not found! Install it and add to PATH." "red"
       (popen_world cmd w)).

Definition start_outcome (o : Obs) (hls_url : string) (w : World) : result bool * World :=
  let key := yt_key (config (state w)) in
  if nonempty key then
    match spawn o with
    | Spawned p heeds => (Ret true, spawned_world o (build_cmd hls_url key) p heeds w)
    | SpawnRaised (FileNotFoundError s) => (Ret false, not_found_world o (build_cmd hls_url key) w)
    | SpawnRaised e => (Raise e, popen_world (build_cmd hls_url key) w)
    end
  else (Ret false, no_key_world o w).


(** * Invariants of the supervisor *)

(** Number of children of this program that are running. *)
Definition alive_count (w : World) : nat := running_children (children w).

Definition no_child_runs (cs : list Child) : Prop :=
  ∀ h c, cs !! h = Some c → is_running c = false.

(** Every running child is the relay the [procs] dict holds. *)
Definition tracked (w : World) : Prop :=
  ∀ h c, children w !! h = Some c → is_running c = true →
         procs w !! "ffmpeg" = Some h.

(** Every launch command ever composed ends in a non-empty stream key. *)
Definition keyed (tr : list Event) : Prop :=
  ∀ cmd, EvPopen cmd ∈ tr →
         ∃ url key, nonempty key = true ∧ cmd = build_cmd url key.

(** No child was spawned while another was running. *)
Definition born_alone (cs : list Child) : Prop :=
  ∀ h c, cs !! h = Some c → rivals c = 0.

Record Inv (w : World) : Prop := mkInv {
  inv_offline : is_live (state w) = false → procs w = ∅;
  inv_tracked : tracked w;
  inv_alone : born_alone (children w);
  inv_logs : length (logs (state w)) ≤ LOG_LIMIT;
  inv_keyed : keyed (trace w)
}.

(** [cs'] differs from [cs] only in that some children stopped running. *)
Definition calmer (cs cs' : list Child) : Prop :=
  ∀ h c', cs' !! h = Some c' → is_running c' = true → cs !! h = Some c'.

(** The worlds reached from the freshly imported module under serial
    schedules: operator commands, exits of child processes, the guard of
    [stream_loop] and whole iterations of a loop follow one another, each
    run to completion before the next begins. An iteration is taken with
    any value of the loop's local variable, so the iterations may belong to
    several loop threads. The program's threads can also overlap: a command
    can run while an iteration is in progress. Such schedules are not in
    this relation; the part on interleavings treats some of them. *)
Inductive serially_reachable : World → Prop :=
| reach_init c win : serially_reachable (mkWorld (initial_state c) ∅ [] win [])
| reach_exits w hs :
    serially_reachable w → serially_reachable (with_children (os_exits hs) w)
| reach_start w : serially_reachable w → serially_reachable (API_start w).2
| reach_guard w t : serially_reachable w → serially_reachable (stream_loop t [] w).2
| reach_tick w o sst : serially_reachable w → serially_reachable (tick o sst w).2
| reach_stop w t : serially_reachable w → serially_reachable (API_stop t w).2
| reach_save w t fo k y :
    serially_reachable w → serially_reachable (API_save_settings t fo k y w).2.

(** The events a computation added to the trace. *)
Definition events_since (w w' : World) : list Event :=
  drop (length (trace w)) (trace w').

Definition is_probe (e : Event) : bool :=
  match e with EvRun _ => true | _ => false end.
Definition is_launch (e : Event) : bool :=
  match e with EvPopen _ => true | _ => false end.

(** The process table and the trace after [stop_proc] on each of [hs]. *)
Definition stop_all (hs : list nat) (cs : list Child) : list Child :=
  foldl (λ cs h, alter stop_child h cs) cs hs.

Fixpoint stop_all_events (hs : list nat) (cs : list Child) : list Event :=
  match hs with
  | [] => []
  | h :: hs' => stop_events h cs ++ stop_all_events hs' (alter stop_child h cs)
  end.

(** The events of one call of [get_hls_url]. *)
Definition probe_events (o : Obs) (w : World) : list Event :=
  EvRun (streamlink_cmd w) ::
  match run o with
  | Completed _ _ => []
  | RunRaised e => log_events (window w) (hms o) ("Streamlink error: " +:+ exn_str e) "yellow"
  end.

Arguments stop_world : simpl never.
Arguments stop_all_world : simpl never.
Arguments probe_world : simpl never.
Arguments start_outcome : simpl never.
Arguments logged : simpl never.
Arguments log_events : simpl never.
Arguments ui_events : simpl never.

(** ** Which branch an iteration takes

    The tests below are those of [tick] and [loop_body], read off the world
    the iteration starts in and its observations. *)

(** The world once the exits of the observation happened. *)
Definition os_world (o : Obs) (w : World) : World :=
  with_children (os_exits (exits o)) w.

(** The handle the loop polls: [state["is_live"] and procs.get("ffmpeg")]. *)
Definition polled_relay (w : World) : option nat :=
  if is_live (state w) then procs w !! "ffmpeg" else None.

(** [proc.poll() is not None] once the exits of the observation happened. *)
Definition exited_at (o : Obs) (w : World) (proc : nat) : bool :=
  match os_exits (exits o) (children w) !! proc with
  | Some c => negb (is_running c)
  | None => true
  end.

(** The iteration handles a relay death. *)
Definition sees_death (o : Obs) (w : World) : bool :=
  running (state w) &&
  match polled_relay w with
  | Some proc => exited_at o w proc
  | None => false
  end.

(** The iteration begins a broadcast session (line 191 holds). *)
Definition begins_session (o : Obs) (w : World) : bool :=
  running (state w) && negb (is_live (state w)) && truthy_url (probe_result o).

(** The iteration takes the "Kick ended" branch (line 202 holds). *)
Definition ends_session (o : Obs) (w : World) : bool :=
  running (state w) && is_live (state w) &&
  match procs w !! "ffmpeg" with Some _ => false | None => true end &&
  negb (truthy_url (probe_result o)).

(** The crash-storm test of line 156, and the short-session test of line 164. *)
Definition storm (o : Obs) (w : World) : bool :=
  bool_decide (MAX_RESTARTS ≤ length (record_death (now o) (crash_times (state w)))).

Definition short_session (o : Obs) (stream_start_time : option Z) : bool :=
  truthy_time stream_start_time
  && (now2 o - default 0%Z stream_start_time <? MIN_STREAM_DURATION)%Z.

(** The iteration takes the restart branch (line 172 is reached). *)
Definition restarts_relay (o : Obs) (stream_start_time : option Z) (w : World) : bool :=
  sees_death o w && negb (storm o w) && negb (short_session o stream_start_time).

(** The claim that a relay is alive exactly when the session is live. *)
Definition relay_iff_live (w : World) : Prop :=
  0 < alive_count w ↔ is_live (state w) = true.

(** An event that probes the source or launches a relay. *)
Definition calls_out (e : Event) : bool := is_probe e || is_launch e.

(** The refresh test of line 139. *)
Definition refresh_due (o : Obs) (w : World) : bool :=
  let t0 := start_time (state w) in
  let duration := if truthy_time t0 then (now o - default 0 t0)%Z else 0%Z in
  (0 <? duration)%Z && (duration `mod` URL_REFRESH_INTERVAL <? LIVE_CHECK)%Z.

(** The iteration finds its relay running and the refresh due. *)
Definition refreshes (o : Obs) (w : World) : bool :=
  running (state w) &&
  match polled_relay w with
  | Some proc => negb (exited_at o w proc) && refresh_due o w
  | None => false
  end.

(** The iteration reaches a call of [start_ffmpeg]: a session begins, a
    crashed relay is restarted, or the URL is refreshed, and the prober
    returned a URL. *)
Definition attempts_launch (o : Obs) (stream_start_time : option Z) (w : World) : bool :=
  truthy_url (probe_result o) &&
  (begins_session o w || restarts_relay o stream_start_time w || refreshes o w).

(** The terminal condition the crash-storm claim describes. *)
Definition halted (r : result LoopEnd * World) : Prop :=
  r.1 = Ret Returned ∧ running (state r.2) = false ∧ is_live (state r.2) = false.

(** ** The crash ledger as a history

    [ledger_after ts] is the ledger after deaths were handled at the clock
    readings [ts], in that order, starting from the empty ledger. *)
Definition ledger_after (ts : list Z) : list Z :=
  foldl (λ ledger t, record_death t ledger) [] ts.

(** The same from an arbitrary stored ledger. *)
Definition record_all (ledger : list Z) (ts : list Z) : list Z :=
  foldl (λ l t, record_death t l) ledger ts.

(** The number of [ti] with [now - ti < CRASH_WINDOW]. *)
Definition count_in_window (now_ : Z) (ts : list Z) : nat :=
  length (List.filter (in_window now_) ts).

(** The claim that the count the loop takes when it handles a death at
    [now] equals the number of recorded deaths in the window of [now],
    whatever the readings. *)
Definition counts_every_sequence : Prop :=
  ∀ ts now_, length (ledger_after (ts ++ [now_])) = count_in_window now_ (ts ++ [now_]).

(** Clock readings taken in order. *)
Fixpoint chronological (ts : list Z) : bool :=
  match ts with
  | [] => true
  | t :: rest => forallb (λ t', (t <=? t')%Z) rest && chronological rest
  end.

(** The ledger never holds more than [MAX_RESTARTS] entries, and fewer while
    the loop is to run on. *)
Definition ledger_bounded (w : World) : Prop :=
  length (crash_times (state w)) ≤ MAX_RESTARTS ∧
  (running (state w) = true → length (crash_times (state w)) < MAX_RESTARTS).

(** ** Runs of the loop

    The clock readings of the deaths handled in a run of [while_running],
    in order, and whether some iteration of the run begins a session. *)
Fixpoint deaths_in (obs : list Obs) (stream_start_time : option Z) (w : World) : list Z :=
  match obs with
  | [] => []
  | o :: obs' =>
      (if sees_death o w then [now o] else []) ++
      match tick o stream_start_time w with
      | (Ret (Continue sst), w') => deaths_in obs' sst w'
      | _ => []
      end
  end.

Fixpoint no_session_begins (obs : list Obs) (stream_start_time : option Z) (w : World) : bool :=
  match obs with
  | [] => true
  | o :: obs' =>
      negb (begins_session o w) &&
      match tick o stream_start_time w with
      | (Ret (Continue sst), w') => no_session_begins obs' sst w'
      | _ => true
      end
  end.

(** * Sample scenarios

    Concrete configurations and observations used by the examples below. *)

Definition cfg0 : Config := mkConfig "https://kick.com/somebody" "abcd-1234".

(** The module after [main] created no window yet and the operator pressed
    start. *)
Definition started0 : World := (API_start (initial_world cfg0)).2.

(** Streamlink finds the channel live. *)
Definition up : RunOutcome := Completed 0 "https://edge.example/playlist.m3u8".

(** An observation at clock reading [t] (both readings) in which the
    children [ex] have exited. *)
Definition obs_at (ex : list nat) (t : Z) (r : RunOutcome) (s : SpawnOutcome) : Obs :=
  mkObs ex t t "12:00:00" r s.

(** Streamlink finds the channel offline. *)
Definition down : RunOutcome := Completed 1 "error: No playable streams found on this URL".

(** The channel is live but the ffmpeg binary is not installed. *)
Definition obs_no_ffmpeg : Obs :=
  obs_at [] 1000 up (SpawnRaised (FileNotFoundError "ffmpeg")).

(** A world whose log buffer is full and whose window rejects every script. *)
Definition full_log_world : World :=
  mkWorld (mkState true false None 0 [] (replicate 200 (mkLogEntry "11:59:59" "x" "muted")) cfg0)
          ∅ [] (Some (mkWindow (λ _, false))) [].

(** The operator saved a Kick URL but no stream key. *)
Definition no_key_started : World :=
  (API_start (initial_world (mkConfig "https://kick.com/somebody" ""))).2.

(** The session is live with relay 4242 launched at clock reading 1000. *)
Definition live0 : World :=
  (tick (obs_at [] 1000 up (Spawned 4242 true)) None started0).2.

(** Three sessions of ten seconds each, every one ended by the death of its
    relay, then a fourth. *)
Definition short_sessions : list Obs :=
  [ obs_at [] 1000 up (Spawned 4242 true);  obs_at [0] 1010 up (Spawned 1 true);
    obs_at [] 1040 up (Spawned 4243 true);  obs_at [1] 1050 up (Spawned 1 true);
    obs_at [] 1080 up (Spawned 4244 true);  obs_at [2] 1090 up (Spawned 1 true) ].

Definition fourth_session : list Obs :=
  [ obs_at [] 1120 up (Spawned 4245 true);  obs_at [3] 1130 up (Spawned 1 true) ].

(** Three crashes of the session of [live0], each but the last followed by
    a successful relaunch; a further observation is on offer. *)
Definition three_crashes : list Obs :=
  [ obs_at [0] 1200 up (Spawned 4243 true);
    obs_at [1] 1300 up (Spawned 4244 true);
    obs_at [2] 1400 up (Spawned 4245 true);
    obs_at [] 1410 up (Spawned 4246 true) ].

(** * Further definitions

    Notions used by the properties of the remaining code. *)

(** Two values of the [state] dict that differ at most in the log buffer. *)
Definition only_logs_differ (s s' : State) : Prop :=
  set_logs [] s' = set_logs [] s.

(** Every quote and every backtick of [s] comes right after a backslash;
    [escaped] says whether the character before the head of [s] is one. *)
Fixpoint quotes_escaped (escaped : bool) (s : string) : bool :=
  match s with
  | EmptyString => true
  | String a s' =>
      (if Ascii.eqb a "'"%char || Ascii.eqb a "`"%char then escaped else true)
      && quotes_escaped (Ascii.eqb a "\"%char) s'
  end.

(** [s] holds neither a quote nor a backtick. *)
Fixpoint no_quotes (s : string) : bool :=
  match s with
  | EmptyString => true
  | String a s' => negb (Ascii.eqb a "'"%char || Ascii.eqb a "`"%char) && no_quotes s'
  end.

(** Hours, minutes and seconds as line 137 splits a duration. *)
Definition split_duration (duration : Z) : Z * Z * Z :=
  ((duration / 3600)%Z, ((duration `mod` 3600) / 60)%Z, (duration `mod` 60)%Z).

(** The prober finds the channel live in every observation of the list. *)
Definition all_up (obs : list Obs) : Prop :=
  Forall (λ o, truthy_url (probe_result o) = true) obs.

(** The prober finds nothing in any observation of the list. *)
Definition all_down (obs : list Obs) : Prop :=
  Forall (λ o, truthy_url (probe_result o) = false) obs.

(** Number of [Popen] calls recorded so far. *)
Definition launches (w : World) : nat := length (List.filter is_launch (trace w)).

(** The channel is live but the operating system refuses to run ffmpeg. *)
Definition obs_denied : Obs :=
  obs_at [] 1000 up (SpawnRaised (OtherException "PermissionError")).

(** The first launch failed for want of the ffmpeg binary, and the operator
    pressed start again. *)
Definition wedged0 : World :=
  (API_start (tick obs_no_ffmpeg None started0).2).2.

(** [procs] is empty or holds, under the key "ffmpeg" alone, the handle of
    the child spawned last. *)
Definition holds_latest (w : World) : Prop :=
  procs w = ∅ ∨ ∃ n, length (children w) = S n ∧ procs w = {["ffmpeg" := n]}.

(** What a step may do to [procs]: leave it, empty it, or bind "ffmpeg" to a
    child it has just appended to the process table. *)
Definition procs_step (w w' : World) : Prop :=
  (procs w' = procs w ∧ length (children w') = length (children w)) ∨
  (procs w' = ∅ ∧ length (children w') = length (children w)) ∨
  (∃ m, (m = procs w ∨ m = ∅) ∧
        procs w' = <["ffmpeg" := length (children w)]> m ∧
        length (children w') = S (length (children w))).

(** The outcomes of [save_settings]. *)
Definition saved_config (k y : string) (w : World) : World :=
  with_trace (λ t, t ++ [EvWriteConfig (mkConfig k y)])
    (with_state (set_config (mkConfig k y)) w).

Definition save_outcome (t : string) (fo : WriteOutcome) (k y : string) (w : World)
    : result string * World :=
  match fo with
  | Written =>
      (Ret "saved", log_world t ("Settings saved — " +:+ k) "green" (saved_config k y w))
  | WriteRaised e => (Raise e, saved_config k y w)
  end.

(** * Interleavings

    The loop runs in a thread of its own, and an operator command can run
    while an iteration is in progress. The definitions below cut the
    iteration that checks the source (lines 188-213) at the two calls
    during which another thread gets to run, the streamlink run of line 189
    and the [Popen] of line 90; run one after the other, the pieces are the
    iteration (lemmas [check_kick_cut], [start_ffmpeg_cut] and
    [check_decide_cut]). *)

(** Lines 188-189: up to the return of [get_hls_url]. *)
Definition check_probe (o : Obs) : M (option string) :=
  log (hms o) "Checking if Kick is live..." "muted";;
  get_hls_url o.

(** Lines 191-213: the rest of the iteration, given the probed URL. *)
Definition check_decide (o : Obs) (stream_start_time : option Z)
    (url : option string) : M Ctl :=
  live ← get_state is_live;
  if truthy_url url && negb live then
    log (hms o) "Kick LIVE — starting restream now" "green";;
    put_state (set_is_live true);;
    put_state (set_start_time (Some (now o)));;
    put_state (set_restarts 0);;
    put_state (set_crash_times []);;
    start_ffmpeg o (default "" url);;
    update_ui_status;;
    sleep LIVE_CHECK;;
    mret (Continue (Some (now2 o)))
  else if negb (truthy_url url) && live then
    log (hms o) "Kick ended — stopping restream" "green";;
    stop_ffmpeg;;
    put_state (set_is_live false);;
    put_state (set_start_time None);;
    update_ui_status;;
    sleep OFFLINE_CHECK;;
    mret (Continue None)
  else
    log (hms o) offline_msg "muted";;
    sleep OFFLINE_CHECK;;
    mret (Continue stream_start_time).

(** Lines 84-95: [start_ffmpeg] up to the return of [Popen]; the result is
    the new handle, if any. *)
Definition start_spawn (o : Obs) (hls_url : string) : M (option nat) :=
  key ← get_state (λ s, yt_key (config s));
  if negb (nonempty key) then
    log (hms o) "No YouTube key set — open Settings first" "red";;
    put_state (set_running false);;
    mret None
  else
    try_except
      (proc ← Popen o (build_cmd hls_url key);
       mret (Some proc))
      (except_FileNotFoundError
         (log (hms o) "FFmpeg not found! Install it and add to PATH." "red";;
          put_state (set_running false);;
          mret None)).

(** Lines 96-98: the handle is stored in [procs] and the launch logged. *)
Definition start_bind (o : Obs) (proc : option nat) : M bool :=
  match proc with
  | Some proc =>
      modify (with_procs (λ m, <["ffmpeg" := proc]> m));;
      p ← pid_of proc;
      log (hms o) ("FFmpeg started (PID " +:+ pretty p +:+ ")") "green";;
      mret true
  | None => mret false
  end.

(** The world when [Popen] has returned and its handle is not yet stored. *)
Definition launched_world (cmd : list string) (p : Z) (heeds : bool) (w : World) : World :=
  mkWorld (state w) (procs w)
          (children w ++ [mkChild p cmd heeds (running_children (children w)) Running])
          (window w)
          (trace w ++ [EvPopen cmd]).

(** Lines 192-197, then [start_ffmpeg] up to the return of [Popen]. *)
Definition begin_spawn (o : Obs) (hls_url : string) : M (option nat) :=
  log (hms o) "Kick LIVE — starting restream now" "green";;
  put_state (set_is_live true);;
  put_state (set_start_time (Some (now o)));;
  put_state (set_restarts 0);;
  put_state (set_crash_times []);;
  start_spawn o hls_url.

(** The rest of [start_ffmpeg], then lines 199-200. *)
Definition begin_bind (o : Obs) (proc : option nat) : M Ctl :=
  start_bind o proc;;
  update_ui_status;;
  sleep LIVE_CHECK;;
  mret (Continue (Some (now2 o))).

(** The world in which a loop that finds the channel live is about to call
    [Popen] for its first relay, the world once [Popen] has returned, and
    the world [stop()] makes of the latter before the loop goes on. *)
Definition obs_live : Obs := obs_at [] 1000 up (Spawned 4242 true).
Definition probed0 : World := (check_probe obs_live started0).2.
Definition spawned0 : World :=
  (begin_spawn obs_live "https://edge.example/playlist.m3u8" probed0).2.
Definition stopped_midway : World := (API_stop "12:00:01" spawned0).2.

(** ** Two loops

    A loop that sleeps through a [stop()] and the [start()] after it goes on
    beside the loop the [start()] begins. Loop A is started, finds the
    channel offline at 1000 and sleeps [OFFLINE_CHECK]; [stop()] at 1020
    and [start()] at 1021 follow while it sleeps; loop B finds the channel
    live at 1021, begins the session and sleeps [LIVE_CHECK]. Loop A wakes
    at 1030, before loop B; its own [stream_start_time] is still [None]. *)
Definition two_loops : World :=
  let wA1 := (tick (obs_at [] 1000 down (Spawned 1 true)) None started0).2 in
  let wS := (API_start (API_stop "12:00:20" wA1).2).2 in
  (tick (obs_at [] 1021 up (Spawned 4242 true)) None wS).2.

(** The relay of the session has exited, and loop A finds it dead at 1030. *)
Definition obs_death_1030 : Obs := obs_at [0] 1030 up (Spawned 4243 true).

(** A restart counted, the channel offline (so [is_live] is false), and the
    stream key removed in Settings. *)
Definition keyless_after_restart : World :=
  let w := (tick (obs_at [0] 1300 down (Spawned 1 true)) (Some 1000%Z) live0).2 in
  (API_save_settings "12:06:00" Written "https://kick.com/somebody" "" w).2.
(** * The embedding on concrete inputs *)

Example strip_stdout : strip "  https://edge.example/playlist.m3u8
" = "https://edge.example/playlist.m3u8".
Proof. reflexivity. Qed.

(** [str.strip()] removes the whitespace of Unicode: here a no-break space
    U+00A0 in front, a line separator U+2028 and a space behind. *)
Example strip_unicode :
  strip (String (Ascii.ascii_of_N 194) (String (Ascii.ascii_of_N 160) "http://x")
         +:+ String (Ascii.ascii_of_N 226) (String (Ascii.ascii_of_N 128)
               (String (Ascii.ascii_of_N 168) " "))) = "http://x".
Proof. reflexivity. Qed.

Example probe_needs_http :
  probe_result (obs_at [] 0 (Completed 0 "ftp://x") (Spawned 1 true)) = None ∧
  probe_result (obs_at [] 0 (Completed 1 "http://x") (Spawned 1 true)) = None ∧
  probe_result (obs_at [] 0 (Completed 0 " http://x ") (Spawned 1 true)) = Some "http://x".
Proof. by vm_compute. Qed.

Example safe_js_quotes : safe_js "it's `live`" = "it\'s \`live\`".
Proof. reflexivity. Qed.

Example streaming_msg_3725 : streaming_msg 3725 = "Streaming — 1h 2m 5s".
Proof. by vm_compute. Qed.

(** Source unavailable: the loop stays offline, polls every 30 s and
    launches nothing. *)
Example stays_offline :
  let r := stream_loop "12:00:00" [obs_at [] 1000 down (Spawned 1 true);
                                   obs_at [] 1030 down (Spawned 1 true)] started0 in
  r.1 = Ret (Parked None) ∧ is_live (state r.2) = false ∧ children r.2 = [] ∧
  List.filter (λ e, negb (match e with EvPrint _ => true | _ => false end)) (trace r.2) =
    [ EvThread;
      EvRun ["python"; "-m"; "streamlink"; "https://kick.com/somebody"; "--stream-url"; "best"];
      EvSleep 30;
      EvRun ["python"; "-m"; "streamlink"; "https://kick.com/somebody"; "--stream-url"; "best"];
      EvSleep 30 ].
Proof. by vm_compute. Qed.

(** Source available with a stream key: one launch, the session is live and
    [restarts] is 0. *)
Example goes_live :
  is_live (state live0) = true ∧ restarts (state live0) = 0 ∧
  start_time (state live0) = Some 1000%Z ∧
  procs live0 !! "ffmpeg" = Some 0 ∧ alive_count live0 = 1 ∧
  length (List.filter is_launch (trace live0)) = 1.
Proof. by vm_compute. Qed.

(** A crash 300 s into the session: [restarts] becomes 1, the prober is
    asked again after 3 s and a new relay is launched; the session stays
    live. *)
Example crash_then_relaunch :
  let w := (tick (obs_at [0] 1300 up (Spawned 4243 true)) (Some 1000%Z) live0).2 in
  restarts (state w) = 1 ∧ is_live (state w) = true ∧
  procs w !! "ffmpeg" = Some 1 ∧ alive_count w = 1 ∧
  List.filter (λ e, negb (match e with EvPrint _ => true | _ => false end))
    (events_since live0 w) =
    [ EvSleep 3;
      EvRun ["python"; "-m"; "streamlink"; "https://kick.com/somebody"; "--stream-url"; "best"];
      EvPopen (build_cmd "https://edge.example/playlist.m3u8" "abcd-1234");
      EvSleep 10 ].
Proof. by vm_compute. Qed.

(** * Lemmas: the monadic code computes the closed forms *)

Lemma log_run t msg level w :
  log t msg level w = (Ret tt, log_world t msg level w).
Proof.
  destruct w as [s ps cs win tr].
  unfold log, log_world, logged, log_events, safe_js, mbind, M_bind, put_state,
    get_state, gets, modify, print, emit, try_except, except_all, evaluate_js,
    with_state, with_trace, mret, M_ret, raise.
  cbn -[String.append replace_char LOG_LIMIT addLog_script].
  destruct (decide (LOG_LIMIT < length (logs s ++ [mkLogEntry t msg level])));
    destruct win as [win|]; cbn -[String.append replace_char LOG_LIMIT addLog_script]; try done.
  all: destruct (js_ok win _); cbn -[String.append replace_char LOG_LIMIT addLog_script].
  all: unfold with_trace, set_logs; cbn -[String.append replace_char LOG_LIMIT addLog_script]; by rewrite <- ?(assoc_L (++)).
Qed.

Lemma sleep_run secs w : sleep secs w = (Ret tt, sleep_world secs w).
Proof. reflexivity. Qed.

Lemma update_ui_status_run w : update_ui_status w = (Ret tt, ui_world w).
Proof.
  destruct w as [s ps cs win tr].
  unfold update_ui_status, ui_world, ui_events, status_script, mbind, M_bind,
    get_state, gets, try_except, except_all, evaluate_js, emit, modify, raise,
    with_trace, mret, M_ret.
  cbn -[String.append].
  destruct win as [win|]; cbn -[String.append].
  - destruct (js_ok win _); cbn -[String.append]; by rewrite ?(right_id_L [] (++)).
  - by rewrite (right_id_L [] (++)).
Qed.

Lemma get_hls_url_run o w :
  get_hls_url o w = (Ret (probe_result o), probe_world o w).
Proof.
  unfold get_hls_url, probe_result, probe_world, subprocess_run, try_except,
    except_all, mbind, M_bind, get_state, gets, emit, modify, raise, mret, M_ret.
  fold (streamlink_cmd w).
  destruct (run o) as [rc out|e]; cbn -[String.append strip startswith streamlink_cmd].
  - by destruct (_ && _).
  - by rewrite log_run.
Qed.


Lemma stop_child_running c :
  status c = Running →
  stop_child c = set_status (Exited (if heeds_terminate c then Terminated else Killed)) c.
Proof. intros H. unfold stop_child, is_running. by rewrite H. Qed.

Lemma stop_child_exited c x : status c = Exited x → stop_child c = c.
Proof. intros H. unfold stop_child, is_running. by rewrite H. Qed.

Lemma list_alter_None {A} (f : A → A) (l : list A) (i : nat) :
  l !! i = None → alter f i l = l.
Proof.
  intros H. apply list_eq. intros j. rewrite list_lookup_alter.
  case_decide; subst; by rewrite ?H.
Qed.

Lemma stop_proc_run h w : stop_proc h w = (Ret tt, stop_proc_world h w).
Proof.
  destruct w as [s ps cs win tr].
  unfold stop_proc, stop_proc_world, stop_events, poll, terminate, wait, kill,
    try_except, except_TimeoutExpired, mbind, M_bind, gets, emit, modify, raise,
    with_trace, with_children, mret, M_ret, is_running.
  cbn.
  destruct (cs !! h) as [c|] eqn:Hc; cbn.
  - destruct (status c) eqn:Hst; cbn; rewrite ?Hc; cbn; rewrite ?Hst; cbn.
    + destruct (heeds_terminate c) eqn:Hh; cbn.
      * do 2 f_equal. apply list_alter_ext; [|done].
        intros c' Hc'. assert (c' = c) as -> by congruence.
        rewrite stop_child_running by done. by rewrite Hh.
      * rewrite <- (assoc_L (++)). do 2 f_equal.
        apply list_alter_ext; [|done].
        intros c' Hc'. assert (c' = c) as -> by congruence.
        rewrite stop_child_running by done. by rewrite Hst, Hh.
    + rewrite (right_id_L [] (++)). do 2 f_equal.
      rewrite <- (list_alter_id id cs h) at 1 by done.
      apply list_alter_ext; [|done].
      intros c' Hc'. assert (c' = c) as -> by congruence.
      symmetry. by eapply stop_child_exited.
  - rewrite (right_id_L [] (++)). do 2 f_equal.
    symmetry. by apply list_alter_None.
Qed.

Lemma for_each_stop_run (items : list (string * nat)) w :
  for_each items (λ kp, stop_proc kp.2) w = (Ret tt, stop_all_world (items.*2) w).
Proof.
  revert w. induction items as [|[k h] items IH]; intros w; [done|].
  cbn [for_each fmap list_fmap]. unfold mbind, M_bind at 1.
  rewrite stop_proc_run. cbn. apply IH.
Qed.

Lemma stop_ffmpeg_run w : stop_ffmpeg w = (Ret tt, stop_world w).
Proof.
  unfold stop_ffmpeg, stop_world, mbind, M_bind, gets, modify.
  by rewrite for_each_stop_run.
Qed.

Lemma start_ffmpeg_run o url w : start_ffmpeg o url w = start_outcome o url w.
Proof.
  unfold start_ffmpeg, start_outcome, mbind at 1, M_bind at 1, get_state, gets.
  destruct (nonempty (yt_key (config (state w)))) eqn:Hk; cbn [negb].
  - unfold try_except, Popen, mbind, M_bind, emit, modify, gets, pid_of, raise.
    destruct (spawn o) as [p heeds|e].
    + unfold mret, M_ret. cbn -[String.append build_cmd log].
      rewrite list_lookup_middle by done. cbn -[String.append build_cmd log].
      rewrite log_run. reflexivity.
    + unfold except_FileNotFoundError. destruct e; try reflexivity.
      unfold mbind, M_bind. rewrite log_run. reflexivity.
  - unfold no_key_world, mbind, M_bind. rewrite log_run. reflexivity.
Qed.

(** * The invariant *)

Lemma logged_length e l : length l ≤ LOG_LIMIT → length (logged e l) ≤ LOG_LIMIT.
Proof.
  intros H. unfold logged. case_decide as Hd.
  - rewrite length_drop. rewrite length_app in *. simpl in *. lia.
  - lia.
Qed.

Lemma log_events_no_launch win t msg level cmd :
  EvPopen cmd ∉ log_events win t msg level.
Proof.
  unfold log_events. intros H.
  apply elem_of_cons in H as [H|H]; [done|].
  destruct win as [win|]; [|by apply elem_of_nil in H].
  destruct (js_ok win _); [|by apply elem_of_nil in H].
  by apply list_elem_of_singleton in H.
Qed.

Lemma keyed_app tr evs :
  keyed tr → (∀ cmd, EvPopen cmd ∉ evs) → keyed (tr ++ evs).
Proof.
  intros Hk Hn cmd [H|H]%elem_of_app; [by apply Hk|by apply Hn in H].
Qed.

Lemma born_alone_alter (f : Child → Child) h cs :
  (∀ c, rivals (f c) = rivals c) → born_alone cs → born_alone (alter f h cs).
Proof.
  intros Hf Hb j c'. rewrite list_lookup_alter. case_decide as Hj; [subst j|apply Hb].
  destruct (cs !! h) as [c|] eqn:Hc; [|done]. cbn. intros [= <-].
  rewrite Hf. by apply (Hb h).
Qed.

Lemma Inv_log t msg level w : Inv w → Inv (log_world t msg level w).
Proof.
  intros [H1 H2 H5 H3 H4]. split; cbn -[LOG_LIMIT]; try done.
  - by apply logged_length.
  - apply keyed_app; [done|]. intros cmd. apply log_events_no_launch.
Qed.

(** ** Frame properties of the prober *)

Lemma probe_world_state o w :
  ∃ l, state (probe_world o w) = set_logs l (state w) ∧
       (length (logs (state w)) ≤ LOG_LIMIT → length l ≤ LOG_LIMIT).
Proof.
  unfold probe_world. destruct (run o); cbn -[LOG_LIMIT].
  - exists (logs (state w)). split; [by destruct (state w)|done].
  - eexists. split; [reflexivity|]. apply logged_length.
Qed.

Lemma probe_world_procs o w : procs (probe_world o w) = procs w.
Proof. unfold probe_world. by destruct (run o). Qed.
Lemma probe_world_children o w : children (probe_world o w) = children w.
Proof. unfold probe_world. by destruct (run o). Qed.
Lemma probe_world_window o w : window (probe_world o w) = window w.
Proof. unfold probe_world. by destruct (run o). Qed.
Lemma probe_world_running o w : running (state (probe_world o w)) = running (state w).
Proof. destruct (probe_world_state o w) as (l & -> & _). done. Qed.
Lemma probe_world_is_live o w : is_live (state (probe_world o w)) = is_live (state w).
Proof. destruct (probe_world_state o w) as (l & -> & _). done. Qed.
Lemma probe_world_start_time o w : start_time (state (probe_world o w)) = start_time (state w).
Proof. destruct (probe_world_state o w) as (l & -> & _). done. Qed.
Lemma probe_world_restarts o w : restarts (state (probe_world o w)) = restarts (state w).
Proof. destruct (probe_world_state o w) as (l & -> & _). done. Qed.
Lemma probe_world_crash_times o w : crash_times (state (probe_world o w)) = crash_times (state w).
Proof. destruct (probe_world_state o w) as (l & -> & _). done. Qed.
Lemma probe_world_config o w : config (state (probe_world o w)) = config (state w).
Proof. destruct (probe_world_state o w) as (l & -> & _). done. Qed.

Lemma probe_world_trace o w : trace (probe_world o w) = trace w ++ probe_events o w.
Proof.
  unfold probe_world, probe_events. destruct (run o); cbn -[String.append]; [done|].
  by rewrite <- (assoc_L (++)).
Qed.

Lemma probe_events_no_launch o w cmd : EvPopen cmd ∉ probe_events o w.
Proof.
  unfold probe_events. intros [H|H]%elem_of_cons; [done|].
  destruct (run o); [by apply elem_of_nil in H|].
  by apply log_events_no_launch in H.
Qed.

Lemma Inv_probe o w : Inv w → Inv (probe_world o w).
Proof.
  intros [H1 H2 H5 H3 H4]. split.
  - rewrite probe_world_is_live, probe_world_procs. done.
  - unfold tracked. rewrite probe_world_procs, probe_world_children. done.
  - by rewrite probe_world_children.
  - destruct (probe_world_state o w) as (l & -> & Hl). by apply Hl.
  - rewrite probe_world_trace. apply keyed_app; [done|].
    intros cmd. apply probe_events_no_launch.
Qed.

(** ** Stopping the relay *)

Lemma stop_all_world_cons h hs w :
  stop_all_world (h :: hs) w = stop_all_world hs (stop_proc_world h w).
Proof. done. Qed.

Lemma stop_all_world_state hs w : state (stop_all_world hs w) = state w.
Proof.
  revert w. induction hs as [|h hs IH]; intros w; [done|].
  by rewrite stop_all_world_cons, IH.
Qed.
Lemma stop_all_world_procs hs w : procs (stop_all_world hs w) = procs w.
Proof.
  revert w. induction hs as [|h hs IH]; intros w; [done|].
  by rewrite stop_all_world_cons, IH.
Qed.
Lemma stop_all_world_window hs w : window (stop_all_world hs w) = window w.
Proof.
  revert w. induction hs as [|h hs IH]; intros w; [done|].
  by rewrite stop_all_world_cons, IH.
Qed.
Lemma stop_all_world_children hs w :
  children (stop_all_world hs w) = stop_all hs (children w).
Proof.
  revert w. induction hs as [|h hs IH]; intros w; [done|].
  by rewrite stop_all_world_cons, IH.
Qed.
Lemma stop_all_world_trace hs w :
  trace (stop_all_world hs w) = trace w ++ stop_all_events hs (children w).
Proof.
  revert w. induction hs as [|h hs IH]; intros w.
  - cbn. by rewrite (right_id_L [] (++)).
  - rewrite stop_all_world_cons, IH. cbn. by rewrite <- (assoc_L (++)).
Qed.

Lemma stop_world_state w : state (stop_world w) = state w.
Proof. unfold stop_world. cbn. apply stop_all_world_state. Qed.
Lemma stop_world_procs w : procs (stop_world w) = ∅.
Proof. done. Qed.
Lemma stop_world_window w : window (stop_world w) = window w.
Proof. unfold stop_world. cbn. apply stop_all_world_window. Qed.
Lemma stop_world_children w :
  children (stop_world w) = stop_all ((map_to_list (procs w)).*2) (children w).
Proof. unfold stop_world. cbn. apply stop_all_world_children. Qed.
Lemma stop_world_trace w :
  trace (stop_world w) =
  trace w ++ stop_all_events ((map_to_list (procs w)).*2) (children w).
Proof. unfold stop_world. cbn. apply stop_all_world_trace. Qed.

Lemma calmer_refl cs : calmer cs cs.
Proof. by intros h c. Qed.

Lemma calmer_trans cs1 cs2 cs3 : calmer cs1 cs2 → calmer cs2 cs3 → calmer cs1 cs3.
Proof. intros H12 H23 h c Hc Hr. apply H12; [|done]. by apply H23. Qed.

Lemma calmer_alter (f : Child → Child) h cs :
  (∀ c, is_running (f c) = true → f c = c) → calmer cs (alter f h cs).
Proof.
  intros Hf j c'. rewrite list_lookup_alter. case_decide as Hj; [subst j|done].
  destruct (cs !! h) as [c|]; [|done]. cbn. intros [= <-] Hr. by rewrite Hf.
Qed.

Lemma stop_child_not_running c : is_running (stop_child c) = false.
Proof. unfold stop_child. destruct (is_running c) eqn:E; done. Qed.

Lemma crash_not_running c : is_running (crash c) = false.
Proof. unfold crash. destruct (is_running c) eqn:E; done. Qed.

Lemma stop_all_cons h hs cs :
  stop_all (h :: hs) cs = stop_all hs (alter stop_child h cs).
Proof. done. Qed.

Lemma calmer_stop_all hs cs : calmer cs (stop_all hs cs).
Proof.
  revert cs. induction hs as [|h hs IH]; intros cs; [apply calmer_refl|].
  rewrite stop_all_cons. eapply calmer_trans; [|apply IH].
  apply calmer_alter. intros c. by rewrite stop_child_not_running.
Qed.

Lemma calmer_os_exits hs cs : calmer cs (os_exits hs cs).
Proof.
  induction hs as [|h hs IH]; [apply calmer_refl|].
  cbn. eapply calmer_trans; [apply IH|].
  apply calmer_alter. intros c. by rewrite crash_not_running.
Qed.

Lemma born_alone_stop_all hs cs : born_alone cs → born_alone (stop_all hs cs).
Proof.
  revert cs. induction hs as [|h hs IH]; intros cs Hb; [done|].
  rewrite stop_all_cons. apply IH, born_alone_alter; [|done].
  intros c. unfold stop_child. by destruct (is_running c).
Qed.

Lemma born_alone_os_exits hs cs : born_alone cs → born_alone (os_exits hs cs).
Proof.
  intros Hb. induction hs as [|h hs IH]; [done|].
  cbn. apply born_alone_alter; [|done].
  intros c. unfold crash. by destruct (is_running c).
Qed.

Lemma running_children_0 cs : no_child_runs cs → running_children cs = 0.
Proof.
  unfold running_children. intros Hn.
  destruct (List.filter is_running cs) as [|y l'] eqn:Hf; [done|].
  assert (Hy : List.In y (List.filter is_running cs)) by (rewrite Hf; by left).
  apply List.filter_In in Hy as [Hy HPy].
  apply list_elem_of_In, list_elem_of_lookup in Hy as [j Hj].
  by rewrite (Hn _ _ Hj) in HPy.
Qed.

Lemma stop_all_stops hs cs h c :
  h ∈ hs → stop_all hs cs !! h = Some c → is_running c = false.
Proof.
  revert cs. induction hs as [|h' hs IH]; intros cs Hin Hc; [by apply elem_of_nil in Hin|].
  rewrite stop_all_cons in Hc. destruct (is_running c) eqn:Hr; [|done].
  pose proof (calmer_stop_all hs _ _ _ Hc Hr) as Hc'.
  apply elem_of_cons in Hin as [->|Hin]; [|exact (IH _ Hin Hc)].
  rewrite list_lookup_alter_eq in Hc'.
  destruct (cs !! h') as [c0|]; [|done]. injection Hc' as <-.
  by rewrite stop_child_not_running in Hr.
Qed.

Lemma stop_world_no_child_runs w :
  tracked w → no_child_runs (children (stop_world w)).
Proof.
  intros Ht h c Hc. rewrite stop_world_children in Hc.
  destruct (is_running c) eqn:Hr; [|done].
  pose proof (calmer_stop_all _ _ _ _ Hc Hr) as Hc'.
  pose proof (Ht _ _ Hc' Hr) as Hp.
  rewrite <- Hr. eapply stop_all_stops; [|done].
  apply list_elem_of_fmap. exists ("ffmpeg", h). split; [done|].
  by apply elem_of_map_to_list.
Qed.

Lemma stop_events_no_launch h cs cmd : EvPopen cmd ∉ stop_events h cs.
Proof.
  unfold stop_events. destruct (cs !! h) as [c|]; [|by intros ?%elem_of_nil].
  destruct (is_running c); [|by intros ?%elem_of_nil].
  intros [?|H]%elem_of_cons; [done|].
  destruct (heeds_terminate c); [by apply elem_of_nil in H|].
  by apply list_elem_of_singleton in H.
Qed.

Lemma stop_all_events_no_launch hs cs cmd : EvPopen cmd ∉ stop_all_events hs cs.
Proof.
  revert cs. induction hs as [|h hs IH]; intros cs; cbn; [by intros ?%elem_of_nil|].
  intros [H|H]%elem_of_app; [by apply stop_events_no_launch in H|by apply IH in H].
Qed.

Lemma tracked_no_child_runs w : no_child_runs (children w) → tracked w.
Proof. intros Hn h c Hc Hr. by rewrite (Hn _ _ Hc) in Hr. Qed.

Lemma Inv_stop w : Inv w → Inv (stop_world w).
Proof.
  intros [H1 H2 H5 H3 H4]. split.
  - done.
  - by apply tracked_no_child_runs, stop_world_no_child_runs.
  - rewrite stop_world_children. by apply born_alone_stop_all.
  - by rewrite stop_world_state.
  - rewrite stop_world_trace. apply keyed_app; [done|].
    intros cmd. apply stop_all_events_no_launch.
Qed.

(** ** The invariant along the primitive steps *)

Lemma Inv_trace evs w :
  Inv w → (∀ cmd, EvPopen cmd ∉ evs) → Inv (with_trace (λ t, t ++ evs) w).
Proof. intros [H1 H2 H5 H3 H4] Hn. split; try done. by apply keyed_app. Qed.

Lemma ui_events_no_launch w cmd : EvPopen cmd ∉ ui_events w.
Proof.
  unfold ui_events. destruct (window w) as [win|]; [|by intros ?%elem_of_nil].
  destruct (js_ok win _); [|by intros ?%elem_of_nil].
  by intros ?%list_elem_of_singleton.
Qed.

Lemma Inv_ui w : Inv w → Inv (ui_world w).
Proof. intros H. apply Inv_trace; [done|]. intros cmd. apply ui_events_no_launch. Qed.

Lemma Inv_sleep secs w : Inv w → Inv (sleep_world secs w).
Proof.
  intros H. apply Inv_trace; [done|]. by intros cmd ?%list_elem_of_singleton.
Qed.

Lemma Inv_os hs w : Inv w → Inv (with_children (os_exits hs) w).
Proof.
  intros [H1 H2 H5 H3 H4]. split; try done.
  - intros h c Hc Hr. cbn in *. apply (H2 h c); [|done].
    by eapply calmer_os_exits.
  - by apply born_alone_os_exits.
Qed.

(** Assignments to fields of [state] other than [logs] keep the invariant,
    provided [is_live] is only cleared while no relay is held. *)
Lemma Inv_state (f : State → State) w :
  Inv w →
  logs (f (state w)) = logs (state w) →
  (is_live (f (state w)) = false → is_live (state w) = false ∨ procs w = ∅) →
  Inv (with_state f w).
Proof.
  intros [H1 H2 H5 H3 H4] Hl Hf. split; cbn -[LOG_LIMIT]; try done.
  - intros Hlive. destruct (Hf Hlive) as [?|?]; auto.
  - by rewrite Hl.
Qed.

Lemma start_outcome_cases o url w :
  let key := yt_key (config (state w)) in
  let cmd := build_cmd url key in
  (nonempty key = false ∧ start_outcome o url w = (Ret false, no_key_world o w)) ∨
  (nonempty key = true ∧
   ((∃ p heeds, spawn o = Spawned p heeds ∧
                start_outcome o url w = (Ret true, spawned_world o cmd p heeds w)) ∨
    (∃ s, spawn o = SpawnRaised (FileNotFoundError s) ∧
          start_outcome o url w = (Ret false, not_found_world o cmd w)) ∨
    (∃ e, spawn o = SpawnRaised e ∧ (∀ s, e ≠ FileNotFoundError s) ∧
          start_outcome o url w = (Raise e, popen_world cmd w)))).
Proof.
  cbn zeta. unfold start_outcome.
  destruct (nonempty (yt_key (config (state w)))); [right; split; [done|]|by left].
  destruct (spawn o) as [p heeds|e]; [left; eauto|].
  destruct e; [right; left; eauto|right; right..]; eexists; (split; [done|]); by split.
Qed.

Lemma keyed_snoc_launch tr url key :
  keyed tr → nonempty key = true → keyed (tr ++ [EvPopen (build_cmd url key)]).
Proof.
  intros Hk Hn cmd [H|H]%elem_of_app; [by apply Hk|].
  apply list_elem_of_singleton in H as [= ->]. eauto.
Qed.

Lemma Inv_start o url w :
  Inv w → no_child_runs (children w) → is_live (state w) = true →
  Inv (start_outcome o url w).2.
Proof.
  intros HI Hn Hlive.
  destruct (start_outcome_cases o url w)
    as [[Hk ->]|[Hk [(p & heeds & _ & ->)|[(s & _ & ->)|(e & _ & _ & ->)]]]]; cbn [snd].
  - unfold no_key_world. apply Inv_state; [by apply Inv_log|done|]. cbn. congruence.
  - unfold spawned_world. apply Inv_log. destruct HI as [H1 H2 H5 H3 H4].
    split; cbn -[LOG_LIMIT]; try done.
    + congruence.
    + intros h c Hc Hr. cbn in *.
      destruct (decide (h < length (children w))) as [Hlt|Hge].
      * rewrite lookup_app_l in Hc by done. by rewrite (Hn _ _ Hc) in Hr.
      * apply lookup_lt_Some in Hc as Hlen. rewrite length_app in Hlen. cbn in Hlen.
        assert (h = length (children w)) as -> by lia.
        by rewrite lookup_insert_eq.
    + intros h c [[_ Hc]|[_ <-]]%lookup_snoc_Some; [by apply (H5 h)|].
      exact (running_children_0 _ Hn).
    + by apply keyed_snoc_launch.
  - unfold not_found_world, popen_world.
    apply Inv_state; [apply Inv_log|done|cbn; congruence].
    destruct HI as [H1 H2 H5 H3 H4]. split; try done. by apply keyed_snoc_launch.
  - unfold popen_world.
    destruct HI as [H1 H2 H5 H3 H4]. split; try done. by apply keyed_snoc_launch.
Qed.

Ltac mstep :=
  first [ rewrite log_run | rewrite sleep_run | rewrite update_ui_status_run
        | rewrite get_hls_url_run | rewrite stop_ffmpeg_run
        | rewrite start_ffmpeg_run ].

Ltac mred :=
  unfold os_step, mbind, M_bind, put_state, get_state, gets, modify, mret, M_ret;
  cbn beta iota zeta.

Ltac mrun := mred; repeat (mstep; cbn beta iota zeta).


Lemma no_child_runs_empty w : Inv w → procs w = ∅ → no_child_runs (children w).
Proof.
  intros HI Hp h c Hc. destruct (is_running c) eqn:Hr; [|done].
  pose proof (inv_tracked _ HI _ _ Hc Hr) as Ht. by rewrite Hp in Ht.
Qed.

Lemma no_child_runs_dead w proc :
  Inv w → procs w !! "ffmpeg" = Some proc →
  (∀ c, children w !! proc = Some c → is_running c = false) →
  no_child_runs (children w).
Proof.
  intros HI Hp Hd h c Hc. destruct (is_running c) eqn:Hr; [|done].
  pose proof (inv_tracked _ HI _ _ Hc Hr) as Ht.
  assert (h = proc) as -> by congruence. by rewrite (Hd _ Hc) in Hr.
Qed.

Ltac inv_state :=
  apply Inv_state;
  [|try done; cbn; by rewrite ?stop_world_state
   |cbn; first [by intros; congruence | by auto]].

Lemma Inv_check_kick o sst w : Inv w → Inv (check_kick o sst w).2.
Proof.
  intros HI. unfold check_kick. mrun.
  rewrite probe_world_is_live. cbn [state log_world is_live set_logs].
  set (w1 := probe_world o (log_world _ _ _ w)).
  assert (HI1 : Inv w1) by by apply Inv_probe, Inv_log.
  assert (Hp1 : procs w1 = procs w) by (unfold w1; by rewrite probe_world_procs).
  assert (Hc1 : children w1 = children w) by (unfold w1; by rewrite probe_world_children).
  destruct (truthy_url (probe_result o) && negb (is_live (state w))) eqn:Hnew.
  - apply andb_true_iff in Hnew as [_ Hlive%negb_true_iff].
    mrun.
    match goal with |- context [start_outcome ?o ?u ?W] =>
      assert (HS : Inv (start_outcome o u W).2);
      [|destruct (start_outcome o u W) as [[b|e] W']; cbn [snd] in HS] end.
    + apply Inv_start; [| |done].
      * repeat inv_state. by apply Inv_log.
      * cbn. rewrite Hc1. apply no_child_runs_empty; [done|]. by apply (inv_offline _ HI).
    + mrun. by apply Inv_sleep, Inv_ui.
    + done.
  - destruct (negb (truthy_url (probe_result o)) && is_live (state w)) eqn:Hend.
    + mrun. apply Inv_sleep, Inv_ui.
      repeat inv_state. by apply Inv_stop, Inv_log.
    + mrun. by apply Inv_sleep, Inv_log.
Qed.


Ltac start_cases HS :=
  match goal with |- context [start_outcome ?o ?u ?W] =>
    let b := fresh "b" in let e := fresh "e" in let W' := fresh "W" in
    assert (HS : Inv (start_outcome o u W).2);
    [|destruct (start_outcome o u W) as [[b|e] W']; cbn [snd] in HS]
  end.

Lemma Inv_relay_alive o sst w :
  Inv w → is_live (state w) = true → Inv (relay_alive o sst w).2.
Proof.
  intros HI Hlive. unfold relay_alive. mrun.
  set (duration := if truthy_time _ then _ else _).
  destruct ((0 <? duration)%Z && (duration `mod` URL_REFRESH_INTERVAL <? LIVE_CHECK)%Z).
  - mrun. destruct (truthy_url (probe_result o)).
    + mrun. start_cases HS.
      * apply Inv_start.
        -- by apply Inv_sleep, Inv_stop, Inv_probe, Inv_log.
        -- cbn. apply stop_world_no_child_runs.
           by apply inv_tracked, Inv_probe, Inv_log.
        -- cbn. by rewrite stop_world_state, probe_world_is_live.
      * mrun. by apply Inv_sleep, Inv_log, Inv_log.
      * done.
    + mrun. by apply Inv_sleep, Inv_log, Inv_probe, Inv_log.
  - mrun. by apply Inv_sleep, Inv_log.
Qed.

Lemma Inv_relay_dead o sst w :
  Inv w → is_live (state w) = true → no_child_runs (children w) →
  Inv (relay_dead o sst w).2.
Proof.
  intros HI Hlive Hn. unfold relay_dead. mrun.
  cbn [state with_state crash_times set_crash_times].
  case_decide as Hstorm.
  - mrun. apply Inv_ui. repeat inv_state. by apply Inv_stop, Inv_log; repeat inv_state.
  - destruct (truthy_time sst && _).
    + mrun. apply Inv_sleep, Inv_ui. repeat inv_state.
      by apply Inv_stop, Inv_log; repeat inv_state.
    + mrun. destruct (truthy_url (probe_result o)).
      * mrun. start_cases HS.
        -- apply Inv_start.
           ++ apply Inv_probe, Inv_sleep, Inv_log. by repeat inv_state.
           ++ by rewrite probe_world_children.
           ++ by rewrite probe_world_is_live.
        -- mrun. by apply Inv_sleep, Inv_ui.
        -- done.
      * mrun. apply Inv_sleep, Inv_ui. repeat inv_state.
        apply Inv_stop, Inv_log, Inv_probe, Inv_sleep, Inv_log. by repeat inv_state.
Qed.

Lemma Inv_tick o sst w : Inv w → Inv (tick o sst w).2.
Proof.
  intros HI. unfold tick. mrun.
  destruct (running (state w)) eqn:Hrun; [|exact HI].
  apply (Inv_os (exits o)) in HI. mrun.
  set (w1 := with_children (os_exits (exits o)) w) in *.
  unfold loop_body. mrun.
  destruct (procs w1 !! "ffmpeg") as [proc|] eqn:Hp; [|by apply Inv_check_kick].
  destruct (is_live (state w1)) eqn:Hlive; [|by apply Inv_check_kick].
  unfold poll. mred.
  destruct (children w1 !! proc) as [c|] eqn:Hc.
  - destruct (status c) eqn:Hst.
    + by apply Inv_relay_alive.
    + apply Inv_relay_dead; [done..|].
      eapply no_child_runs_dead; [done..|].
      intros c' Hc'. assert (c' = c) as -> by congruence.
      unfold is_running. by rewrite Hst.
  - apply Inv_relay_dead; [done..|].
    eapply no_child_runs_dead; [done..|]. intros c' Hc'. congruence.
Qed.


(** ** The invariant holds in every serially_reachable world *)

Lemma Inv_init c win : Inv (mkWorld (initial_state c) ∅ [] win []).
Proof.
  split.
  - done.
  - intros h c' Hc. cbn in Hc. by rewrite lookup_nil in Hc.
  - intros h c' Hc. cbn in Hc. by rewrite lookup_nil in Hc.
  - cbn. lia.
  - intros cmd H. by apply elem_of_nil in H.
Qed.

Lemma Inv_API_start w : Inv w → Inv (API_start w).2.
Proof.
  intros HI. unfold API_start. mrun.
  destruct (running (state w)); cbn [negb]; [done|].
  mrun. unfold emit. mred. apply Inv_trace; [|by intros cmd ?%list_elem_of_singleton].
  by repeat inv_state.
Qed.

Lemma Inv_API_stop t w : Inv w → Inv (API_stop t w).2.
Proof.
  intros HI. unfold API_stop. mrun. apply Inv_log, Inv_ui.
  repeat inv_state. apply Inv_stop. by inv_state.
Qed.

Lemma API_save_settings_run t fo k y w :
  API_save_settings t fo k y w = save_outcome t fo k y w.
Proof.
  unfold API_save_settings, save_config, save_outcome, emit, raise. mred.
  destruct fo as [|e]; [|done]. by mrun.
Qed.

Lemma Inv_API_save_settings t fo k y w : Inv w → Inv (API_save_settings t fo k y w).2.
Proof.
  intros HI. rewrite API_save_settings_run.
  assert (Inv (saved_config k y w)) as HS.
  { apply Inv_trace; [by inv_state|]. by intros cmd ?%list_elem_of_singleton. }
  destruct fo; cbn [save_outcome snd]; [by apply Inv_log|done].
Qed.

Lemma Inv_guard t w : Inv w → Inv (stream_loop t [] w).2.
Proof.
  intros HI. unfold stream_loop. mrun.
  destruct (nonempty (kick_url (config (state w)))); cbn [negb]; [done|].
  mrun. inv_state. by apply Inv_log.
Qed.

Lemma reachable_Inv w : serially_reachable w → Inv w.
Proof.
  induction 1; auto using Inv_init, Inv_os, Inv_API_start, Inv_guard, Inv_tick,
    Inv_API_stop, Inv_API_save_settings.
Qed.

Lemma filter_le_1 {A} (P : A → bool) (l : list A) :
  (∀ i j x y, l !! i = Some x → l !! j = Some y → P x = true → P y = true → i = j) →
  length (List.filter P l) ≤ 1.
Proof.
  induction l as [|a l IH]; intros H; cbn; [lia|].
  destruct (P a) eqn:Ha; cbn.
  - assert (List.filter P l = []) as ->; [|cbn; lia].
    destruct (List.filter P l) as [|y l'] eqn:Hf; [done|].
    assert (Hy : List.In y (List.filter P l)) by (rewrite Hf; by left).
    apply List.filter_In in Hy as [Hy HPy].
    apply list_elem_of_In, list_elem_of_lookup in Hy as [j Hj].
    by specialize (H 0 (S j) a y eq_refl Hj Ha HPy).
  - apply IH. intros i j x y Hi Hj Hx Hy.
    by specialize (H (S i) (S j) x y Hi Hj Hx Hy) as [= ->].
Qed.

Lemma alive_count_le_1 w : tracked w → alive_count w ≤ 1.
Proof.
  intros Ht. apply filter_le_1. intros i j x y Hi Hj Hx Hy.
  pose proof (Ht _ _ Hi Hx). pose proof (Ht _ _ Hj Hy). congruence.
Qed.

Lemma alive_count_0 w : no_child_runs (children w) → alive_count w = 0.
Proof. apply running_children_0. Qed.

Lemma reachable_while obs sst w : serially_reachable w → serially_reachable (while_running obs sst w).2.
Proof.
  revert sst w. induction obs as [|o obs IH]; intros sst w Hw; [done|].
  cbn [while_running]. unfold mbind, M_bind.
  pose proof (reach_tick w o sst Hw) as Ht.
  destruct (tick o sst w) as [[[sst'|]|e] w']; cbn [snd] in *; auto.
Qed.

Lemma reachable_stream_loop t obs w : serially_reachable w → serially_reachable (stream_loop t obs w).2.
Proof.
  intros Hw. pose proof (reach_guard w t Hw) as Hg. revert Hg.
  unfold stream_loop. mrun.
  destruct (nonempty (kick_url (config (state w)))); cbn [negb]; [|done].
  intros _. by apply reachable_while.
Qed.


(** ** The log buffer *)

Lemma logged_fifo e l :
  length l ≤ LOG_LIMIT →
  logged e l = (if decide (length l = LOG_LIMIT) then drop 1 l else l) ++ [e].
Proof.
  intros H. unfold logged. rewrite length_app. cbn [length].
  case_decide as H1; case_decide as H2; try lia; [|done].
  destruct l as [|x l]; [by cbn in H2|done].
Qed.

Lemma logged_last e l : last (logged e l) = Some e.
Proof.
  unfold logged. case_decide as H; [|by rewrite last_snoc].
  destruct l as [|x l]; [cbn in H; unfold LOG_LIMIT in H; lia|].
  change (drop 1 ((x :: l) ++ [e])) with (l ++ [e]). by rewrite last_snoc.
Qed.

Lemma events_since_app w w' evs :
  trace w' = trace w ++ evs → events_since w w' = evs.
Proof. intros H. unfold events_since. by rewrite H, drop_app_length. Qed.


(** ** How an iteration dispatches *)

Lemma tick_dispatch o sst w :
  tick o sst w =
    if running (state w) then
      match polled_relay w with
      | Some proc =>
          if exited_at o w proc then relay_dead o sst (os_world o w)
          else relay_alive o sst (os_world o w)
      | None => check_kick o sst (os_world o w)
      end
    else (Ret Return_, w).
Proof.
  unfold tick. mred.
  destruct (running (state w)); [|done].
  mred. fold (os_world o w).
  unfold loop_body, polled_relay, exited_at. mred.
  change (state (os_world o w)) with (state w).
  change (procs (os_world o w)) with (procs w).
  change (children (os_world o w)) with (os_exits (exits o) (children w)).
  destruct (procs w !! "ffmpeg") as [proc|]; [|by destruct (is_live (state w))].
  destruct (is_live (state w)); [|done].
  unfold poll. mred.
  change (children (os_world o w)) with (os_exits (exits o) (children w)).
  destruct (os_exits (exits o) (children w) !! proc) as [c|]; [|done].
  unfold is_running. by destruct (status c).
Qed.

Ltac start_split :=
  match goal with
  | |- context [start_outcome ?o ?u ?W] =>
      let Hk := fresh "Hkey" in
      destruct (start_outcome_cases o u W)
        as [[Hk ->]|[Hk [(? & ? & ? & ->)|[(? & ? & ->)|(? & ? & ? & ->)]]]]
  end.

Ltac frame :=
  repeat first
    [ progress cbn [fst snd state procs children window trace
                    running is_live start_time restarts crash_times logs config
                    with_state with_procs with_children with_trace
                    set_running set_is_live set_start_time set_restarts
                    set_crash_times set_logs set_config
                    log_world ui_world sleep_world popen_world spawned_world
                    not_found_world no_key_world os_world]
    | rewrite probe_world_running | rewrite probe_world_is_live
    | rewrite probe_world_start_time | rewrite probe_world_restarts
    | rewrite probe_world_crash_times | rewrite probe_world_config
    | rewrite probe_world_procs | rewrite probe_world_children
    | rewrite probe_world_window
    | rewrite stop_world_state | rewrite stop_world_procs
    | rewrite stop_world_window ].

Lemma relay_alive_session o sst w :
  let w' := (relay_alive o sst w).2 in
  is_live (state w') = is_live (state w) ∧
  start_time (state w') = start_time (state w) ∧
  restarts (state w') = restarts (state w) ∧
  crash_times (state w') = crash_times (state w) ∧
  config (state w') = config (state w).
Proof.
  unfold relay_alive. mrun.
  set (duration := if truthy_time _ then _ else _).
  destruct ((0 <? duration)%Z && _); mrun; [|by frame].
  destruct (truthy_url (probe_result o)); mrun; [|by frame].
  start_split; mrun; by frame.
Qed.

Lemma check_kick_session o sst w :
  let w' := (check_kick o sst w).2 in
  let begin := negb (is_live (state w)) && truthy_url (probe_result o) in
  let ended := is_live (state w) && negb (truthy_url (probe_result o)) in
  is_live (state w') = (if begin then true else if ended then false else is_live (state w)) ∧
  start_time (state w') =
    (if begin then Some (now o) else if ended then None else start_time (state w)) ∧
  restarts (state w') = (if begin then 0 else restarts (state w)) ∧
  crash_times (state w') = (if begin then [] else crash_times (state w)) ∧
  config (state w') = config (state w).
Proof.
  unfold check_kick. mrun. frame.
  destruct (truthy_url (probe_result o)), (is_live (state w)) eqn:Hl;
    cbn [andb negb]; mrun; try start_split; mrun; by frame.
Qed.

Lemma relay_dead_session o sst w :
  let w' := (relay_dead o sst w).2 in
  let ledger := record_death (now o) (crash_times (state w)) in
  let is_storm := bool_decide (MAX_RESTARTS ≤ length ledger) in
  let restart := negb is_storm && negb (short_session o sst) in
  start_time (state w') = start_time (state w) ∧
  restarts (state w') = (if restart then restarts (state w) + 1 else restarts (state w)) ∧
  crash_times (state w') = ledger ∧
  config (state w') = config (state w) ∧
  (is_live (state w') = true → is_live (state w) = true).
Proof.
  unfold relay_dead, short_session, record_death. mrun. frame.
  case_decide as Hs.
  - rewrite bool_decide_true by done. mrun. by frame.
  - rewrite bool_decide_false by done. cbn [negb andb].
    destruct (truthy_time sst && _); cbn [negb]; mrun; [by frame|].
    destruct (truthy_url (probe_result o)); mrun; [|by frame].
    start_split; mrun; by frame.
Qed.

(** ** What an iteration does to the session fields *)

Lemma tick_session o sst w :
  let w' := (tick o sst w).2 in
  start_time (state w') =
    (if begins_session o w then Some (now o)
     else if ends_session o w then None else start_time (state w)) ∧
  restarts (state w') =
    (if begins_session o w then 0
     else if restarts_relay o sst w then restarts (state w) + 1
     else restarts (state w)) ∧
  crash_times (state w') =
    (if begins_session o w then []
     else if sees_death o w then record_death (now o) (crash_times (state w))
     else crash_times (state w)) ∧
  config (state w') = config (state w).
Proof.
  rewrite tick_dispatch.
  unfold begins_session, ends_session, restarts_relay, sees_death, storm, polled_relay.
  destruct (running (state w)); cbn [andb]; [|done].
  destruct (is_live (state w)) eqn:Hl; cbn [andb negb].
  - destruct (procs w !! "ffmpeg") as [proc|]; cbn [andb].
    + destruct (exited_at o w proc); cbn [andb].
      * destruct (relay_dead_session o sst (os_world o w)) as (H1 & H2 & H3 & H4 & _).
        revert H1 H2 H3 H4. by frame.
      * destruct (relay_alive_session o sst (os_world o w)) as (_ & H1 & H2 & H3 & H4).
        revert H1 H2 H3 H4. by frame.
    + destruct (check_kick_session o sst (os_world o w)) as (_ & H1 & H2 & H3 & H4).
      revert H1 H2 H3 H4. frame. rewrite Hl. cbn [andb negb].
      by destruct (truthy_url (probe_result o)).
  - destruct (check_kick_session o sst (os_world o w)) as (_ & H1 & H2 & H3 & H4).
    revert H1 H2 H3 H4. frame. rewrite Hl. cbn [andb negb].
    by destruct (truthy_url (probe_result o)).
Qed.

Lemma log_events_quiet win t msg level :
  Forall (λ e, calls_out e = false) (log_events win t msg level).
Proof.
  unfold log_events. constructor; [done|].
  destruct win as [win|]; [|constructor].
  destruct (js_ok win _); repeat constructor.
Qed.

Lemma ui_events_quiet w : Forall (λ e, calls_out e = false) (ui_events w).
Proof.
  unfold ui_events. destruct (window w) as [win|]; [|constructor].
  destruct (js_ok win _); repeat constructor.
Qed.

Lemma stop_events_quiet h cs : Forall (λ e, calls_out e = false) (stop_events h cs).
Proof.
  unfold stop_events. destruct (cs !! h) as [c|]; [|constructor].
  destruct (is_running c); [|constructor].
  destruct (heeds_terminate c); repeat constructor.
Qed.

Lemma stop_all_events_quiet hs cs :
  Forall (λ e, calls_out e = false) (stop_all_events hs cs).
Proof.
  revert cs. induction hs as [|h hs IH]; intros cs; cbn; [constructor|].
  apply Forall_app. split; [apply stop_events_quiet|apply IH].
Qed.

Lemma stop_world_stops w k h c :
  procs w !! k = Some h → children (stop_world w) !! h = Some c → is_running c = false.
Proof.
  intros Hp Hc. rewrite stop_world_children in Hc.
  eapply stop_all_stops; [|done].
  apply list_elem_of_fmap. exists (k, h). split; [done|].
  by apply elem_of_map_to_list.
Qed.

Lemma sees_death_inv o w :
  sees_death o w = true →
  running (state w) = true ∧ is_live (state w) = true ∧
  ∃ proc, procs w !! "ffmpeg" = Some proc ∧ polled_relay w = Some proc ∧
          exited_at o w proc = true.
Proof.
  unfold sees_death, polled_relay.
  destruct (running (state w)); [|done].
  destruct (is_live (state w)); [|done].
  destruct (procs w !! "ffmpeg") as [proc|]; [|done].
  cbn. intros He. split_and!; try done. by exists proc.
Qed.

Lemma tick_death o sst w :
  sees_death o w = true → tick o sst w = relay_dead o sst (os_world o w).
Proof.
  intros (Hr & _ & proc & _ & Hp & He)%sees_death_inv.
  by rewrite tick_dispatch, Hr, Hp, He.
Qed.

Lemma tick_not_running o sst w :
  running (state w) = false → tick o sst w = (Ret Return_, w).
Proof. intros H. by rewrite tick_dispatch, H. Qed.

Lemma while_running_stopped o o' obs sst sst' w w' :
  tick o sst w = (Ret (Continue sst'), w') → running (state w') = false →
  while_running (o :: o' :: obs) sst w = (Ret Returned, w').
Proof.
  intros H Hr. cbn [while_running]. unfold mbind, M_bind. rewrite H.
  by rewrite tick_not_running.
Qed.

Lemma start_outcome_not_found o url w s :
  nonempty (yt_key (config (state w))) = true →
  spawn o = SpawnRaised (FileNotFoundError s) →
  start_outcome o url w =
    (Ret false, not_found_world o (build_cmd url (yt_key (config (state w)))) w).
Proof. intros Hk Hs. unfold start_outcome. by rewrite Hk, Hs. Qed.

Lemma os_exits_length hs cs : length (os_exits hs cs) = length cs.
Proof. induction hs as [|h hs IH]; [done|]. cbn. by rewrite length_alter. Qed.

Lemma stop_all_length hs cs : length (stop_all hs cs) = length cs.
Proof.
  revert cs. induction hs as [|h hs IH]; intros cs; [done|].
  by rewrite stop_all_cons, IH, length_alter.
Qed.

Lemma relay_dead_storm_stops o sst w :
  storm o w = true → running (state (relay_dead o sst w).2) = false.
Proof.
  unfold storm, record_death. intros Hs%bool_decide_eq_true.
  unfold relay_dead. mrun. frame. case_decide; [|done]. mrun. by frame.
Qed.

(** ** Beginning a session *)

(** An iteration that begins a session sets [is_live] and calls the
    launcher; with a stream key saved, the launcher issues a [Popen]. *)
Lemma begin_launches o sst w :
  begins_session o w = true →
  let w' := (tick o sst w).2 in
  is_live (state w') = true ∧
  (nonempty (yt_key (config (state w))) = true →
   EvPopen (build_cmd (default "" (probe_result o)) (yt_key (config (state w))))
     ∈ events_since w w').
Proof.
  unfold begins_session. intros Hb.
  apply andb_true_iff in Hb as [Hb Hu]. apply andb_true_iff in Hb as [Hr Hl].
  apply negb_true_iff in Hl.
  rewrite tick_dispatch, Hr. unfold polled_relay. rewrite Hl.
  unfold check_kick. mrun. frame. rewrite Hl, Hu. cbn [negb andb]. mrun.
  unfold start_outcome. frame.
  destruct (nonempty (yt_key (config (state w)))) eqn:Hk.
  - destruct (spawn o) as [p heeds|[s|s|s]]; mrun; frame; (split; [done|]); intros _.
    all: erewrite events_since_app;
      [|frame; rewrite probe_world_trace; frame; rewrite <- !(assoc_L (++)); reflexivity].
    all: rewrite !elem_of_app; do 2 right.
    all: rewrite ?elem_of_app, ?elem_of_cons; auto.
  - mrun. by frame.
Qed.

(** ** The crash ledger *)

Lemma ledger_after_snoc ts t :
  ledger_after (ts ++ [t]) = record_death t (ledger_after ts).
Proof. unfold ledger_after. by rewrite foldl_app. Qed.

Lemma in_window_self t : in_window t t = true.
Proof. unfold in_window, CRASH_WINDOW. apply Z.ltb_lt. lia. Qed.

Lemma chronological_snoc ts t :
  chronological (ts ++ [t]) = true ↔
  chronological ts = true ∧ ∀ t', t' ∈ ts → (t' ≤ t)%Z.
Proof.
  induction ts as [|a ts IH]; cbn.
  - split; [intros _; split; [done|]; by intros t' ?%elem_of_nil|done].
  - rewrite !andb_true_iff, IH, !forallb_forall. split.
    + intros (Ha & Hc & Hle). split_and!; try done.
      * intros x Hx. apply Ha, List.in_or_app. by left.
      * intros t' [->|Ht']%elem_of_cons; [|by apply Hle].
        apply Z.leb_le, Ha, List.in_or_app. right. by left.
    + intros ((Ha & Hc) & Hle). split_and!; try done.
      * intros x [Hx|[<-|[]]]%List.in_app_or; [by apply Ha|].
        apply Z.leb_le, Hle. by left.
      * intros t' Ht'. apply Hle. by right.
Qed.

Lemma filter_filter_ext {A} (P Q : A → bool) (l : list A) :
  (∀ x, x ∈ l → P x = true → Q x = true) →
  List.filter P (List.filter Q l) = List.filter P l.
Proof.
  induction l as [|a l IH]; intros H; [done|]. cbn.
  assert (Hl : ∀ x, x ∈ l → P x = true → Q x = true).
  { intros x Hx. apply H. by right. }
  destruct (Q a) eqn:Hq; cbn.
  - destruct (P a); by rewrite IH.
  - destruct (P a) eqn:Hp; [|by rewrite IH].
    rewrite (H a) in Hq; [done| by left |done].
Qed.

(** For readings taken in order, the ledger holds exactly the recorded
    deaths that lie in the window of the latest one. *)
Lemma ledger_after_chronological ts now_ :
  chronological (ts ++ [now_]) = true →
  prune now_ (ledger_after ts) = List.filter (in_window now_) ts.
Proof.
  revert now_. induction ts as [|t ts IH] using rev_ind; intros now_ Hc; [done|].
  apply chronological_snoc in Hc as [Hc Hle].
  rewrite ledger_after_snoc. unfold record_death. unfold prune at 1.
  rewrite !List.filter_app, (IH t Hc). f_equal.
  apply filter_filter_ext. intros x Hx Hw.
  apply chronological_snoc in Hc as [_ Hxt]. specialize (Hxt x Hx).
  assert (t ≤ now_)%Z by (apply Hle, elem_of_app; right; by left).
  unfold in_window in *. apply Z.ltb_lt in Hw. apply Z.ltb_lt. lia.
Qed.

Lemma ledger_after_subseteq ts ts' t :
  t ∈ ledger_after (ts ++ ts') → t ∈ ledger_after ts ∨ t ∈ ts'.
Proof.
  induction ts' as [|t' ts' IH] using rev_ind.
  - rewrite (right_id_L [] (++)). by left.
  - rewrite (assoc_L (++)), ledger_after_snoc. unfold record_death, prune.
    intros [Ht|Ht]%elem_of_app.
    + apply list_elem_of_In, List.filter_In in Ht as [Ht%list_elem_of_In _].
      destruct (IH Ht) as [?|?]; [by left|right]. apply elem_of_app. by left.
    + right. apply elem_of_app. by right.
Qed.

(** ** The ledger stays short *)

Lemma record_death_length now_ ledger :
  length (record_death now_ ledger) ≤ length ledger + 1.
Proof.
  unfold record_death, prune. rewrite length_app. cbn.
  pose proof (List.filter_length_le (in_window now_) ledger). lia.
Qed.

Lemma ledger_bounded_tick o sst w :
  ledger_bounded w → ledger_bounded (tick o sst w).2.
Proof.
  intros [Hle Hlt].
  destruct (running (state w)) eqn:Hr; [|rewrite tick_not_running by done; split; [done|cbn; congruence]].
  specialize (Hlt eq_refl).
  destruct (tick_session o sst w) as (_ & _ & Hc & _).
  unfold ledger_bounded. rewrite Hc.
  destruct (begins_session o w); [cbn; unfold MAX_RESTARTS; lia|].
  destruct (sees_death o w) eqn:Hd; [|lia].
  pose proof (record_death_length (now o) (crash_times (state w))).
  destruct (storm o w) eqn:Hs.
  - rewrite (tick_death _ _ _ Hd).
    rewrite (relay_dead_storm_stops o sst (os_world o w) Hs). split; [lia|done].
  - unfold storm in Hs. apply bool_decide_eq_false in Hs. lia.
Qed.

Lemma reachable_ledger_bounded w : serially_reachable w → ledger_bounded w.
Proof.
  induction 1 as [c win|w hs Hw IH|w Hw IH|w t Hw IH|w o sst Hw IH|w t Hw IH|w t fo k y Hw IH].
  - split; cbn; unfold MAX_RESTARTS; lia.
  - exact IH.
  - unfold API_start. mrun.
    destruct (running (state w)) eqn:Hr; cbn [negb]; [exact IH|].
    mrun. unfold emit. mred. split; cbn; unfold MAX_RESTARTS; lia.
  - unfold stream_loop. mrun. destruct IH as [Hle Hlt].
    destruct (nonempty (kick_url (config (state w)))); cbn [negb]; [done|].
    mrun. split; by frame.
  - by apply ledger_bounded_tick.
  - unfold API_stop. mrun. destruct IH as [Hle Hlt]. split; by frame.
  - rewrite API_save_settings_run. destruct IH as [Hle Hlt].
    destruct fo; split; by frame.
Qed.

(** ** Runs that end in a crash storm *)

(** The iteration that trips the crash-storm threshold. *)
Lemma storm_tick o sst w :
  sees_death o w = true → storm o w = true →
  ∃ w', tick o sst w = (Ret Return_, w') ∧
        running (state w') = false ∧ is_live (state w') = false ∧ procs w' = ∅.
Proof.
  intros Hd Hs.
  rewrite (tick_death _ _ _ Hd).
  unfold relay_dead. mrun. frame.
  unfold storm, record_death in Hs. apply bool_decide_eq_true in Hs.
  case_decide; [|done].
  mrun. eexists. split; [reflexivity|]. by frame.
Qed.

Lemma record_all_app_l a b ts :
  length (record_all b ts) ≤ length (record_all (a ++ b) ts).
Proof.
  revert a b. induction ts as [|t ts IH]; intros a b; cbn.
  - rewrite length_app. lia.
  - unfold record_death at 2 4, prune. rewrite List.filter_app, <- (assoc_L (++)).
    apply IH.
Qed.

Lemma record_all_ge ledger ts :
  length (ledger_after ts) ≤ length (record_all ledger ts).
Proof.
  unfold ledger_after. fold (record_all [] ts).
  rewrite <- (right_id_L [] (++) ledger) at 1. apply record_all_app_l.
Qed.

Lemma ledger_after_count ts now_ :
  chronological (ts ++ [now_]) = true →
  length (ledger_after (ts ++ [now_])) = count_in_window now_ (ts ++ [now_]).
Proof.
  intros Hc. rewrite ledger_after_snoc. unfold count_in_window, record_death.
  rewrite ledger_after_chronological by done.
  rewrite List.filter_app. cbn [List.filter]. by rewrite in_window_self.
Qed.

Lemma tick_ledger o sst w :
  begins_session o w = false →
  crash_times (state (tick o sst w).2) =
    if sees_death o w then record_death (now o) (crash_times (state w))
    else crash_times (state w).
Proof.
  intros Hb. destruct (tick_session o sst w) as (_ & _ & -> & _). by rewrite Hb.
Qed.

Lemma run_halts_at_storm obs sst w ds t :
  no_session_begins obs sst w = true →
  deaths_in obs sst w = ds ++ [t] →
  MAX_RESTARTS ≤ length (record_all (crash_times (state w)) (ds ++ [t])) →
  ∃ w', while_running obs sst w = (Ret Returned, w') ∧
        running (state w') = false ∧ is_live (state w') = false ∧ procs w' = ∅.
Proof.
  revert sst w ds. induction obs as [|o obs IH]; intros sst w ds Hno Hd Hlen.
  { by destruct ds. }
  cbn [no_session_begins deaths_in] in Hno, Hd.
  apply andb_true_iff in Hno as [Hb%negb_true_iff Hno].
  pose proof (tick_ledger o sst w Hb) as Hct.
  cbn [while_running]. unfold mbind, M_bind.
  destruct (sees_death o w) eqn:Hsd.
  - destruct ds as [|d ds].
    + injection Hd as <- _.
      assert (Hs : storm o w = true) by (by apply bool_decide_eq_true).
      destruct (storm_tick o sst w Hsd Hs) as (w' & -> & ?). by exists w'.
    + injection Hd as <- Hd.
      destruct (tick o sst w) as [[[sst'|]|e] w']; try by destruct ds.
      cbn [snd] in Hct. apply (IH sst' w' ds); [done..|]. by rewrite Hct.
  - cbn [app] in Hd.
    destruct (tick o sst w) as [[[sst'|]|e] w']; try by destruct ds.
    cbn [snd] in Hct. apply (IH sst' w' ds); [done..|]. by rewrite Hct.
Qed.


(** * Further lemmas *)

Lemma startswith_http_nonempty u : startswith u "http" = true → nonempty u = true.
Proof. by destruct u. Qed.

Lemma probe_result_Some o u :
  probe_result o = Some u ↔
  ∃ out, run o = Completed 0 out ∧ u = strip out ∧ startswith u "http" = true.
Proof.
  unfold probe_result. split.
  - destruct (run o) as [rc out|e]; [|done].
    destruct (rc =? 0)%Z eqn:Hrc; cbn [andb]; [|done].
    destruct (startswith (strip out) "http") eqn:Hp; [|done].
    intros [= <-]. apply Z.eqb_eq in Hrc as ->. by exists out.
  - intros (out & -> & -> & Hp). cbn. by rewrite Hp.
Qed.

Lemma safe_js_cons a s :
  safe_js (String a s) =
    if Ascii.eqb a "'"%char then String "\"%char (String "'"%char (safe_js s))
    else if Ascii.eqb a "`"%char then String "\"%char (String "`"%char (safe_js s))
    else String a (safe_js s).
Proof.
  unfold safe_js. cbn [replace_char].
  destruct (Ascii.eqb a "'"%char) eqn:H1.
  - done.
  - cbn [replace_char]. by destruct (Ascii.eqb a "`"%char) eqn:H2.
Qed.

Lemma stop_child_idemp c : stop_child (stop_child c) = stop_child c.
Proof. unfold stop_child at 1. by rewrite stop_child_not_running. Qed.

Lemma stop_all_lookup hs cs h :
  stop_all hs cs !! h =
    if bool_decide (h ∈ hs) then stop_child <$> cs !! h else cs !! h.
Proof.
  revert cs. induction hs as [|h' hs IH]; intros cs; [done|].
  rewrite stop_all_cons, IH.
  destruct (decide (h = h')) as [->|Hne].
  - rewrite list_lookup_alter, decide_True by done.
    rewrite (bool_decide_eq_true_2 (h' ∈ h' :: hs)) by apply list_elem_of_here.
    destruct (cs !! h') as [c|]; cbn; [|by case_bool_decide].
    case_bool_decide; [|done]. by rewrite stop_child_idemp.
  - rewrite list_lookup_alter_ne by done.
    destruct (decide (h ∈ hs)) as [Hin|Hin].
    + rewrite !bool_decide_eq_true_2; [done|by apply list_elem_of_further|done].
    + rewrite !bool_decide_eq_false_2; [done| |done].
      rewrite elem_of_cons. by intros [?|?].
Qed.

Lemma stop_events_terminate h' cs h :
  EvTerminate h ∈ stop_events h' cs ↔
  h = h' ∧ ∃ c, cs !! h = Some c ∧ is_running c = true.
Proof.
  unfold stop_events. destruct (cs !! h') as [c|] eqn:Hc.
  - destruct (is_running c) eqn:Hr.
    + rewrite elem_of_cons. split.
      * intros [[= ->]|Hin]; [by eauto|].
        destruct (heeds_terminate c); [by apply elem_of_nil in Hin|].
        by apply list_elem_of_singleton in Hin.
      * intros [-> _]. by left.
    + rewrite elem_of_nil. split; [done|]. intros [-> (c' & Hc' & Hr')]. congruence.
  - rewrite elem_of_nil. split; [done|]. intros [-> (c' & Hc' & Hr')]. congruence.
Qed.

Lemma stop_events_kill h' cs h :
  EvKill h ∈ stop_events h' cs ↔
  h = h' ∧ ∃ c, cs !! h = Some c ∧ is_running c = true ∧ heeds_terminate c = false.
Proof.
  unfold stop_events. destruct (cs !! h') as [c|] eqn:Hc.
  - destruct (is_running c) eqn:Hr.
    + rewrite elem_of_cons. split.
      * intros [[=]|Hin]. destruct (heeds_terminate c) eqn:Hh; [by apply elem_of_nil in Hin|].
        apply list_elem_of_singleton in Hin as [= ->]. eauto.
      * intros [-> (c' & Hc' & _ & Hh)]. simplify_eq. rewrite Hh. right. by left.
    + rewrite elem_of_nil. split; [done|]. intros [-> (c' & Hc' & Hr' & _)]. congruence.
  - rewrite elem_of_nil. split; [done|]. intros [-> (c' & Hc' & Hr')]. congruence.
Qed.

Lemma alter_stop_running (h' : nat) (cs : list Child) (h : nat) c :
  alter stop_child h' cs !! h = Some c ∧ is_running c = true ↔
  h ≠ h' ∧ cs !! h = Some c ∧ is_running c = true.
Proof.
  destruct (decide (h' = h)) as [->|Hne].
  - rewrite list_lookup_alter, decide_True by done. split; [|by intros [? _]].
    intros [Hc Hr]. destruct (cs !! h) as [c0|]; [|done]. cbn in Hc.
    simplify_eq. by rewrite stop_child_not_running in Hr.
  - rewrite list_lookup_alter_ne by done. split; [|by intros [_ ?]].
    intros ?. split; [congruence|done].
Qed.

Lemma stop_all_events_terminate hs cs h :
  EvTerminate h ∈ stop_all_events hs cs ↔
  h ∈ hs ∧ ∃ c, cs !! h = Some c ∧ is_running c = true.
Proof.
  revert cs. induction hs as [|h' hs IH]; intros cs; cbn [stop_all_events].
  { rewrite !elem_of_nil. split; [done|by intros [? _]]. }
  rewrite elem_of_app, IH, stop_events_terminate, elem_of_cons. split.
  - intros [[-> Hc]|[Hin (c & Hc)]]; [by split; [left|]|].
    apply alter_stop_running in Hc as (_ & Hc). split; [by right|eauto].
  - intros [[->|Hin] (c & Hc & Hr)]; [left; eauto|].
    destruct (decide (h = h')) as [->|Hne]; [left; eauto|].
    right. split; [done|]. exists c. by apply alter_stop_running.
Qed.

Lemma stop_all_events_kill hs cs h :
  EvKill h ∈ stop_all_events hs cs ↔
  h ∈ hs ∧ ∃ c, cs !! h = Some c ∧ is_running c = true ∧ heeds_terminate c = false.
Proof.
  revert cs. induction hs as [|h' hs IH]; intros cs; cbn [stop_all_events].
  { rewrite !elem_of_nil. split; [done|by intros [? _]]. }
  rewrite elem_of_app, IH, stop_events_kill, elem_of_cons. split.
  - intros [[-> Hc]|[Hin (c & Hc & Hr & Hh)]]; [by split; [left|]|].
    assert (Hc' := conj Hc Hr). apply alter_stop_running in Hc' as (_ & Hc' & _).
    split; [by right|eauto].
  - intros [[->|Hin] (c & Hc & Hr & Hh)]; [left; eauto|].
    destruct (decide (h = h')) as [->|Hne]; [left; eauto|].
    right. split; [done|]. exists c. split; [|done].
    by apply (alter_stop_running h' cs h c).
Qed.

Lemma held_handle (m : gmap string nat) h :
  h ∈ (map_to_list m).*2 ↔ ∃ k, m !! k = Some h.
Proof.
  rewrite list_elem_of_fmap. split.
  - intros ([k h'] & -> & Hin). exists k. by apply elem_of_map_to_list in Hin.
  - intros [k Hk]. exists (k, h). split; [done|]. by apply elem_of_map_to_list.
Qed.

Lemma stop_world_empty w : procs w = ∅ → stop_world w = w.
Proof.
  intros Hp. unfold stop_world. rewrite Hp, map_to_list_empty. cbn.
  destruct w; cbn in *. by subst.
Qed.

Lemma start_outcome_raise o url w e :
  nonempty (yt_key (config (state w))) = true →
  spawn o = SpawnRaised e → (∀ s, e ≠ FileNotFoundError s) →
  start_outcome o url w =
    (Raise e, popen_world (build_cmd url (yt_key (config (state w)))) w).
Proof.
  intros Hk Hs He. unfold start_outcome. rewrite Hk, Hs.
  destruct e as [s|s|s]; [by destruct (He s)|done..].
Qed.

Lemma start_outcome_spawned o url w p heeds :
  nonempty (yt_key (config (state w))) = true →
  spawn o = Spawned p heeds →
  start_outcome o url w =
    (Ret true, spawned_world o (build_cmd url (yt_key (config (state w)))) p heeds w).
Proof. intros Hk Hs. unfold start_outcome. by rewrite Hk, Hs. Qed.

Lemma no_launch_Forall evs :
  (∀ cmd, EvPopen cmd ∉ evs) → Forall (λ e, is_launch e = false) evs.
Proof.
  intros H. apply Forall_forall. intros [] Hin; try done. by apply H in Hin.
Qed.

Lemma filter_nil_Forall {A} (P : A → bool) (l : list A) :
  Forall (λ x, P x = false) l → List.filter P l = [].
Proof. induction 1 as [|x l Hx _ IH]; [done|]. cbn. by rewrite Hx. Qed.

Lemma launches_app w w' evs :
  trace w' = trace w ++ evs → Forall (λ e, is_launch e = false) evs →
  launches w' = launches w.
Proof.
  intros Ht H. unfold launches.
  by rewrite Ht, List.filter_app, (filter_nil_Forall _ _ H), app_nil_r.
Qed.

Lemma launches_count w w' evs :
  trace w' = trace w ++ evs →
  launches w' = launches w + length (List.filter is_launch evs).
Proof. intros Ht. unfold launches. by rewrite Ht, List.filter_app, length_app. Qed.

Lemma only_logs_differ_fields s s' :
  only_logs_differ s s' →
  running s' = running s ∧ is_live s' = is_live s ∧ start_time s' = start_time s ∧
  restarts s' = restarts s ∧ crash_times s' = crash_times s ∧ config s' = config s.
Proof. unfold only_logs_differ, set_logs. intros [=]. by split_and!. Qed.

Lemma only_logs_differ_trans s1 s2 s3 :
  only_logs_differ s1 s2 → only_logs_differ s2 s3 → only_logs_differ s1 s3.
Proof. unfold only_logs_differ. congruence. Qed.

Ltac same_session := unfold only_logs_differ; frame; unfold set_logs; frame; try done.

Lemma app_split3 {A} (a b c : list A) x y r :
  a ++ b ++ c ++ [x] ++ [y] ++ r = (a ++ b ++ c) ++ [x; y] ++ r.
Proof. by rewrite <- !(assoc_L (++)). Qed.

Lemma exited_at_false o w proc :
  exited_at o w proc = false →
  ∃ c, os_exits (exits o) (children w) !! proc = Some c ∧ is_running c = true.
Proof.
  unfold exited_at. destruct (_ !! proc) as [c|]; [|done].
  intros ?%negb_false_iff. eauto.
Qed.

(** An iteration of the final [else] branch (lines 211-213): the prober's
    answer agrees with [is_live] and no relay is polled. *)
Lemma idle_tick o sst w :
  running (state w) = true → polled_relay w = None →
  truthy_url (probe_result o) = is_live (state w) →
  ∃ w', tick o sst w = (Ret (Continue sst), w') ∧
    only_logs_differ (state w) (state w') ∧
    procs w' = procs w ∧ children w' = os_exits (exits o) (children w) ∧
    window w' = window w ∧
    launches w' = launches w ∧
    last (trace w') = Some (EvSleep OFFLINE_CHECK) ∧
    last (logs (state w')) = Some (mkLogEntry (hms o) offline_msg "muted").
Proof.
  intros Hr Hp Hu. rewrite tick_dispatch, Hr, Hp.
  unfold check_kick. mrun. frame. rewrite Hu.
  rewrite andb_negb_r, andb_negb_l. mrun.
  eexists. split; [reflexivity|]. frame. split_and!; try done.
  - same_session.
  - eapply launches_app.
    + frame. rewrite probe_world_trace. frame. rewrite <- !(assoc_L (++)). reflexivity.
    + repeat apply Forall_app_2; try apply no_launch_Forall.
      * apply log_events_no_launch.
      * apply probe_events_no_launch.
      * apply log_events_no_launch.
      * by intros cmd ?%list_elem_of_singleton.
  - by rewrite last_snoc.
  - apply logged_last.
Qed.

(** A run of such iterations. *)
Lemma idle_run obs sst w :
  running (state w) = true → polled_relay w = None →
  Forall (λ o, truthy_url (probe_result o) = is_live (state w)) obs →
  ∃ w', while_running obs sst w = (Ret (Parked sst), w') ∧
    only_logs_differ (state w) (state w') ∧
    procs w' = procs w ∧ window w' = window w ∧
    length (children w') = length (children w) ∧
    launches w' = launches w.
Proof.
  intros Hr Hp Hall. revert w Hr Hp Hall.
  induction obs as [|o obs IH]; intros w Hr Hp Hall.
  { exists w. by split_and!. }
  apply Forall_cons in Hall as [Ho Hall].
  destruct (idle_tick o sst w Hr Hp Ho) as (w1 & Ht & Hs & Hpr & Hch & Hw & Hl & _).
  pose proof (only_logs_differ_fields _ _ Hs) as (Hr1 & Hl1 & _).
  destruct (IH w1) as (w' & Hrun & Hs' & Hpr' & Hw' & Hch' & Hl').
  - congruence.
  - unfold polled_relay in *. by rewrite Hl1, Hpr.
  - by rewrite Hl1.
  - exists w'. cbn [while_running]. unfold mbind, M_bind. rewrite Ht.
    split; [done|]. split_and!.
    + by eapply only_logs_differ_trans.
    + congruence.
    + congruence.
    + by rewrite Hch', Hch, os_exits_length.
    + congruence.
Qed.

(** An iteration raises only out of [Popen]. *)
Lemma tick_raise_inv o sst w e w' :
  tick o sst w = (Raise e, w') →
  spawn o = SpawnRaised e ∧ (∀ s, e ≠ FileNotFoundError s) ∧
  attempts_launch o sst w = true ∧
  nonempty (yt_key (config (state w))) = true ∧
  running (state w') = true ∧
  last (trace w') =
    Some (EvPopen (build_cmd (default "" (probe_result o)) (yt_key (config (state w))))).
Proof.
  rewrite tick_dispatch.
  unfold attempts_launch, begins_session, restarts_relay, refreshes, sees_death, storm,
    short_session, refresh_due.
  destruct (running (state w)) eqn:Hrun; [|done]. cbn [andb].
  unfold polled_relay.
  destruct (is_live (state w)) eqn:Hlive; cbn [negb andb orb].
  - destruct (procs w !! "ffmpeg") as [proc|] eqn:Hp.
    + destruct (exited_at o w proc); cbn [negb andb orb].
      * unfold relay_dead, record_death. mrun. frame.
        case_decide as Hst; [mrun; done|].
        rewrite bool_decide_false by done. cbn [negb andb].
        destruct (truthy_time sst && _); [mrun; done|]. cbn [negb].
        mrun. destruct (truthy_url (probe_result o)) eqn:Hu; [|mrun; done].
        mrun. start_split; mrun; try done.
        revert Hkey. frame. intros Hkey [= <- <-]. frame. split_and!; try done.
        by rewrite last_snoc.
      * unfold relay_alive. mrun. frame.
        destruct (_ && _) eqn:Hdue; [|mrun; done].
        mrun. destruct (truthy_url (probe_result o)) eqn:Hu; [|mrun; done].
        mrun. start_split; mrun; try done.
        revert Hkey. frame. intros Hkey [= <- <-]. frame. split_and!; try done.
        by rewrite last_snoc.
    + unfold check_kick. mrun. frame. rewrite Hlive. cbn [negb].
      rewrite andb_false_r, andb_true_r.
      destruct (truthy_url (probe_result o)); cbn [negb]; mrun; done.
  - unfold check_kick. mrun. frame. rewrite Hlive. cbn [negb].
    rewrite andb_true_r, andb_false_r.
    destruct (truthy_url (probe_result o)) eqn:Hu; [|by destruct (procs w !! "ffmpeg"); mrun].
    destruct (procs w !! "ffmpeg"); mrun.
    all: start_split; mrun; try done.
    all: revert Hkey; frame; intros Hkey [= <- <-]; frame; split_and!; try done.
    all: by rewrite last_snoc.
Qed.

(** ** The pieces of an iteration *)

Lemma check_kick_cut o sst w :
  check_kick o sst w = (url ← check_probe o; check_decide o sst url) w.
Proof.
  unfold check_kick, check_probe, check_decide. mrun. reflexivity.
Qed.

Lemma start_spawn_run o url w :
  start_spawn o url w =
    let key := yt_key (config (state w)) in
    if nonempty key then
      match spawn o with
      | Spawned p heeds =>
          (Ret (Some (length (children w))), launched_world (build_cmd url key) p heeds w)
      | SpawnRaised (FileNotFoundError s) =>
          (Ret None, not_found_world o (build_cmd url key) w)
      | SpawnRaised e => (Raise e, popen_world (build_cmd url key) w)
      end
    else (Ret None, no_key_world o w).
Proof.
  unfold start_spawn. mred.
  destruct (nonempty (yt_key (config (state w)))) eqn:Hk; cbn [negb]; [|by mrun].
  unfold try_except, Popen, emit, raise. mred.
  destruct (spawn o) as [p heeds|e]; [done|].
  unfold except_FileNotFoundError. destruct e; try reflexivity. by mrun.
Qed.

Lemma start_bind_run o cmd p heeds w :
  start_bind o (Some (length (children w))) (launched_world cmd p heeds w) =
    (Ret true, spawned_world o cmd p heeds w).
Proof.
  unfold start_bind, pid_of. mred. cbn [children launched_world with_procs].
  rewrite list_lookup_middle by done. cbn [pid]. by mrun.
Qed.

Lemma start_ffmpeg_cut o url w :
  start_ffmpeg o url w = (proc ← start_spawn o url; start_bind o proc) w.
Proof.
  rewrite start_ffmpeg_run. unfold mbind, M_bind. rewrite start_spawn_run.
  unfold start_outcome. cbn zeta.
  destruct (nonempty (yt_key (config (state w)))); [|done].
  destruct (spawn o) as [p heeds|[s|s|s]]; try done.
  by rewrite start_bind_run.
Qed.

Lemma check_decide_cut o sst url w :
  truthy_url url = true → is_live (state w) = false →
  check_decide o sst url w =
    (proc ← begin_spawn o (default "" url); begin_bind o proc) w.
Proof.
  intros Hu Hl. unfold check_decide, begin_spawn, begin_bind.
  unfold mbind at 1, M_bind at 1, get_state at 1, gets at 1.
  rewrite Hu, Hl. cbn [negb andb].
  unfold mbind, M_bind. rewrite log_run. unfold put_state, modify. cbn beta iota zeta.
  rewrite start_ffmpeg_cut. unfold mbind, M_bind.
  destruct (start_spawn o (default "" url) _) as [[proc|e] w1]; [|done].
  by destruct (start_bind o proc w1) as [[b|e] w2].
Qed.

Lemma tick_cut o sst w :
  running (state w) = true → polled_relay w = None →
  tick o sst w = (url ← check_probe o; check_decide o sst url) (os_world o w).
Proof.
  intros Hr Hp. by rewrite tick_dispatch, Hr, Hp, check_kick_cut.
Qed.

(** ** Runs of one loop *)

Lemma Inv_while obs sst w : Inv w → Inv (while_running obs sst w).2.
Proof.
  revert sst w. induction obs as [|o obs IH]; intros sst w HI; [done|].
  cbn [while_running]. unfold mbind, M_bind.
  pose proof (Inv_tick o sst w HI) as Ht.
  destruct (tick o sst w) as [[[sst'|]|e] w']; cbn [snd] in *; [by apply IH|done..].
Qed.

Lemma stream_loop_guarded t obs w :
  nonempty (kick_url (config (state w))) = false →
  stream_loop t obs w = stream_loop t [] w.
Proof. intros Hk. unfold stream_loop. mred. by rewrite Hk. Qed.

Lemma stream_loop_runs t obs w :
  nonempty (kick_url (config (state w))) = true →
  stream_loop t obs w = while_running obs None w.
Proof. intros Hk. unfold stream_loop. mred. by rewrite Hk. Qed.

Lemma Inv_stream_loop t obs w : Inv w → Inv (stream_loop t obs w).2.
Proof.
  intros HI. destruct (nonempty (kick_url (config (state w)))) eqn:Hk.
  - rewrite stream_loop_runs by done. by apply Inv_while.
  - rewrite stream_loop_guarded by done. by apply Inv_guard.
Qed.

(** ** The loop's own record of the session start *)

Lemma tick_local o sst w sst' w' :
  tick o sst w = (Ret (Continue sst'), w') →
  (begins_session o w = true ∧ sst' = Some (now2 o) ∧
   start_time (state w') = Some (now o)) ∨
  (begins_session o w = false ∧ polled_relay w' = None) ∨
  (begins_session o w = false ∧ polled_relay w ≠ None ∧ sst' = sst ∧
   start_time (state w') = start_time (state w)).
Proof.
  rewrite tick_dispatch. unfold begins_session.
  destruct (running (state w)) eqn:Hr; [|done]. cbn [andb].
  destruct (polled_relay w) as [proc|] eqn:Hp.
  - assert (is_live (state w) = true) as Hl.
    { unfold polled_relay in Hp. by destruct (is_live (state w)). }
    rewrite Hl. cbn [negb andb]. intros Ht. right. right.
    split; [done|]. split; [done|].
    destruct (exited_at o w proc).
    + pose proof (relay_dead_session o sst (os_world o w)) as (Hst & _).
      rewrite Ht in Hst. cbn [snd] in Hst. split; [|done].
      revert Ht. unfold relay_dead, record_death. mrun. frame.
      case_decide; [mrun; done|].
      destruct (truthy_time sst && _); [mrun; by intros [= <- _]|].
      mrun. destruct (truthy_url (probe_result o)); mrun;
        [start_split; mrun; try done|]; by intros [= <- _].
    + pose proof (relay_alive_session o sst (os_world o w)) as (_ & Hst & _).
      rewrite Ht in Hst. cbn [snd] in Hst. split; [|done].
      revert Ht. unfold relay_alive. mrun. frame.
      destruct (_ && _); mrun; [|by intros [= <- _]].
      destruct (truthy_url (probe_result o)); mrun; [|by intros [= <- _]].
      start_split; mrun; try done; by intros [= <- _].
  - unfold check_kick. mrun. frame.
    destruct (is_live (state w)) eqn:Hl; cbn [negb andb];
      rewrite ?andb_true_r, ?andb_false_r.
    + destruct (truthy_url (probe_result o)) eqn:Hu; cbn [negb]; mrun.
      * intros [= <- <-]. right. left. split; [done|].
        unfold polled_relay in *. frame. by rewrite Hl in *.
      * intros [= <- <-]. right. left. split; [done|].
        unfold polled_relay. by frame.
    + destruct (truthy_url (probe_result o)) eqn:Hu; cbn [negb]; mrun.
      * start_split; mrun; try done; intros [= <- <-]; left; by frame.
      * intros [= <- <-]. right. left. split; [done|].
        unfold polled_relay. frame. by rewrite Hl.
Qed.

Lemma run_local obs sst0 w0 sst w :
  while_running obs sst0 w0 = (Ret (Parked sst), w) → polled_relay w ≠ None →
  (∃ pre ob post sstb wb,
     obs = pre ++ ob :: post ∧
     while_running pre sst0 w0 = (Ret (Parked sstb), wb) ∧
     begins_session ob wb = true ∧
     no_session_begins post (Some (now2 ob)) (tick ob sstb wb).2 = true ∧
     sst = Some (now2 ob) ∧ start_time (state w) = Some (now ob)) ∨
  (polled_relay w0 ≠ None ∧ no_session_begins obs sst0 w0 = true ∧
   sst = sst0 ∧ start_time (state w) = start_time (state w0)).
Proof.
  revert sst0 w0. induction obs as [|o obs IH]; intros sst0 w0.
  { intros [= <- <-] Hp. by right. }
  cbn [while_running no_session_begins]. unfold mbind, M_bind.
  destruct (tick o sst0 w0) as [[[s1|]|e] w1] eqn:Ht; [|done..].
  intros Hrun Hp. destruct (IH _ _ Hrun Hp) as
    [(pre & ob & post & sstb & wb & -> & Hpre & Hb & Hn & Hs & Hst)
    |(Hp1 & Hn & -> & Hst)].
  - left. exists (o :: pre), ob, post, sstb, wb. split_and!; try done.
    cbn [while_running]. unfold mbind, M_bind. by rewrite Ht.
  - destruct (tick_local _ _ _ _ _ Ht) as [(Hb & -> & Hs1)|[(Hb & Hp0)|(Hb & Hp0 & -> & Hs1)]].
    + left. exists [], o, obs, sst0, w0. split_and!; try done.
      * by rewrite Ht.
      * by rewrite Hst.
    + done.
    + right. split_and!; try done.
      * by rewrite Hb.
      * by rewrite Hst.
Qed.

Lemma short_session_tick o t0 w :
  sees_death o w = true → storm o w = false →
  t0 ≠ 0%Z → (now2 o - t0 < MIN_STREAM_DURATION)%Z →
  ∃ w', tick o (Some t0) w = (Ret (Continue (Some t0)), w') ∧
        is_live (state w') = false ∧ procs w' = ∅ ∧
        (∀ k h c, procs w !! k = Some h → children w' !! h = Some c →
                  is_running c = false) ∧
        restarts (state w') = restarts (state w) ∧
        running (state w') = true ∧
        Forall (λ e, calls_out e = false) (events_since w w') ∧
        last (events_since w w') = Some (EvSleep OFFLINE_CHECK).
Proof.
  intros Hd Hs Ht0 Hshort.
  pose proof (sees_death_inv _ _ Hd) as (Hr & _ & _).
  rewrite (tick_death _ _ _ Hd).
  unfold relay_dead. mrun. frame.
  unfold storm, record_death in Hs. apply bool_decide_eq_false in Hs.
  case_decide; [done|].
  assert (truthy_time (Some t0) && (now2 o - default 0%Z (Some t0) <? MIN_STREAM_DURATION)%Z = true) as ->.
  { cbn -[Z.ltb Z.eqb Z.sub MIN_STREAM_DURATION]. apply andb_true_iff.
    by rewrite negb_true_iff, Z.eqb_neq, Z.ltb_lt. }
  mrun. eexists. split; [reflexivity|]. frame.
  split_and!; try done.
  - intros k h c Hp Hc. eapply stop_world_stops; [|exact Hc]. exact Hp.
  - erewrite events_since_app.
    2:{ frame. rewrite stop_world_trace. frame. rewrite <- !(assoc_L (++)). reflexivity. }
    repeat (apply Forall_app; split); auto using log_events_quiet,
      stop_all_events_quiet, ui_events_quiet.
  - erewrite events_since_app.
    2:{ frame. rewrite stop_world_trace. frame. rewrite <- !(assoc_L (++)). reflexivity. }
    by rewrite !(assoc_L (++)), last_snoc.
Qed.


(** * The claims of the specification *)

(** ** C1: relay processes and the live flag *)

(** C1, as amended. Take any run of the supervisor loop, over any sequence
    of observations (probe and launch outcomes, clock readings, exits of
    children), that is entered in a world where the invariant [Inv] holds
    (the world [start()] makes of the freshly imported module is one) and
    that no operator command and no second loop overlaps. In the world the
    run leaves: while [is_live] is false the [procs] dict is empty and no
    child process runs; every running child is the relay held under
    [procs["ffmpeg"]], and then [is_live] is true; at most one child runs;
    and no child was ever spawned while another was running, so that the
    bound holds inside iterations too. (The converse, that a relay runs
    whenever [is_live] is true, does not hold. What a command that overlaps
    an iteration can leave behind is outside this statement; the section on
    [stop()] below shows one such world.) *)
Theorem no_orphaned_relay t obs w0 :
  Inv w0 →
  let w := (stream_loop t obs w0).2 in
  (is_live (state w) = false → procs w = ∅ ∧ alive_count w = 0) ∧
  (∀ h c, children w !! h = Some c → is_running c = true →
          is_live (state w) = true ∧ procs w !! "ffmpeg" = Some h) ∧
  alive_count w ≤ 1 ∧
  (∀ h c, children w !! h = Some c → rivals c = 0).
Proof.
  intros HI0 w. assert (HI : Inv w) by by apply Inv_stream_loop.
  clearbody w. split; [|split; [|split]].
  - intros Hoff. pose proof (inv_offline _ HI Hoff) as Hp. split; [done|].
    by apply alive_count_0, no_child_runs_empty.
  - intros h c Hc Hr. pose proof (inv_tracked _ HI _ _ Hc Hr) as Hp. split; [|done].
    destruct (is_live (state w)) eqn:Hl; [done|].
    by rewrite (inv_offline _ HI Hl) in Hp.
  - by apply alive_count_le_1, inv_tracked.
  - by apply inv_alone.
Qed.

(** The run that finds the channel live and launches the relay. *)
Lemma no_orphaned_relay_witness :
  let t := "12:00:00" in
  let obs := [obs_at [] 1000 up (Spawned 4242 true)] in
  Inv started0 ∧
  let w := (stream_loop t obs started0).2 in
  (is_live (state w) = false → procs w = ∅ ∧ alive_count w = 0) ∧
  (∀ h c, children w !! h = Some c → is_running c = true →
          is_live (state w) = true ∧ procs w !! "ffmpeg" = Some h) ∧
  alive_count w ≤ 1 ∧
  (∀ h c, children w !! h = Some c → rivals c = 0).
Proof.
  intros t obs.
  assert (H : Inv started0) by apply Inv_API_start, Inv_init.
  split; [exact H|].
  exact (no_orphaned_relay t obs started0 H).
Defined.

(** C1 as stated fails. A relay that exits on its own leaves [is_live] set
    until the loop polls it again; and with the channel live and ffmpeg not
    installed, the first iteration sets [is_live] and leaves no relay
    behind. *)
Lemma live_without_relay :
  let w1 := with_children (os_exits [0]) live0 in
  let w2 := (stream_loop "12:00:00" [obs_no_ffmpeg] started0).2 in
  (serially_reachable w1 ∧ ¬ relay_iff_live w1) ∧ (serially_reachable w2 ∧ ¬ relay_iff_live w2).
Proof.
  intros w1 w2. split; split.
  - apply reach_exits, reach_tick, reach_start, reach_init.
  - unfold relay_iff_live. intros [_ H].
    assert (Hl : 0 < alive_count w1); [by apply H; vm_compute|].
    vm_compute in Hl. lia.
  - apply reachable_stream_loop, reach_start, reach_init.
  - unfold relay_iff_live. intros [_ H].
    assert (Hl : 0 < alive_count w2); [by apply H; vm_compute|].
    vm_compute in Hl. lia.
Qed.

(** ** C2: the crash storm *)

(** C2, as amended. Take a run of the loop from a serially_reachable world in which
    no iteration begins a broadcast session (a session start empties the
    ledger). If the deaths the run handles end with three at clock readings
    [t1 <= t2 <= t3], taken in order, with [t3 - t1 < CRASH_WINDOW], then at
    the third of them the loop returns with [running] and [is_live] false,
    [procs] empty and no child running; no iteration handles a further
    death in the world it leaves, and [start()] starts afresh with
    [restarts = 0] and an empty ledger. *)
Theorem crash_storm_halts obs sst w ds t1 t2 t3 :
  serially_reachable w →
  no_session_begins obs sst w = true →
  deaths_in obs sst w = ds ++ [t1; t2; t3] →
  chronological (ds ++ [t1; t2; t3]) = true →
  (t3 - t1 < CRASH_WINDOW)%Z →
  ∃ w', while_running obs sst w = (Ret Returned, w') ∧
        running (state w') = false ∧ is_live (state w') = false ∧
        procs w' = ∅ ∧ alive_count w' = 0 ∧
        (∀ o' sst', sees_death o' w' = false ∧ tick o' sst' w' = (Ret Return_, w')) ∧
        ∃ w'', API_start w' = (Ret "started", w'') ∧
               running (state w'') = true ∧ restarts (state w'') = 0 ∧
               crash_times (state w'') = [].
Proof.
  intros Hw Hno Hd Hc Hwin.
  assert (Hds : ds ++ [t1; t2; t3] = (ds ++ [t1; t2]) ++ [t3])
    by by rewrite <- (assoc_L (++)).
  rewrite Hds in Hd, Hc.
  destruct (run_halts_at_storm obs sst w (ds ++ [t1; t2]) t3 Hno Hd)
    as (w' & Hrun & Hr & Hl & Hp).
  { etrans; [|apply record_all_ge]. rewrite ledger_after_count by done.
    unfold count_in_window. rewrite <- Hds.
    rewrite List.filter_app, length_app.
    apply chronological_snoc in Hc as [Hc Hle]. 
    assert (t1 ≤ t3)%Z by (apply Hle; set_solver).
    assert (t2 ≤ t3)%Z by (apply Hle; set_solver).
    replace (ds ++ [t1; t2]) with ((ds ++ [t1]) ++ [t2]) in Hc
      by (by rewrite <- (assoc_L (++))).
    apply chronological_snoc in Hc as [_ Hle2].
    assert (t1 ≤ t2)%Z by (apply Hle2; set_solver).
    assert (in_window t3 t1 = true) as Hw1 by (apply Z.ltb_lt; lia).
    assert (in_window t3 t2 = true) as Hw2 by (apply Z.ltb_lt; lia).
    cbn [List.filter]. rewrite Hw1, Hw2, in_window_self. cbn. unfold MAX_RESTARTS. lia. }
  exists w'. split; [done|].
  assert (HI : Inv w').
  { apply reachable_Inv. pose proof (reachable_while obs sst w Hw) as H.
    by rewrite Hrun in H. }
  split_and!; try done.
  - by apply alive_count_0, no_child_runs_empty.
  - intros o' sst'. split; [unfold sees_death; by rewrite Hr|by apply tick_not_running].
  - unfold API_start. mrun. rewrite Hr. cbn [negb]. mrun. unfold emit. mred.
    eexists. split; [reflexivity|]. by frame.
Qed.

(** Three crashes of one session, at 1200, 1300 and 1400. *)
Lemma crash_storm_halts_witness :
  (serially_reachable live0 ∧
   no_session_begins three_crashes (Some 1000%Z) live0 = true ∧
   deaths_in three_crashes (Some 1000%Z) live0 = [] ++ [1200; 1300; 1400]%Z ∧
   chronological ([] ++ [1200; 1300; 1400])%Z = true ∧
   (1400 - 1200 < CRASH_WINDOW)%Z) ∧
  ∃ w', while_running three_crashes (Some 1000%Z) live0 = (Ret Returned, w') ∧
        running (state w') = false ∧ is_live (state w') = false ∧
        procs w' = ∅ ∧ alive_count w' = 0 ∧
        (∀ o' sst', sees_death o' w' = false ∧ tick o' sst' w' = (Ret Return_, w')) ∧
        ∃ w'', API_start w' = (Ret "started", w'') ∧
               running (state w'') = true ∧ restarts (state w'') = 0 ∧
               crash_times (state w'') = [].
Proof.
  assert (H0 : serially_reachable live0) by apply reach_tick, reach_start, reach_init.
  assert (H1 : no_session_begins three_crashes (Some 1000%Z) live0 = true)
    by (vm_compute; reflexivity).
  assert (H2 : deaths_in three_crashes (Some 1000%Z) live0 = [] ++ [1200; 1300; 1400]%Z)
    by (vm_compute; reflexivity).
  assert (H3 : chronological ([] ++ [1200; 1300; 1400])%Z = true) by reflexivity.
  assert (H4 : (1400 - 1200 < CRASH_WINDOW)%Z) by (vm_compute; reflexivity).
  split; [by split_and!|].
  exact (crash_storm_halts three_crashes (Some 1000%Z) live0 [] 1200 1300 1400 H0 H1 H2 H3 H4).
Defined.

(** C2 as stated fails: three relay deaths within 90 seconds, each in a
    session of ten seconds, do not halt the loop, because every new session
    empties the ledger; a fourth death is handled after them. *)
Lemma three_short_deaths_no_halt :
  let r3 := stream_loop "12:00:00" short_sessions started0 in
  let all := short_sessions ++ fourth_session in
  deaths_in short_sessions None started0 = [1010; 1050; 1090]%Z ∧
  ¬ halted r3 ∧
  r3.1 = Ret (Parked (Some 1080%Z)) ∧ running (state r3.2) = true ∧
  crash_times (state r3.2) = [1090%Z] ∧
  deaths_in all None started0 = [1010; 1050; 1090; 1130]%Z.
Proof.
  intros r3 all. split; [by vm_compute|]. split; [|by vm_compute].
  intros (_ & Hr & _). vm_compute in Hr. discriminate.
Qed.

(** ** C3: the relay binary is missing *)

(** C3, as amended. When [Popen] raises [FileNotFoundError], [start_ffmpeg]
    logs the operator-visible message, spawns nothing, clears [running] and
    returns [False]; an iteration that reaches the launch completes without
    raising and with [running] cleared, so that the loop returns at its next
    test instead of polling on. *)
Theorem relay_not_installed_stops_loop o s sst w :
  nonempty (yt_key (config (state w))) = true →
  spawn o = SpawnRaised (FileNotFoundError s) →
  attempts_launch o sst w = true →
  (∀ hls_url, ∃ w',
      start_ffmpeg o hls_url w = (Ret false, w') ∧
      running (state w') = false ∧
      children w' = children w ∧ procs w' = procs w ∧
      last (logs (state w')) =
        Some (mkLogEntry (hms o) "FFmpeg not found! Install it and add to PATH." "red")) ∧
  (∃ sst' w',
      tick o sst w = (Ret (Continue sst'), w') ∧
      running (state w') = false ∧
      length (children w') = length (children w) ∧
      ∀ o' obs, while_running (o :: o' :: obs) sst w = (Ret Returned, w')).
Proof.
  intros Hk Hs Hl. split.
  - intros url. eexists. split.
    + rewrite start_ffmpeg_run. by eapply start_outcome_not_found.
    + split_and!; try done. cbn. apply logged_last.
  - enough (∃ sst' w', tick o sst w = (Ret (Continue sst'), w') ∧
              running (state w') = false ∧
              length (children w') = length (children w)) as (sst' & w' & Ht & Hr & Hc).
    { exists sst', w'. split_and!; try done. intros o' obs.
      by eapply while_running_stopped. }
    unfold attempts_launch in Hl. apply andb_true_iff in Hl as [Hu Hl].
    rewrite tick_dispatch.
    unfold begins_session, restarts_relay, refreshes, sees_death, storm, short_session,
      refresh_due in Hl.
    destruct (running (state w)); [|done]. cbn [andb] in Hl.
    unfold polled_relay in *.
    destruct (is_live (state w)) eqn:Hlive; cbn [negb andb orb] in Hl.
    + destruct (procs w !! "ffmpeg") as [proc|]; [|done].
      destruct (exited_at o w proc); cbn [negb andb orb] in Hl.
      * rewrite orb_false_r in Hl. apply andb_true_iff in Hl as [Hst Hsh].
        apply negb_true_iff, bool_decide_eq_false in Hst. apply negb_true_iff in Hsh.
        unfold relay_dead, record_death in *. mrun. frame.
        case_decide; [done|]. rewrite Hsh. mrun. rewrite Hu. mrun.
        erewrite start_outcome_not_found; [|by frame|done].
        mrun. do 2 eexists. split; [reflexivity|]. frame.
        by rewrite os_exits_length.
      * unfold relay_alive. mrun. frame. rewrite Hl. mrun. rewrite Hu. mrun.
        erewrite start_outcome_not_found; [|by frame|done].
        mrun. do 2 eexists. split; [reflexivity|]. frame.
        rewrite stop_world_children, stop_all_length. frame.
        by rewrite os_exits_length.
    + rewrite orb_false_r in Hl.
      unfold check_kick. mrun. frame. rewrite Hlive, Hu. cbn [negb andb]. mrun.
      erewrite start_outcome_not_found; [|by frame|done].
      mrun. do 2 eexists. split; [reflexivity|]. frame.
      by rewrite os_exits_length.
Qed.

(** The first launch after start, with ffmpeg not installed. *)
Lemma relay_not_installed_stops_loop_witness :
  (nonempty (yt_key (config (state started0))) = true ∧
   spawn obs_no_ffmpeg = SpawnRaised (FileNotFoundError "ffmpeg") ∧
   attempts_launch obs_no_ffmpeg None started0 = true) ∧
  ((∀ hls_url, ∃ w',
      start_ffmpeg obs_no_ffmpeg hls_url started0 = (Ret false, w') ∧
      running (state w') = false ∧
      children w' = children started0 ∧ procs w' = procs started0 ∧
      last (logs (state w')) =
        Some (mkLogEntry (hms obs_no_ffmpeg) "FFmpeg not found! Install it and add to PATH." "red")) ∧
   (∃ sst' w',
      tick obs_no_ffmpeg None started0 = (Ret (Continue sst'), w') ∧
      running (state w') = false ∧
      length (children w') = length (children started0) ∧
      ∀ o' obs, while_running (obs_no_ffmpeg :: o' :: obs) None started0 = (Ret Returned, w'))).
Proof.
  split; [split_and!; reflexivity|].
  apply (relay_not_installed_stops_loop obs_no_ffmpeg "ffmpeg" None started0); reflexivity.
Defined.

(** C3 as stated fails: after the failed launch the loop returns, and of
    the three observations on offer only the first is probed. *)
Lemma missing_ffmpeg_ends_loop :
  let r := stream_loop "12:00:00"
             [ obs_no_ffmpeg;
               obs_at [] 1010 up (Spawned 4242 true);
               obs_at [] 1020 up (Spawned 4242 true) ] started0 in
  r.1 = Ret Returned ∧ running (state r.2) = false ∧
  length (List.filter is_probe (trace r.2)) = 1.
Proof. vm_compute. done. Qed.

(** ** C4: a relay that dies within two minutes is not restarted *)




(** ** C5: when [start_time] is set *)

(** C5, as amended. An iteration sets [start_time] to its clock reading
    exactly when it begins a session, clears it exactly when it takes the
    "Kick ended" branch, and otherwise leaves it as it was, also when it
    relaunches the relay for a URL refresh or after a crash. *)
Theorem start_time_set_on_new_session o sst w :
  let w' := (tick o sst w).2 in
  start_time (state w') =
    (if begins_session o w then Some (now o)
     else if ends_session o w then None
     else start_time (state w)) ∧
  (refreshes o w = true → start_time (state w') = start_time (state w)) ∧
  (restarts_relay o sst w = true → start_time (state w') = start_time (state w)).
Proof.
  destruct (tick_session o sst w) as (Hst & _). split; [exact Hst|].
  cbn zeta. rewrite Hst.
  unfold refreshes, restarts_relay, sees_death, begins_session, ends_session, polled_relay.
  destruct (running (state w)); cbn [andb]; [|done].
  destruct (is_live (state w)); cbn [andb negb]; [|done].
  by destruct (procs w !! "ffmpeg").
Qed.

(** C5 as stated fails: a refresh relaunch at 1545 and a post-crash relaunch
    at 1200 each start a new relay and leave [start_time] at 1000. *)
Lemma relaunch_keeps_start_time :
  let refresh := obs_at [] 1545 up (Spawned 4243 true) in
  let w1 := (tick refresh (Some 1000%Z) live0).2 in
  let crash := obs_at [0] 1200 up (Spawned 4244 true) in
  let w2 := (tick crash (Some 1000%Z) live0).2 in
  (children w1 !! 1 = Some (mkChild 4243 (build_cmd "https://edge.example/playlist.m3u8" "abcd-1234") true 0 Running)
   ∧ procs w1 !! "ffmpeg" = Some 1
   ∧ start_time (state w1) ≠ Some (now refresh)
   ∧ start_time (state w1) = Some 1000%Z) ∧
  (children w2 !! 1 = Some (mkChild 4244 (build_cmd "https://edge.example/playlist.m3u8" "abcd-1234") true 0 Running)
   ∧ procs w2 !! "ffmpeg" = Some 1
   ∧ restarts (state w2) = 1
   ∧ start_time (state w2) ≠ Some (now crash)
   ∧ start_time (state w2) = Some 1000%Z).
Proof. vm_compute. split_and!; done. Qed.

(** ** C6: the crash ledger *)

(** C6, as amended. For deaths handled at clock readings [t1..tn] taken in
    order and a reading [now] not earlier than the last of them, the pruned
    ledger holds as many entries as there are [ti] with
    [now - ti < CRASH_WINDOW], and so does the count the loop takes once
    [now] itself is recorded. For any stored ledger, handling a death counts
    the entries of the ledger and the new one that lie in the window, keeps
    only such entries and adds at most one. An entry that is gone from the
    ledger does not come back unless recorded anew. The loop handles a death
    by exactly this operation, and no serially_reachable ledger holds more than
    [MAX_RESTARTS] entries. *)
Theorem crash_ledger_count ts now_ :
  chronological (ts ++ [now_]) = true →
  (length (prune now_ (ledger_after ts)) = count_in_window now_ ts ∧
   length (ledger_after (ts ++ [now_])) = count_in_window now_ (ts ++ [now_])) ∧
  (∀ ledger,
     length (record_death now_ ledger) = count_in_window now_ (ledger ++ [now_]) ∧
     (∀ t, t ∈ record_death now_ ledger → in_window now_ t = true) ∧
     length (record_death now_ ledger) ≤ length ledger + 1) ∧
  (∀ ts' t, t ∉ ledger_after ts → t ∉ ts' → t ∉ ledger_after (ts ++ ts')) ∧
  (∀ o sst w, sees_death o w = true →
     crash_times (state (tick o sst w).2) = record_death (now o) (crash_times (state w))) ∧
  (∀ w, serially_reachable w → length (crash_times (state w)) ≤ MAX_RESTARTS).
Proof.
  intros Hc. split_and!.
  - unfold count_in_window. by rewrite ledger_after_chronological.
  - by apply ledger_after_count.
  - intros ledger. unfold count_in_window, record_death, prune.
    rewrite List.filter_app. cbn [List.filter]. rewrite in_window_self.
    split_and!; [done| |].
    + intros t [Ht|Ht]%elem_of_app.
      * by apply list_elem_of_In, List.filter_In in Ht as [_ Ht].
      * apply list_elem_of_singleton in Ht as ->. apply in_window_self.
    + rewrite length_app. cbn. pose proof (List.filter_length_le (in_window now_) ledger). lia.
  - intros ts' t H1 H2 [?|?]%ledger_after_subseteq; done.
  - intros o sst w Hd. destruct (tick_session o sst w) as (_ & _ & -> & _).
    rewrite Hd. unfold begins_session.
    apply sees_death_inv in Hd as (-> & -> & _). done.
  - intros w Hw. by apply reachable_ledger_bounded.
Qed.

(** Deaths at 1000, 1200 and 1700, queried at 1750: two are in the window. *)
Lemma crash_ledger_count_witness :
  chronological ([1000; 1200; 1700] ++ [1750])%Z = true ∧
  ((length (prune 1750 (ledger_after [1000; 1200; 1700]%Z))
      = count_in_window 1750 [1000; 1200; 1700]%Z ∧
    length (ledger_after ([1000; 1200; 1700] ++ [1750])%Z)
      = count_in_window 1750 ([1000; 1200; 1700] ++ [1750])%Z) ∧
   (∀ ledger,
      length (record_death 1750 ledger) = count_in_window 1750 (ledger ++ [1750%Z]) ∧
      (∀ t, t ∈ record_death 1750 ledger → in_window 1750 t = true) ∧
      length (record_death 1750 ledger) ≤ length ledger + 1) ∧
   (∀ ts' t, t ∉ ledger_after [1000; 1200; 1700]%Z → t ∉ ts' →
             t ∉ ledger_after ([1000; 1200; 1700]%Z ++ ts')) ∧
   (∀ o sst w, sees_death o w = true →
      crash_times (state (tick o sst w).2) = record_death (now o) (crash_times (state w))) ∧
   (∀ w, serially_reachable w → length (crash_times (state w)) ≤ MAX_RESTARTS)).
Proof.
  split; [reflexivity|].
  apply (crash_ledger_count [1000; 1200; 1700]%Z 1750%Z). reflexivity.
Defined.

(** C6 as stated fails for readings that are not in order: with the clock
    set back by five seconds between the second and the third death, the
    death at 1000 was pruned at 1600 and is missed at 1595, where it is less
    than 600 s old. *)
Lemma backward_clock_undercounts :
  ledger_after [1000; 1600; 1595]%Z = [1600; 1595]%Z ∧
  count_in_window 1595 [1000; 1600; 1595]%Z = 3 ∧
  ¬ counts_every_sequence.
Proof.
  split; [reflexivity|]. split; [reflexivity|].
  intros H. specialize (H [1000; 1600]%Z 1595%Z). vm_compute in H. discriminate.
Qed.

(** ** C7: the stop command *)

(** C7, as amended. From every world, [stop()] run to completion returns
    "stopped" and leaves [running] and [is_live] false, [start_time]
    cleared and [procs] empty, whether or not a relay handle was held and
    whether or not its process was still running. Every child whose handle
    [procs] held no longer runs; a child [procs] did not hold is left as it
    was, so no child at all runs afterwards provided every running child
    was held in [procs]. A second [stop()] returns "stopped" again and
    changes nothing but the log buffer, which receives one more "Stopped by
    user" entry. *)
Theorem stop_idempotent_up_to_log t t' w :
  ∃ w1 w2,
    API_stop t w = (Ret "stopped", w1) ∧
    API_stop t' w1 = (Ret "stopped", w2) ∧
    (running (state w1) = false ∧ is_live (state w1) = false ∧
     start_time (state w1) = None ∧ procs w1 = ∅) ∧
    (∀ k h c, procs w !! k = Some h → children w1 !! h = Some c →
              is_running c = false) ∧
    (∀ h, (∀ k, procs w !! k ≠ Some h) → children w1 !! h = children w !! h) ∧
    (tracked w → alive_count w1 = 0) ∧
    (running (state w2) = running (state w1) ∧ is_live (state w2) = is_live (state w1) ∧
     start_time (state w2) = start_time (state w1) ∧
     restarts (state w2) = restarts (state w1) ∧
     crash_times (state w2) = crash_times (state w1) ∧
     config (state w2) = config (state w1) ∧
     procs w2 = procs w1 ∧ children w2 = children w1) ∧
    logs (state w2) = logged (mkLogEntry t' "Stopped by user" "red") (logs (state w1)).
Proof.
  unfold API_stop. mrun. do 2 eexists.
  split; [reflexivity|]. split; [mrun; reflexivity|].
  frame. split_and!; try done.
  - intros k h c Hp Hc. eapply stop_world_stops; [|exact Hc]. exact Hp.
  - intros h Hk. rewrite stop_world_children, stop_all_lookup. frame.
    rewrite bool_decide_eq_false_2; [done|]. rewrite held_handle.
    intros [k Hk']. by apply (Hk k).
  - intros Ht. apply alive_count_0. frame. by apply stop_world_no_child_runs.
Qed.

(** C7 as stated fails twice. The second [stop()] changes [state], whose
    log buffer grows from four to five entries. And a child can survive a
    [stop()]: when [stop()] runs while the loop is between the return of
    [Popen] (line 90) and the assignment to [procs] (line 96), the new
    child is not in [procs] yet; [stop()] returns with that child running,
    and the loop then stores the handle and leaves a relay running with
    [is_live] and [running] false. Run without the [stop()] in between, the
    same pieces are the iteration [tick]. *)
Lemma stop_changes_log_and_misses_child :
  let url := "https://edge.example/playlist.m3u8" in
  (let w1 := (API_stop "12:05:00" live0).2 in
   let w2 := (API_stop "12:05:01" w1).2 in
   state w2 ≠ state w1 ∧ length (logs (state w1)) = 4 ∧ length (logs (state w2)) = 5) ∧
  (check_probe obs_live started0 = (Ret (Some url), probed0) ∧
   begin_spawn obs_live url probed0 = (Ret (Some 0), spawned0) ∧
   (begin_bind obs_live (Some 0) spawned0) = tick obs_live None started0 ∧
   API_stop "12:00:01" spawned0 = (Ret "stopped", stopped_midway) ∧
   alive_count stopped_midway = 1 ∧
   let w := (begin_bind obs_live (Some 0) stopped_midway).2 in
   is_live (state w) = false ∧ running (state w) = false ∧
   procs w !! "ffmpeg" = Some 0 ∧ alive_count w = 1).
Proof.
  intros url. split.
  - intros w1 w2. split; [|by vm_compute].
    intros Heq. apply (f_equal (λ s, length (logs s))) in Heq.
    vm_compute in Heq. discriminate.
  - split_and!; try (vm_compute; reflexivity).
    intros w. split_and!; vm_compute; reflexivity.
Qed.

(** ** C8: when [restarts] is reset *)

(** C8, as amended. An iteration sets [restarts] to 0 exactly when it
    begins a session: the prober returned a URL while [is_live] was false.
    [is_live] then becomes true and the launcher is called; with a stream
    key saved it issues the [Popen] of the relay, and without one it
    launches nothing, the reset having happened all the same. When the
    iteration restarts a crashed relay it adds one; otherwise it leaves
    [restarts] as it was. Neither [stop()] nor [save_settings] nor a
    [start()] issued while [running] is set changes it; a [start()] that
    starts a loop sets it to 0. *)
Theorem restarts_reset_on_new_session o sst w :
  let w' := (tick o sst w).2 in
  restarts (state w') =
    (if begins_session o w then 0
     else if restarts_relay o sst w then restarts (state w) + 1
     else restarts (state w)) ∧
  (begins_session o w = true →
     is_live (state w) = false ∧ is_live (state w') = true ∧
     (nonempty (yt_key (config (state w))) = true →
      EvPopen (build_cmd (default "" (probe_result o)) (yt_key (config (state w))))
        ∈ events_since w w') ∧
     (nonempty (yt_key (config (state w))) = false → launches w' = launches w)) ∧
  (∀ t, restarts (state (API_stop t w).2) = restarts (state w)) ∧
  (∀ t fo k y, restarts (state (API_save_settings t fo k y w).2) = restarts (state w)) ∧
  (if running (state w) then restarts (state (API_start w).2) = restarts (state w)
   else restarts (state (API_start w).2) = 0).
Proof.
  split_and!.
  - apply tick_session.
  - intros Hb. destruct (begin_launches o sst w Hb) as [Hl Hp].
    split; [|split; [done|split; [done|]]].
    { unfold begins_session in Hb. destruct (is_live (state w)); [|done].
      by rewrite andb_false_r in Hb. }
    intros Hk. unfold begins_session in Hb.
    apply andb_true_iff in Hb as [Hb Hu]. apply andb_true_iff in Hb as [Hr Hlv].
    apply negb_true_iff in Hlv.
    rewrite tick_dispatch, Hr. unfold polled_relay. rewrite Hlv.
    unfold check_kick. mrun. frame. rewrite Hlv, Hu. cbn [negb andb]. mrun.
    unfold start_outcome. frame. rewrite Hk. mrun.
    eapply launches_app.
    + frame. rewrite probe_world_trace. frame. rewrite <- !(assoc_L (++)). reflexivity.
    + repeat apply Forall_app_2; try apply no_launch_Forall;
        first [apply log_events_no_launch | apply probe_events_no_launch
              |apply ui_events_no_launch | by intros cmd ?%list_elem_of_singleton].
  - intros t. unfold API_stop. mrun. by frame.
  - intros t fo k y. rewrite API_save_settings_run. by destruct fo.
  - unfold API_start. mrun. by destruct (running (state w)).
Qed.

(** C8 as stated fails: with a restart counted, the channel back after an
    outage and no stream key saved, the iteration that detects the new
    session resets [restarts] from 1 to 0 and launches no relay: no
    [Popen] is made and no child is spawned. *)
Lemma reset_without_launch :
  let o := obs_at [] 1310 up (Spawned 4243 true) in
  let w := keyless_after_restart in
  let w' := (tick o (Some 1000%Z) w).2 in
  serially_reachable w ∧
  restarts (state w) = 1 ∧ is_live (state w) = false ∧
  begins_session o w = true ∧
  restarts (state w') = 0 ∧
  launches w' = launches w ∧ children w' = children w ∧ alive_count w' = 0.
Proof.
  intros o w w'. split_and!; try (vm_compute; reflexivity).
  apply (reach_save _ _ Written), reach_tick, reach_tick, reach_start, reach_init.
Qed.

(** ** C9: the log buffer is bounded and evicts the oldest entry first *)

(** C9. A call of [log] on a buffer of at most 200 entries returns normally
    whatever the window does with the notification, leaves at most 200
    entries, and the new buffer is the old one, without its oldest entry if
    it was full, followed by the new entry. The buffer of every serially_reachable
    world has at most 200 entries. *)
Theorem log_bounded_fifo t msg level w :
  length (logs (state w)) ≤ LOG_LIMIT →
  (∃ w', log t msg level w = (Ret tt, w') ∧
         length (logs (state w')) ≤ LOG_LIMIT ∧
         logs (state w') =
           (if decide (length (logs (state w)) = LOG_LIMIT)
            then drop 1 (logs (state w)) else logs (state w))
           ++ [mkLogEntry t msg level]) ∧
  (∀ w0, serially_reachable w0 → length (logs (state w0)) ≤ LOG_LIMIT).
Proof.
  intros H. split.
  - exists (log_world t msg level w). split; [apply log_run|].
    cbn -[LOG_LIMIT]. split; [by apply logged_length|by apply logged_fifo].
  - intros w0 Hw0. by apply inv_logs, reachable_Inv.
Qed.

(** [log] on a full buffer, with a window that rejects the notification. *)
Lemma log_bounded_fifo_witness :
  length (logs (state full_log_world)) ≤ LOG_LIMIT ∧
  ((∃ w', log "12:00:00" "Checking if Kick is live..." "muted" full_log_world = (Ret tt, w') ∧
          length (logs (state w')) ≤ LOG_LIMIT ∧
          logs (state w') =
            (if decide (length (logs (state full_log_world)) = LOG_LIMIT)
             then drop 1 (logs (state full_log_world)) else logs (state full_log_world))
            ++ [mkLogEntry "12:00:00" "Checking if Kick is live..." "muted"]) ∧
   (∀ w0, serially_reachable w0 → length (logs (state w0)) ≤ LOG_LIMIT)).
Proof.
  split; [vm_compute; lia|].
  apply log_bounded_fifo. vm_compute. lia.
Defined.

(** ** C10: no relay is launched without a stream key *)

(** C10. With an empty [yt_key], [start_ffmpeg] logs the missing key, spawns
    no process (the process table and [procs] are unchanged and no [Popen]
    call is made, so no launch command is composed), clears [running] and
    returns [False]. In every serially_reachable world, every [Popen] command issued
    so far is a [build_cmd] of a non-empty key. *)
Theorem no_launch_without_key o hls_url w :
  yt_key (config (state w)) = "" →
  (∃ w', start_ffmpeg o hls_url w = (Ret false, w') ∧
         children w' = children w ∧ procs w' = procs w ∧
         running (state w') = false ∧
         last (logs (state w')) =
           Some (mkLogEntry (hms o) "No YouTube key set — open Settings first" "red") ∧
         ∀ cmd, EvPopen cmd ∉ events_since w w') ∧
  (∀ w0 cmd, serially_reachable w0 → EvPopen cmd ∈ trace w0 →
             ∃ url key, nonempty key = true ∧ cmd = build_cmd url key).
Proof.
  intros Hk. split.
  - exists (no_key_world o w). split; [|split_and!; try done].
    + rewrite start_ffmpeg_run. unfold start_outcome. by rewrite Hk.
    + cbn. apply logged_last.
    + intros cmd. erewrite events_since_app; [|reflexivity].
      apply log_events_no_launch.
  - intros w0 cmd Hw0. by apply inv_keyed, reachable_Inv.
Qed.

(** [start_ffmpeg] right after start with no stream key saved. *)
Lemma no_launch_without_key_witness :
  yt_key (config (state no_key_started)) = "" ∧
  ((∃ w', start_ffmpeg (obs_at [] 1000 up (Spawned 4242 true))
            "https://edge.example/playlist.m3u8" no_key_started = (Ret false, w') ∧
          children w' = children no_key_started ∧ procs w' = procs no_key_started ∧
          running (state w') = false ∧
          last (logs (state w')) =
            Some (mkLogEntry "12:00:00" "No YouTube key set — open Settings first" "red") ∧
          ∀ cmd, EvPopen cmd ∉ events_since no_key_started w') ∧
   (∀ w0 cmd, serially_reachable w0 → EvPopen cmd ∈ trace w0 →
              ∃ url key, nonempty key = true ∧ cmd = build_cmd url key)).
Proof.
  split; [reflexivity|].
  apply (no_launch_without_key (obs_at [] 1000 up (Spawned 4242 true))). reflexivity.
Defined.

(** * Further properties of the code

    Properties of the functions themselves, beyond the claims above: the
    prober [get_hls_url], the command builder, the launcher and the stopper,
    the two notifications to the window, the guard of [stream_loop], the
    branches of its loop and the operator commands. *)

(** ** The prober *)

(** X1. [get_hls_url] never raises. It returns a URL exactly when the
    streamlink run completed with return code 0 and its output, stripped of
    surrounding whitespace as [str.strip()] does it (the whitespace of
    Unicode, not of ASCII alone), starts with "http"; the URL is that
    stripped output, and it is truthy, so that [if url] tests for [None]
    only. The call leaves [procs], the process table and, but for the log
    buffer, [state] as they were. *)
Theorem get_hls_url_result o w :
  ∃ r w', get_hls_url o w = (Ret r, w') ∧
    (∀ u, r = Some u ↔
          ∃ out, run o = Completed 0 out ∧ u = strip out ∧ startswith u "http" = true) ∧
    truthy_url r = (match r with Some _ => true | None => false end) ∧
    only_logs_differ (state w) (state w') ∧
    procs w' = procs w ∧ children w' = children w ∧ window w' = window w.
Proof.
  exists (probe_result o), (probe_world o w). split; [apply get_hls_url_run|].
  split; [apply probe_result_Some|]. split.
  - destruct (probe_result o) as [u|] eqn:Hr; [|done]. cbn.
    apply probe_result_Some in Hr as (out & _ & _ & Hp).
    by apply startswith_http_nonempty.
  - split_and!; [|apply probe_world_procs|apply probe_world_children|apply probe_world_window].
    unfold only_logs_differ, probe_world. by destruct (run o).
Qed.

(** X2. What [get_hls_url] reports. When the streamlink run completes,
    whatever its return code and output, nothing is logged: [state] is
    unchanged and the only call made is the run of streamlink on the saved
    Kick URL. When the run raises (a timeout, a missing interpreter), the
    function returns [None] and appends one yellow "Streamlink error" entry
    carrying the text of the exception. *)
Theorem get_hls_url_logging o w :
  let w' := (get_hls_url o w).2 in
  match run o with
  | Completed rc out =>
      state w' = state w ∧
      events_since w w' =
        [EvRun ["python"; "-m"; "streamlink"; kick_url (config (state w)); "--stream-url"; "best"]]
  | RunRaised e =>
      (get_hls_url o w).1 = Ret None ∧
      logs (state w') =
        logged (mkLogEntry (hms o) ("Streamlink error: " +:+ exn_str e) "yellow")
               (logs (state w)) ∧
      head (events_since w w') =
        Some (EvRun ["python"; "-m"; "streamlink"; kick_url (config (state w)); "--stream-url"; "best"])
  end.
Proof.
  rewrite get_hls_url_run. cbn [snd fst].
  pose proof (probe_world_trace o w) as Ht.
  unfold probe_world, probe_result, probe_events in *.
  destruct (run o) as [rc out|e].
  - split; [done|]. by rewrite (events_since_app _ _ _ Ht).
  - split; [done|]. split; [done|]. by rewrite (events_since_app _ _ _ Ht).
Qed.

(** ** The launcher *)

(** X3. With a stream key saved and [Popen] succeeding, [start_ffmpeg]
    returns [True]; one child is appended to the process table, running,
    with the pid [Popen] gave and the command [build_cmd] composes from the
    URL and the key; [procs["ffmpeg"]] is its handle, the other entries of
    [procs] and every earlier child are as before; [state] changes in the
    log buffer only, whose last entry is "FFmpeg started (PID ...)"; the
    first call made is the [Popen]. *)
Theorem start_ffmpeg_success o url w p heeds :
  nonempty (yt_key (config (state w))) = true →
  spawn o = Spawned p heeds →
  ∃ w' c, start_ffmpeg o url w = (Ret true, w') ∧
    children w' = children w ++ [c] ∧
    pid c = p ∧ argv c = build_cmd url (yt_key (config (state w))) ∧
    status c = Running ∧
    procs w' = <["ffmpeg" := length (children w)]> (procs w) ∧
    only_logs_differ (state w) (state w') ∧
    last (logs (state w')) =
      Some (mkLogEntry (hms o) ("FFmpeg started (PID " +:+ pretty p +:+ ")") "green") ∧
    head (events_since w w') = Some (EvPopen (build_cmd url (yt_key (config (state w))))).
Proof.
  intros Hk Hs. rewrite start_ffmpeg_run, (start_outcome_spawned _ _ _ _ _ Hk Hs).
  eexists _, _. split; [reflexivity|]. frame. split_and!; try done.
  - apply logged_last.
  - erewrite events_since_app; [|frame; rewrite <- (assoc_L (++)); reflexivity]. done.
Qed.

(** The first launch after start. *)
Lemma start_ffmpeg_success_witness :
  let o := obs_at [] 1000 up (Spawned 4242 true) in
  let url := "https://edge.example/playlist.m3u8" in
  (nonempty (yt_key (config (state started0))) = true ∧
   spawn o = Spawned 4242 true) ∧
  ∃ w' c, start_ffmpeg o url started0 = (Ret true, w') ∧
    children w' = children started0 ++ [c] ∧
    pid c = 4242%Z ∧ argv c = build_cmd url (yt_key (config (state started0))) ∧
    status c = Running ∧
    procs w' = <["ffmpeg" := length (children started0)]> (procs started0) ∧
    only_logs_differ (state started0) (state w') ∧
    last (logs (state w')) =
      Some (mkLogEntry (hms o) ("FFmpeg started (PID " +:+ pretty 4242%Z +:+ ")") "green") ∧
    head (events_since started0 w') =
      Some (EvPopen (build_cmd url (yt_key (config (state started0))))).
Proof.
  intros o url.
  assert (H1 : nonempty (yt_key (config (state started0))) = true) by reflexivity.
  assert (H2 : spawn o = Spawned 4242 true) by reflexivity.
  split; [by split|].
  exact (start_ffmpeg_success o url started0 4242%Z true H1 H2).
Defined.

(** X4. [start_ffmpeg] does not stop the relay it replaces. Called while
    [procs["ffmpeg"]] holds a running child, it overwrites the handle and
    leaves that child running beside the new one; a [stop_ffmpeg] issued
    afterwards stops the new relay, empties [procs] and still leaves the
    old child running. (The callers in [stream_loop] stop or find dead the
    old relay first.) *)
Theorem start_ffmpeg_keeps_old_relay o url w p heeds h0 c0 :
  nonempty (yt_key (config (state w))) = true →
  spawn o = Spawned p heeds →
  procs w !! "ffmpeg" = Some h0 →
  (∀ k, procs w !! k = Some h0 → k = "ffmpeg") →
  children w !! h0 = Some c0 → is_running c0 = true →
  ∃ w1 w2, start_ffmpeg o url w = (Ret true, w1) ∧
    children w1 !! h0 = Some c0 ∧ procs w1 !! "ffmpeg" = Some (length (children w)) ∧
    running_children (children w1) = S (running_children (children w)) ∧
    stop_ffmpeg w1 = (Ret tt, w2) ∧
    procs w2 = ∅ ∧ children w2 !! h0 = Some c0.
Proof.
  intros Hk Hs Hp Hu Hc Hr.
  rewrite start_ffmpeg_run, (start_outcome_spawned _ _ _ _ _ Hk Hs).
  eexists _, _. split; [reflexivity|]. rewrite stop_ffmpeg_run.
  assert (h0 < length (children w)) as Hlt by by eapply lookup_lt_Some.
  split_and!; [| | |reflexivity| |].
  - frame. by rewrite lookup_app_l.
  - frame. by rewrite lookup_insert_eq.
  - frame. unfold running_children. rewrite List.filter_app, length_app. cbn. lia.
  - apply stop_world_procs.
  - rewrite stop_world_children, stop_all_lookup. frame.
    rewrite bool_decide_eq_false_2; [by rewrite lookup_app_l|].
    rewrite held_handle. intros [k Hk'].
    destruct (decide (k = "ffmpeg")) as [->|Hne].
    + rewrite lookup_insert_eq in Hk'. simplify_eq. lia.
    + rewrite lookup_insert_ne in Hk' by done. by apply Hu in Hk'.
Qed.

(** A second launch while the relay of [live0] runs. *)
Lemma start_ffmpeg_keeps_old_relay_witness :
  let o := obs_at [] 1010 up (Spawned 4243 true) in
  let url := "https://edge.example/playlist.m3u8" in
  let c0 := mkChild 4242 (build_cmd url "abcd-1234") true 0 Running in
  (nonempty (yt_key (config (state live0))) = true ∧
   spawn o = Spawned 4243 true ∧
   procs live0 !! "ffmpeg" = Some 0 ∧
   (∀ k, procs live0 !! k = Some 0 → k = "ffmpeg") ∧
   children live0 !! 0 = Some c0 ∧ is_running c0 = true) ∧
  ∃ w1 w2, start_ffmpeg o url live0 = (Ret true, w1) ∧
    children w1 !! 0 = Some c0 ∧ procs w1 !! "ffmpeg" = Some (length (children live0)) ∧
    running_children (children w1) = S (running_children (children live0)) ∧
    stop_ffmpeg w1 = (Ret tt, w2) ∧
    procs w2 = ∅ ∧ children w2 !! 0 = Some c0.
Proof.
  intros o url c0.
  assert (H1 : nonempty (yt_key (config (state live0))) = true) by (vm_compute; reflexivity).
  assert (H2 : spawn o = Spawned 4243 true) by reflexivity.
  assert (H3 : procs live0 !! "ffmpeg" = Some 0) by (vm_compute; reflexivity).
  assert (H4 : ∀ k, procs live0 !! k = Some 0 → k = "ffmpeg").
  { intros k. assert (procs live0 = {["ffmpeg" := 0]}) as -> by (vm_compute; reflexivity).
    by intros [-> _]%lookup_singleton_Some. }
  assert (H5 : children live0 !! 0 = Some c0) by (vm_compute; reflexivity).
  assert (H6 : is_running c0 = true) by reflexivity.
  split; [by split_and!|].
  exact (start_ffmpeg_keeps_old_relay o url live0 4243%Z true 0 c0 H1 H2 H3 H4 H5 H6).
Defined.

(** ** Exceptions out of the loop *)

(** X5. Of the exceptions the embedding follows (those of [evaluate_js],
    [subprocess.run], [Popen] and [wait]) only one kind leaves the loop: if
    a run of the loop ends in an exception, then the iterations before the
    last completed, and the last one reached [start_ffmpeg] with a stream
    key saved and [Popen] raised that exception, which is not
    [FileNotFoundError]. The prober, the stopper and the notifications to
    the window catch their own. The thread dies with [running] still true
    and with the [Popen] as its last call. *)
Theorem loop_dies_only_in_popen obs sst w e w' :
  while_running obs sst w = (Raise e, w') →
  ∃ pre o post sst1 w1,
    obs = pre ++ o :: post ∧
    while_running pre sst w = (Ret (Parked sst1), w1) ∧
    tick o sst1 w1 = (Raise e, w') ∧
    spawn o = SpawnRaised e ∧ (∀ s, e ≠ FileNotFoundError s) ∧
    attempts_launch o sst1 w1 = true ∧
    nonempty (yt_key (config (state w1))) = true ∧
    running (state w') = true ∧
    last (trace w') =
      Some (EvPopen (build_cmd (default "" (probe_result o)) (yt_key (config (state w1))))).
Proof.
  revert sst w. induction obs as [|o obs IH]; intros sst w; [done|].
  cbn [while_running]. unfold mbind, M_bind.
  destruct (tick o sst w) as [[[sst'|]|e0] w0] eqn:Ht.
  - intros Hrun. destruct (IH _ _ Hrun) as (pre & o1 & post & sst1 & w1 & -> & Hpre & Hrest).
    exists (o :: pre), o1, post, sst1, w1. split; [done|]. split; [|done].
    cbn [while_running]. unfold mbind, M_bind. by rewrite Ht.
  - done.
  - intros [= -> ->]. exists [], o, obs, sst, w. split; [done|]. split; [done|].
    split; [done|]. by apply tick_raise_inv.
Qed.

(** The first launch, refused by the operating system. *)
Lemma loop_dies_only_in_popen_witness :
  let e := OtherException "PermissionError" in
  let w' := (tick obs_denied None started0).2 in
  while_running [obs_denied] None started0 = (Raise e, w') ∧
  ∃ pre o post sst1 w1,
    [obs_denied] = pre ++ o :: post ∧
    while_running pre None started0 = (Ret (Parked sst1), w1) ∧
    tick o sst1 w1 = (Raise e, w') ∧
    spawn o = SpawnRaised e ∧ (∀ s, e ≠ FileNotFoundError s) ∧
    attempts_launch o sst1 w1 = true ∧
    nonempty (yt_key (config (state w1))) = true ∧
    running (state w') = true ∧
    last (trace w') =
      Some (EvPopen (build_cmd (default "" (probe_result o)) (yt_key (config (state w1))))).
Proof.
  intros e w'.
  assert (H : while_running [obs_denied] None started0 = (Raise e, w'))
    by (vm_compute; reflexivity).
  split; [exact H|].
  exact (loop_dies_only_in_popen [obs_denied] None started0 e w' H).
Defined.

(** X6. When an iteration reaches [start_ffmpeg] with a stream key saved and
    [Popen] raises anything but [FileNotFoundError], the exception leaves
    the iteration and the loop: no child was spawned, [running] and
    [is_live] are left true, and a later [start()] answers "already
    running" and changes nothing, so that no new loop is started. *)
Theorem popen_error_wedges_supervisor o sst w e :
  attempts_launch o sst w = true →
  nonempty (yt_key (config (state w))) = true →
  spawn o = SpawnRaised e → (∀ s, e ≠ FileNotFoundError s) →
  ∃ w', tick o sst w = (Raise e, w') ∧
        (∀ obs, while_running (o :: obs) sst w = (Raise e, w')) ∧
        running (state w') = true ∧ is_live (state w') = true ∧
        length (children w') = length (children w) ∧
        API_start w' = (Ret "already running", w').
Proof.
  intros Hl Hk Hs He.
  enough (∃ w', tick o sst w = (Raise e, w') ∧
              running (state w') = true ∧ is_live (state w') = true ∧
              length (children w') = length (children w)) as (w' & Ht & Hr & Hlv & Hc).
  { exists w'. split_and!; try done.
    - intros obs. cbn [while_running]. unfold mbind, M_bind. by rewrite Ht.
    - unfold API_start. mred. by rewrite Hr. }
  unfold attempts_launch in Hl. apply andb_true_iff in Hl as [Hu Hl].
  rewrite tick_dispatch.
  unfold begins_session, restarts_relay, refreshes, sees_death, storm, short_session,
    refresh_due in Hl.
  destruct (running (state w)) eqn:Hrun; [|done]. cbn [andb] in Hl.
  unfold polled_relay in *.
  destruct (is_live (state w)) eqn:Hlive; cbn [negb andb orb] in Hl.
  - destruct (procs w !! "ffmpeg") as [proc|]; [|done].
    destruct (exited_at o w proc); cbn [negb andb orb] in Hl.
    + rewrite orb_false_r in Hl. apply andb_true_iff in Hl as [Hst Hsh].
      apply negb_true_iff, bool_decide_eq_false in Hst. apply negb_true_iff in Hsh.
      unfold relay_dead, record_death in *. mrun. frame.
      case_decide; [done|]. rewrite Hsh. mrun. rewrite Hu. mrun.
      erewrite start_outcome_raise; [|by frame|done..].
      mrun. eexists. split; [reflexivity|]. frame.
      by rewrite os_exits_length.
    + unfold relay_alive. mrun. frame. rewrite Hl. mrun. rewrite Hu. mrun.
      erewrite start_outcome_raise; [|by frame|done..].
      mrun. eexists. split; [reflexivity|]. frame.
      rewrite stop_world_children, stop_all_length. frame.
      by rewrite os_exits_length.
  - rewrite orb_false_r in Hl.
    unfold check_kick. mrun. frame. rewrite Hlive, Hu. cbn [negb andb]. mrun.
    erewrite start_outcome_raise; [|by frame|done..].
    mrun. eexists. split; [reflexivity|]. frame.
    by rewrite os_exits_length.
Qed.

(** The first launch, refused by the operating system. *)
Lemma popen_error_wedges_supervisor_witness :
  let e := OtherException "PermissionError" in
  (attempts_launch obs_denied None started0 = true ∧
   nonempty (yt_key (config (state started0))) = true ∧
   spawn obs_denied = SpawnRaised e ∧
   (∀ s, e ≠ FileNotFoundError s)) ∧
  ∃ w', tick obs_denied None started0 = (Raise e, w') ∧
        (∀ obs, while_running (obs_denied :: obs) None started0 = (Raise e, w')) ∧
        running (state w') = true ∧ is_live (state w') = true ∧
        length (children w') = length (children started0) ∧
        API_start w' = (Ret "already running", w').
Proof.
  intros e.
  assert (H1 : attempts_launch obs_denied None started0 = true) by (vm_compute; reflexivity).
  assert (H2 : nonempty (yt_key (config (state started0))) = true) by (vm_compute; reflexivity).
  assert (H3 : spawn obs_denied = SpawnRaised e) by reflexivity.
  assert (H4 : ∀ s, e ≠ FileNotFoundError s) by done.
  split; [by split_and!|].
  exact (popen_error_wedges_supervisor obs_denied None started0 e H1 H2 H3 H4).
Defined.

(** ** The stopper *)

(** X7. [stop_ffmpeg] never raises and empties [procs]. Every child whose
    handle [procs] held, under whatever key, and that was running has
    exited afterwards: terminated if it heeds the request within the grace
    period, killed otherwise; it is sent [terminate] in either case and
    [kill] exactly in the second. Children that already exited and children
    [procs] did not hold are untouched and receive nothing. [state], the
    window and the number of children are unchanged, and the calls made are
    [terminate] and [kill] only. *)
Theorem stop_ffmpeg_spec w :
  ∃ w', stop_ffmpeg w = (Ret tt, w') ∧
    procs w' = ∅ ∧ state w' = state w ∧ window w' = window w ∧
    length (children w') = length (children w) ∧
    (∀ k h c, procs w !! k = Some h → children w !! h = Some c →
       children w' !! h =
         Some (if is_running c
               then set_status (Exited (if heeds_terminate c then Terminated else Killed)) c
               else c)) ∧
    (∀ h, (∀ k, procs w !! k ≠ Some h) → children w' !! h = children w !! h) ∧
    (∀ h, EvTerminate h ∈ events_since w w' ↔
          ∃ k c, procs w !! k = Some h ∧ children w !! h = Some c ∧ is_running c = true) ∧
    (∀ h, EvKill h ∈ events_since w w' ↔
          ∃ k c, procs w !! k = Some h ∧ children w !! h = Some c ∧
                 is_running c = true ∧ heeds_terminate c = false) ∧
    Forall (λ e, match e with EvTerminate _ | EvKill _ => True | _ => False end)
           (events_since w w').
Proof.
  exists (stop_world w). split; [apply stop_ffmpeg_run|].
  rewrite (events_since_app _ _ _ (stop_world_trace w)).
  split_and!.
  - apply stop_world_procs.
  - apply stop_world_state.
  - apply stop_world_window.
  - rewrite stop_world_children. apply stop_all_length.
  - intros k h c Hk Hc. rewrite stop_world_children, stop_all_lookup, Hc.
    rewrite bool_decide_eq_true_2; [done|]. apply held_handle. eauto.
  - intros h Hk. rewrite stop_world_children, stop_all_lookup.
    rewrite bool_decide_eq_false_2; [done|]. rewrite held_handle.
    intros [k Hk']. by apply (Hk k).
  - intros h. rewrite stop_all_events_terminate, held_handle. split.
    + intros [[k Hk] (c & Hc & Hr)]. by exists k, c.
    + intros (k & c & Hk & Hc & Hr). split; [by exists k|by exists c].
  - intros h. rewrite stop_all_events_kill, held_handle. split.
    + intros [[k Hk] (c & Hc & Hr & Hh)]. by exists k, c.
    + intros (k & c & Hk & Hc & Hr & Hh). split; [by exists k|by exists c].
  - generalize (children w). induction ((map_to_list (procs w)).*2) as [|h hs IH];
      intros cs; cbn [stop_all_events]; [done|].
    apply Forall_app. split; [|apply IH]. unfold stop_events.
    destruct (cs !! h) as [c|]; [|done]. destruct (is_running c); [|done].
    destruct (heeds_terminate c); repeat constructor.
Qed.

(** X8. [stop_ffmpeg] is idempotent: a second call right after the first
    returns normally and leaves the world exactly as the first left it; on
    an empty [procs] the call changes nothing at all. *)
Theorem stop_ffmpeg_idempotent w :
  ∃ w1, stop_ffmpeg w = (Ret tt, w1) ∧ stop_ffmpeg w1 = (Ret tt, w1) ∧
        (procs w = ∅ → w1 = w).
Proof.
  exists (stop_world w). rewrite !stop_ffmpeg_run. split; [done|]. split.
  - by rewrite (stop_world_empty (stop_world w) (stop_world_procs w)).
  - apply stop_world_empty.
Qed.

(** ** Notifications to the window *)

(** X9. [update_ui_status] never raises, whatever [evaluate_js] does. It
    changes neither [state] nor [procs] nor the process table; without a
    window it does nothing at all; with one it makes at most one call, the
    script [updateStatus(true|false, restarts)] with the current values of
    [is_live] and [restarts]. *)
Theorem update_ui_status_frame w :
  ∃ w', update_ui_status w = (Ret tt, w') ∧
    state w' = state w ∧ procs w' = procs w ∧ children w' = children w ∧
    window w' = window w ∧
    (window w = None → w' = w) ∧
    (events_since w w' = [] ∨
     events_since w w' =
       [EvJs ("updateStatus(" +:+ (if is_live (state w) then "true" else "false") +:+ ", "
              +:+ pretty (restarts (state w)) +:+ ")")]).
Proof.
  exists (ui_world w). split; [apply update_ui_status_run|].
  split_and!; try done.
  - intros Hw. destruct w as [s p c win tr]. cbn in *. subst win.
    unfold ui_world, ui_events, with_trace. cbn. by rewrite app_nil_r.
  - rewrite (events_since_app w (ui_world w) (ui_events w)) by done.
    unfold ui_events, status_script. destruct (window w) as [win|]; [|by left].
    destruct (js_ok _ _); [by right|by left].
Qed.

(** X10. The escaping [log] applies to a message before it is spliced into
    the [addLog('...')] script: in the result every quote and every
    backtick comes right after a backslash, and a message that holds
    neither is passed on unchanged. *)
Theorem safe_js_escapes msg :
  quotes_escaped false (safe_js msg) = true ∧
  (no_quotes msg = true → safe_js msg = msg).
Proof.
  split.
  - assert (H : ∀ b, quotes_escaped b (safe_js msg) = true); [|apply H].
    induction msg as [|a s IH]; intros b; [done|].
    rewrite safe_js_cons.
    destruct (Ascii.eqb a "'"%char) eqn:H1; [cbn; by rewrite IH|].
    destruct (Ascii.eqb a "`"%char) eqn:H2; [cbn; by rewrite IH|].
    cbn [quotes_escaped]. rewrite H1, H2, IH. done.
  - induction msg as [|a s IH]; [done|]. cbn [no_quotes].
    intros [Ha Hs]%andb_true_iff. rewrite safe_js_cons.
    apply negb_true_iff, orb_false_iff in Ha as [-> ->]. by rewrite IH.
Qed.

(** X11. The "Streaming" line splits the session's duration into hours,
    minutes and seconds that add up to it again, with minutes and seconds
    below 60; this holds for a negative duration too (a clock set back past
    the session start), where the hours are negative. *)
Theorem streaming_msg_split duration :
  let '(h, m, s) := split_duration duration in
  streaming_msg duration =
    "Streaming — " +:+ pretty h +:+ "h " +:+ pretty m +:+ "m " +:+ pretty s +:+ "s" ∧
  (h * 3600 + m * 60 + s = duration)%Z ∧
  (0 ≤ m < 60)%Z ∧ (0 ≤ s < 60)%Z ∧
  (0 ≤ duration → 0 ≤ h)%Z ∧ (duration < 0 → h < 0)%Z.
Proof.
  unfold split_duration. split; [done|].
  pose proof (Z.div_mod duration 3600 ltac:(lia)).
  pose proof (Z.mod_pos_bound duration 3600 ltac:(lia)).
  pose proof (Z.div_mod (duration `mod` 3600) 60 ltac:(lia)).
  pose proof (Z.mod_pos_bound (duration `mod` 3600) 60 ltac:(lia)).
  pose proof (Z.mod_pos_bound duration 60 ltac:(lia)).
  assert (duration `mod` 60 = (duration `mod` 3600) `mod` 60)%Z as Hm.
  { symmetry. apply Z.mod_mod_divide. by exists 60%Z. }
  split_and!; lia.
Qed.

(** ** Entering and leaving the loop *)

(** X12. With no Kick URL saved, [stream_loop] returns at once, whatever is
    going on outside: it logs the missing URL, clears [running], and makes
    no probe and no launch; [is_live], [procs] and the process table are
    as before. *)
Theorem stream_loop_needs_kick_url t obs w :
  kick_url (config (state w)) = "" →
  ∃ w', stream_loop t obs w = (Ret Returned, w') ∧
    running (state w') = false ∧
    is_live (state w') = is_live (state w) ∧
    procs w' = procs w ∧ children w' = children w ∧
    last (logs (state w')) =
      Some (mkLogEntry t "No Kick URL set — open Settings first" "red") ∧
    Forall (λ e, calls_out e = false) (events_since w w').
Proof.
  intros Hu. unfold stream_loop. mred. rewrite Hu. cbn [nonempty negb]. mrun.
  eexists. split; [reflexivity|]. frame. split_and!; try done.
  - apply logged_last.
  - erewrite events_since_app; [|reflexivity]. apply log_events_quiet.
Qed.

(** Start with a stream key but no Kick URL saved. *)
Lemma stream_loop_needs_kick_url_witness :
  let w := (API_start (initial_world (mkConfig "" "abcd-1234"))).2 in
  let t := "12:00:00" in
  let obs := [obs_at [] 1000 up (Spawned 4242 true)] in
  kick_url (config (state w)) = "" ∧
  ∃ w', stream_loop t obs w = (Ret Returned, w') ∧
    running (state w') = false ∧
    is_live (state w') = is_live (state w) ∧
    procs w' = procs w ∧ children w' = children w ∧
    last (logs (state w')) =
      Some (mkLogEntry t "No Kick URL set — open Settings first" "red") ∧
    Forall (λ e, calls_out e = false) (events_since w w').
Proof.
  intros w t obs.
  assert (H : kick_url (config (state w)) = "") by reflexivity.
  split; [exact H|].
  exact (stream_loop_needs_kick_url t obs w H).
Defined.


(** X14. While the channel stays offline the loop only probes: started
    with [is_live] false, a run over observations in which the prober never
    finds a stream completes every iteration, is still in the loop at the
    end, launches nothing, spawns nothing, and leaves [procs] and, but for
    the log buffer, [state] as they were. *)
Theorem offline_loop_only_probes obs sst w :
  running (state w) = true → is_live (state w) = false → all_down obs →
  ∃ w', while_running obs sst w = (Ret (Parked sst), w') ∧
    only_logs_differ (state w) (state w') ∧
    procs w' = procs w ∧ length (children w') = length (children w) ∧
    launches w' = launches w.
Proof.
  intros Hr Hl Hall.
  destruct (idle_run obs sst w Hr) as (w' & ? & ? & ? & ? & ? & ?).
  - unfold polled_relay. by rewrite Hl.
  - rewrite Hl. exact Hall.
  - exists w'. by split_and!.
Qed.

(** Two probes of an offline channel. *)
Lemma offline_loop_only_probes_witness :
  let obs := [obs_at [] 1000 down (Spawned 1 true); obs_at [] 1030 down (Spawned 1 true)] in
  (running (state started0) = true ∧ is_live (state started0) = false ∧ all_down obs) ∧
  ∃ w', while_running obs None started0 = (Ret (Parked None), w') ∧
    only_logs_differ (state started0) (state w') ∧
    procs w' = procs started0 ∧ length (children w') = length (children started0) ∧
    launches w' = launches started0.
Proof.
  intros obs.
  assert (H1 : running (state started0) = true) by reflexivity.
  assert (H2 : is_live (state started0) = false) by reflexivity.
  assert (H3 : all_down obs).
  { unfold all_down, obs. repeat (constructor; [vm_compute; reflexivity|]). constructor. }
  split; [by split_and!|].
  exact (offline_loop_only_probes obs None started0 H1 H2 H3).
Defined.

(** X15. A failed first launch blocks the next start. When an iteration
    begins a session and [start_ffmpeg] gives up (no stream key, or the
    ffmpeg binary is missing), the iteration ends with [running] false but
    [is_live] still true and no relay. [start()] then starts the loop
    again without clearing [is_live]; from there, as long as the prober
    keeps finding the stream, the loop never calls [Popen] again: it stays
    in the loop with [is_live] true, [procs] empty and no child spawned. *)
Theorem failed_launch_blocks_next_start o sst w t obs :
  serially_reachable w → begins_session o w = true →
  (nonempty (yt_key (config (state w))) = false ∨
   ∃ s, spawn o = SpawnRaised (FileNotFoundError s)) →
  all_up obs →
  ∃ w1 w2 r w3,
    tick o sst w = (Ret (Continue (Some (now2 o))), w1) ∧
    running (state w1) = false ∧ is_live (state w1) = true ∧ procs w1 = ∅ ∧
    length (children w1) = length (children w) ∧
    API_start w1 = (Ret "started", w2) ∧
    stream_loop t obs w2 = (Ret r, w3) ∧
    (nonempty (kick_url (config (state w))) = true → r = Parked None) ∧
    launches w3 = launches w1 ∧ is_live (state w3) = true ∧ procs w3 = ∅ ∧
    length (children w3) = length (children w).
Proof.
  intros Hreach Hb Hfail Hup.
  pose proof (reachable_Inv _ Hreach) as HI.
  unfold begins_session in Hb.
  apply andb_true_iff in Hb as [Hb Hu]. apply andb_true_iff in Hb as [Hr Hl].
  apply negb_true_iff in Hl.
  pose proof (inv_offline _ HI Hl) as Hp.
  assert (∃ w1, tick o sst w = (Ret (Continue (Some (now2 o))), w1) ∧
            running (state w1) = false ∧ is_live (state w1) = true ∧ procs w1 = ∅ ∧
            length (children w1) = length (children w) ∧
            config (state w1) = config (state w)) as (w1 & Ht & Hr1 & Hl1 & Hp1 & Hc1 & Hcf).
  { rewrite tick_dispatch, Hr. unfold polled_relay. rewrite Hl.
    unfold check_kick. mrun. frame. rewrite Hl, Hu. cbn [negb andb]. mrun.
    destruct Hfail as [Hk|[s Hs]].
    - unfold start_outcome. frame. rewrite Hk. mrun.
      eexists. split; [reflexivity|]. frame. by rewrite os_exits_length.
    - start_split; revert Hkey; frame; intros Hkey; try congruence.
      all: mrun; eexists; (split; [reflexivity|]); frame; by rewrite os_exits_length. }
  exists w1.
  assert (∃ w2, API_start w1 = (Ret "started", w2) ∧
            running (state w2) = true ∧ is_live (state w2) = true ∧ procs w2 = ∅ ∧
            children w2 = children w1 ∧ launches w2 = launches w1 ∧
            config (state w2) = config (state w1))
    as (w2 & Hst & Hr2 & Hl2 & Hp2 & Hc2 & Hn2 & Hcf2).
  { unfold API_start. mred. rewrite Hr1. cbn [negb]. eexists. split; [reflexivity|].
    frame. split_and!; try done.
    unfold launches. frame. rewrite List.filter_app. cbn. by rewrite app_nil_r. }
  exists w2. unfold stream_loop. mred.
  destruct (nonempty (kick_url (config (state w2)))) eqn:Hku; cbn [negb].
  - destruct (idle_run obs None w2 Hr2) as (w3 & Hrun & Hs3 & Hp3 & _ & Hc3 & Hn3).
    { unfold polled_relay. by rewrite Hl2, Hp2, lookup_empty. }
    { by rewrite Hl2. }
    apply only_logs_differ_fields in Hs3 as (_ & Hl3 & _).
    exists (Parked None), w3. split_and!; try done; congruence.
  - mrun. eexists _, _. split_and!; try done; frame; try congruence.
    rewrite <- Hn2. eapply launches_app; [frame; reflexivity|].
    apply no_launch_Forall, log_events_no_launch.
Qed.

(** The channel is live, ffmpeg is missing, and the operator presses start
    again once it is installed. *)
Lemma failed_launch_blocks_next_start_witness :
  let t := "12:01:00" in
  let obs := [obs_at [] 1010 up (Spawned 4242 true); obs_at [] 1040 up (Spawned 4242 true)] in
  (serially_reachable started0 ∧ begins_session obs_no_ffmpeg started0 = true ∧
   (nonempty (yt_key (config (state started0))) = false ∨
    ∃ s, spawn obs_no_ffmpeg = SpawnRaised (FileNotFoundError s)) ∧
   all_up obs) ∧
  ∃ w1 w2 r w3,
    tick obs_no_ffmpeg None started0 = (Ret (Continue (Some (now2 obs_no_ffmpeg))), w1) ∧
    running (state w1) = false ∧ is_live (state w1) = true ∧ procs w1 = ∅ ∧
    length (children w1) = length (children started0) ∧
    API_start w1 = (Ret "started", w2) ∧
    stream_loop t obs w2 = (Ret r, w3) ∧
    (nonempty (kick_url (config (state started0))) = true → r = Parked None) ∧
    launches w3 = launches w1 ∧ is_live (state w3) = true ∧ procs w3 = ∅ ∧
    length (children w3) = length (children started0).
Proof.
  intros t obs.
  assert (H1 : serially_reachable started0) by apply reach_start, reach_init.
  assert (H2 : begins_session obs_no_ffmpeg started0 = true) by (vm_compute; reflexivity).
  assert (H3 : nonempty (yt_key (config (state started0))) = false ∨
               ∃ s, spawn obs_no_ffmpeg = SpawnRaised (FileNotFoundError s)).
  { right. by exists "ffmpeg". }
  assert (H4 : all_up obs).
  { unfold all_up, obs. repeat (constructor; [vm_compute; reflexivity|]). constructor. }
  split; [by split_and!|].
  exact (failed_launch_blocks_next_start obs_no_ffmpeg None started0 t obs H1 H2 H3 H4).
Defined.

(** X16. The "Kick ended" branch. When [is_live] is set, [procs] holds no
    relay and the prober finds nothing, the iteration clears [is_live],
    [start_time] and the loop's own session start, leaves [procs] empty,
    [restarts] and the crash ledger as they were, launches nothing, sleeps
    [OFFLINE_CHECK] and stays in the loop. *)
Theorem kick_ended_clears_session o sst w :
  ends_session o w = true →
  ∃ w', tick o sst w = (Ret (Continue None), w') ∧
    is_live (state w') = false ∧ start_time (state w') = None ∧
    running (state w') = true ∧ procs w' = ∅ ∧
    restarts (state w') = restarts (state w) ∧
    crash_times (state w') = crash_times (state w) ∧
    launches w' = launches w ∧
    last (trace w') = Some (EvSleep OFFLINE_CHECK).
Proof.
  unfold ends_session. intros H.
  apply andb_true_iff in H as [H Hu]. apply andb_true_iff in H as [H Hp].
  apply andb_true_iff in H as [Hr Hl]. apply negb_true_iff in Hu.
  destruct (procs w !! "ffmpeg") eqn:Hpf; [done|].
  rewrite tick_dispatch, Hr. unfold polled_relay. rewrite Hl, Hpf.
  unfold check_kick. mrun. frame. rewrite Hl, Hu. cbn [negb andb]. mrun.
  eexists. split; [reflexivity|]. frame. split_and!; try done.
  - eapply launches_app.
    + frame. rewrite stop_world_trace. frame. rewrite probe_world_trace. frame.
      rewrite <- !(assoc_L (++)). reflexivity.
    + repeat apply Forall_app_2; try apply no_launch_Forall.
      * apply log_events_no_launch.
      * apply probe_events_no_launch.
      * apply log_events_no_launch.
      * apply stop_all_events_no_launch.
      * apply ui_events_no_launch.
      * by intros cmd ?%list_elem_of_singleton.
  - by rewrite last_snoc.
Qed.

(** The channel goes offline in the world [wedged0]. *)
Lemma kick_ended_clears_session_witness :
  let o := obs_at [] 1030 down (Spawned 1 true) in
  ends_session o wedged0 = true ∧
  ∃ w', tick o (Some 1000%Z) wedged0 = (Ret (Continue None), w') ∧
    is_live (state w') = false ∧ start_time (state w') = None ∧
    running (state w') = true ∧ procs w' = ∅ ∧
    restarts (state w') = restarts (state wedged0) ∧
    crash_times (state w') = crash_times (state wedged0) ∧
    launches w' = launches wedged0 ∧
    last (trace w') = Some (EvSleep OFFLINE_CHECK).
Proof.
  intros o.
  assert (H : ends_session o wedged0 = true) by (vm_compute; reflexivity).
  split; [exact H|].
  exact (kick_ended_clears_session o (Some 1000%Z) wedged0 H).
Defined.

(** ** The branches of the loop *)

(** X17. A healthy relay is left alone. When the polled relay runs and no
    refresh is due, the iteration makes no probe, no launch and no stop: it
    logs the "Streaming" line for the time since [start_time] (0 when
    [start_time] is unset), sleeps [LIVE_CHECK] and continues; [procs] and,
    but for the log buffer, [state] are unchanged. *)
Theorem healthy_relay_is_left_alone o sst w proc :
  running (state w) = true → polled_relay w = Some proc →
  exited_at o w proc = false → refresh_due o w = false →
  ∃ w', tick o sst w = (Ret (Continue sst), w') ∧
    only_logs_differ (state w) (state w') ∧
    procs w' = procs w ∧ children w' = os_exits (exits o) (children w) ∧
    events_since w w' =
      log_events (window w) (hms o)
        (streaming_msg (if truthy_time (start_time (state w))
                        then now o - default 0%Z (start_time (state w)) else 0)) "muted"
      ++ [EvSleep LIVE_CHECK].
Proof.
  intros Hr Hp He Hd. rewrite tick_dispatch, Hr, Hp, He.
  unfold relay_alive, refresh_due in *. mrun. frame. rewrite Hd. mrun.
  eexists. split; [reflexivity|]. split_and!; try done.
  erewrite events_since_app; [reflexivity|]. frame. by rewrite <- (assoc_L (++)).
Qed.

(** The relay of [live0], a hundred seconds into the session. *)
Lemma healthy_relay_is_left_alone_witness :
  let o := obs_at [] 1100 up (Spawned 1 true) in
  (running (state live0) = true ∧ polled_relay live0 = Some 0 ∧
   exited_at o live0 0 = false ∧ refresh_due o live0 = false) ∧
  ∃ w', tick o (Some 1000%Z) live0 = (Ret (Continue (Some 1000%Z)), w') ∧
    only_logs_differ (state live0) (state w') ∧
    procs w' = procs live0 ∧ children w' = os_exits (exits o) (children live0) ∧
    events_since live0 w' =
      log_events (window live0) (hms o)
        (streaming_msg (if truthy_time (start_time (state live0))
                        then now o - default 0%Z (start_time (state live0)) else 0)) "muted"
      ++ [EvSleep LIVE_CHECK].
Proof.
  intros o.
  assert (H1 : running (state live0) = true) by (vm_compute; reflexivity).
  assert (H2 : polled_relay live0 = Some 0) by (vm_compute; reflexivity).
  assert (H3 : exited_at o live0 0 = false) by (vm_compute; reflexivity).
  assert (H4 : refresh_due o live0 = false) by (vm_compute; reflexivity).
  split; [by split_and!|].
  exact (healthy_relay_is_left_alone o (Some 1000%Z) live0 0 H1 H2 H3 H4).
Defined.

(** X18. A refresh whose probe fails does not interrupt the stream: when
    the refresh is due and the prober returns nothing, the running relay is
    neither stopped nor replaced: no [terminate], no [kill] and no [Popen]
    is issued, [procs] and, but for the log buffer, [state] are unchanged,
    and the iteration ends with the usual sleep of [LIVE_CHECK]. *)
Theorem failed_refresh_keeps_relay o sst w :
  refreshes o w = true → truthy_url (probe_result o) = false →
  ∃ w', tick o sst w = (Ret (Continue sst), w') ∧
    only_logs_differ (state w) (state w') ∧
    procs w' = procs w ∧ children w' = os_exits (exits o) (children w) ∧
    Forall (λ e, match e with
                 | EvPopen _ | EvTerminate _ | EvKill _ => False
                 | _ => True
                 end) (events_since w w') ∧
    last (trace w') = Some (EvSleep LIVE_CHECK).
Proof.
  unfold refreshes. intros H Hu. apply andb_true_iff in H as [Hr H].
  destruct (polled_relay w) as [proc|] eqn:Hp; [|done].
  apply andb_true_iff in H as [He Hd]. apply negb_true_iff in He.
  rewrite tick_dispatch, Hr, Hp, He.
  unfold relay_alive, refresh_due in *. mrun. frame. rewrite Hd. mrun. rewrite Hu. mrun.
  eexists. split; [reflexivity|]. split_and!.
  - same_session.
  - by frame.
  - by frame.
  - erewrite events_since_app;
      [|frame; rewrite probe_world_trace; frame; rewrite <- !(assoc_L (++)); reflexivity].
    assert (∀ win t m l, Forall (λ e, match e with
                 | EvPopen _ | EvTerminate _ | EvKill _ => False
                 | _ => True
                 end) (log_events win t m l)) as Hlog.
    { intros win t m l. unfold log_events. destruct win as [win|]; [|by repeat constructor].
      destruct (js_ok win _); by repeat constructor. }
    repeat apply Forall_app_2; try apply Hlog; [|by repeat constructor].
    unfold probe_events. destruct (run o); constructor; try done.
  - frame. by rewrite last_snoc.
Qed.

(** The refresh of [live0] at 1545 with streamlink failing. *)
Lemma failed_refresh_keeps_relay_witness :
  let o := obs_at [] 1545 down (Spawned 1 true) in
  (refreshes o live0 = true ∧ truthy_url (probe_result o) = false) ∧
  ∃ w', tick o (Some 1000%Z) live0 = (Ret (Continue (Some 1000%Z)), w') ∧
    only_logs_differ (state live0) (state w') ∧
    procs w' = procs live0 ∧ children w' = os_exits (exits o) (children live0) ∧
    Forall (λ e, match e with
                 | EvPopen _ | EvTerminate _ | EvKill _ => False
                 | _ => True
                 end) (events_since live0 w') ∧
    last (trace w') = Some (EvSleep LIVE_CHECK).
Proof.
  intros o.
  assert (H1 : refreshes o live0 = true) by (vm_compute; reflexivity).
  assert (H2 : truthy_url (probe_result o) = false) by (vm_compute; reflexivity).
  split; [by split|].
  exact (failed_refresh_keeps_relay o (Some 1000%Z) live0 H1 H2).
Defined.

(** X19. A successful refresh replaces the relay, old one first. When the
    refresh is due, the prober returns a URL, a stream key is saved and
    [Popen] succeeds, the polled relay is sent [terminate] before the 2 s
    pause and the [Popen] of the new command; afterwards it no longer runs,
    [procs] holds exactly the new child, which runs the command built from
    the fresh URL, and [state] is unchanged but for the log buffer (so
    [start_time] and [restarts] stay). *)
Theorem refresh_replaces_relay o sst w proc p heeds :
  refreshes o w = true → polled_relay w = Some proc →
  truthy_url (probe_result o) = true →
  nonempty (yt_key (config (state w))) = true →
  spawn o = Spawned p heeds →
  let cmd := build_cmd (default "" (probe_result o)) (yt_key (config (state w))) in
  ∃ w' c, tick o sst w = (Ret (Continue sst), w') ∧
    only_logs_differ (state w) (state w') ∧
    procs w' = {["ffmpeg" := length (children w)]} ∧
    length (children w') = S (length (children w)) ∧
    children w' !! length (children w) = Some c ∧
    pid c = p ∧ argv c = cmd ∧ status c = Running ∧
    (∀ c0, children w' !! proc = Some c0 → is_running c0 = false) ∧
    ∃ pre post, events_since w w' = pre ++ [EvSleep 2; EvPopen cmd] ++ post ∧
                EvTerminate proc ∈ pre.
Proof.
  intros H Hp Hu Hk Hs cmd. unfold refreshes in H. apply andb_true_iff in H as [Hr H].
  rewrite Hp in H. apply andb_true_iff in H as [He Hd]. apply negb_true_iff in He.
  rewrite tick_dispatch, Hr, Hp, He.
  destruct (exited_at_false _ _ _ He) as (c0 & Hc0 & Hr0).
  assert (procs w !! "ffmpeg" = Some proc) as Hpf.
  { unfold polled_relay in Hp. by destruct (is_live (state w)). }
  assert (proc < length (children w)) as Hlt.
  { apply lookup_lt_Some in Hc0. by rewrite os_exits_length in Hc0. }
  unfold relay_alive, refresh_due in *. mrun. frame. rewrite Hd. mrun. rewrite Hu. mrun.
  rewrite (start_outcome_spawned _ _ _ p heeds); [|by frame|done]. mrun. frame.
  eexists _, _. split; [reflexivity|]. frame.
  rewrite stop_world_children. frame.
  split_and!.
  - same_session.
  - by rewrite stop_all_length, os_exits_length, insert_empty.
  - rewrite length_app, stop_all_length, os_exits_length. cbn. lia.
  - rewrite lookup_app_r; rewrite stop_all_length, os_exits_length; [|done].
    by rewrite Nat.sub_diag.
  - done.
  - done.
  - done.
  - intros c1. rewrite lookup_app_l by by rewrite stop_all_length, os_exits_length.
    apply stop_all_stops. apply held_handle. eauto.
  - eexists _, _. split.
    + erewrite events_since_app; [|frame; rewrite stop_world_trace; frame;
        rewrite probe_world_trace; frame; rewrite <- !(assoc_L (++)); reflexivity].
      apply app_split3.
    + rewrite !elem_of_app. right. right.
      apply stop_all_events_terminate. split; [apply held_handle; eauto|]. eauto.
Qed.

(** The refresh of [live0] at 1545. *)
Lemma refresh_replaces_relay_witness :
  let o := obs_at [] 1545 up (Spawned 4243 true) in
  let cmd := build_cmd (default "" (probe_result o)) (yt_key (config (state live0))) in
  (refreshes o live0 = true ∧ polled_relay live0 = Some 0 ∧
   truthy_url (probe_result o) = true ∧
   nonempty (yt_key (config (state live0))) = true ∧
   spawn o = Spawned 4243 true) ∧
  ∃ w' c, tick o (Some 1000%Z) live0 = (Ret (Continue (Some 1000%Z)), w') ∧
    only_logs_differ (state live0) (state w') ∧
    procs w' = {["ffmpeg" := length (children live0)]} ∧
    length (children w') = S (length (children live0)) ∧
    children w' !! length (children live0) = Some c ∧
    pid c = 4243%Z ∧ argv c = cmd ∧ status c = Running ∧
    (∀ c0, children w' !! 0 = Some c0 → is_running c0 = false) ∧
    ∃ pre post, events_since live0 w' = pre ++ [EvSleep 2; EvPopen cmd] ++ post ∧
                EvTerminate 0 ∈ pre.
Proof.
  intros o cmd.
  assert (H1 : refreshes o live0 = true) by (vm_compute; reflexivity).
  assert (H2 : polled_relay live0 = Some 0) by (vm_compute; reflexivity).
  assert (H3 : truthy_url (probe_result o) = true) by (vm_compute; reflexivity).
  assert (H4 : nonempty (yt_key (config (state live0))) = true) by (vm_compute; reflexivity).
  assert (H5 : spawn o = Spawned 4243 true) by reflexivity.
  split; [by split_and!|].
  exact (refresh_replaces_relay o (Some 1000%Z) live0 0 4243%Z true H1 H2 H3 H4 H5).
Defined.

(** X20. A restart that finds the channel offline. When the iteration
    handles a relay death that is neither a crash storm nor a short
    session, and the prober then returns nothing, it counts the restart,
    logs "Channel went offline", clears [is_live] and empties [procs], but
    leaves [start_time] as it was; it launches nothing and ends with a
    sleep of [LIVE_CHECK], so that the channel is probed again ten seconds
    later. *)
Theorem restart_finds_channel_offline o sst w :
  restarts_relay o sst w = true → truthy_url (probe_result o) = false →
  ∃ w', tick o sst w = (Ret (Continue sst), w') ∧
    is_live (state w') = false ∧ running (state w') = true ∧ procs w' = ∅ ∧
    restarts (state w') = restarts (state w) + 1 ∧
    start_time (state w') = start_time (state w) ∧
    length (children w') = length (children w) ∧
    launches w' = launches w ∧
    last (logs (state w')) = Some (mkLogEntry (hms o) "Channel went offline" "yellow") ∧
    last (trace w') = Some (EvSleep LIVE_CHECK).
Proof.
  unfold restarts_relay. intros H Hu.
  apply andb_true_iff in H as [H Hsh]. apply andb_true_iff in H as [Hd Hst].
  apply negb_true_iff in Hsh. apply negb_true_iff, bool_decide_eq_false in Hst.
  rewrite (tick_death _ _ _ Hd).
  apply sees_death_inv in Hd as (Hr & Hl & proc & Hpf & Hp & He).
  unfold relay_dead, record_death, short_session in *. mrun. frame.
  case_decide; [done|]. rewrite Hsh. mrun. rewrite Hu. mrun.
  eexists. split; [reflexivity|]. frame. split_and!; try done.
  - rewrite stop_world_children, stop_all_length. frame. apply os_exits_length.
  - eapply launches_app.
    + frame. rewrite stop_world_trace. frame. rewrite probe_world_trace. frame.
      rewrite <- !(assoc_L (++)). reflexivity.
    + repeat apply Forall_app_2; try apply no_launch_Forall.
      * apply log_events_no_launch.
      * by intros cmd ?%list_elem_of_singleton.
      * apply probe_events_no_launch.
      * apply log_events_no_launch.
      * apply stop_all_events_no_launch.
      * apply ui_events_no_launch.
      * by intros cmd ?%list_elem_of_singleton.
  - apply logged_last.
  - by rewrite last_snoc.
Qed.

(** The relay of [live0] found dead at 1300 with the channel gone. *)
Lemma restart_finds_channel_offline_witness :
  let o := obs_at [0] 1300 down (Spawned 1 true) in
  (restarts_relay o (Some 1000%Z) live0 = true ∧ truthy_url (probe_result o) = false) ∧
  ∃ w', tick o (Some 1000%Z) live0 = (Ret (Continue (Some 1000%Z)), w') ∧
    is_live (state w') = false ∧ running (state w') = true ∧ procs w' = ∅ ∧
    restarts (state w') = restarts (state live0) + 1 ∧
    start_time (state w') = start_time (state live0) ∧
    length (children w') = length (children live0) ∧
    launches w' = launches live0 ∧
    last (logs (state w')) = Some (mkLogEntry (hms o) "Channel went offline" "yellow") ∧
    last (trace w') = Some (EvSleep LIVE_CHECK).
Proof.
  intros o.
  assert (H1 : restarts_relay o (Some 1000%Z) live0 = true) by (vm_compute; reflexivity).
  assert (H2 : truthy_url (probe_result o) = false) by (vm_compute; reflexivity).
  split; [by split|].
  exact (restart_finds_channel_offline o (Some 1000%Z) live0 H1 H2).
Defined.

(** X21. A session that begins with a successful launch. When the
    iteration begins a session, a stream key is saved and [Popen]
    succeeds, then [is_live] is set, [start_time] is the first clock
    reading and the loop's own session start the second, [restarts] is 0
    and the crash ledger empty; one child is appended to the process table,
    running the command built from the probed URL and the key, and
    [procs["ffmpeg"]] is its handle; exactly one [Popen] was made, and the
    iteration ends with a sleep of [LIVE_CHECK]. *)
Theorem session_begins_with_relay o sst w p heeds :
  begins_session o w = true →
  nonempty (yt_key (config (state w))) = true →
  spawn o = Spawned p heeds →
  let cmd := build_cmd (default "" (probe_result o)) (yt_key (config (state w))) in
  ∃ w' c, tick o sst w = (Ret (Continue (Some (now2 o))), w') ∧
    is_live (state w') = true ∧ running (state w') = true ∧
    start_time (state w') = Some (now o) ∧
    restarts (state w') = 0 ∧ crash_times (state w') = [] ∧
    procs w' !! "ffmpeg" = Some (length (children w)) ∧
    children w' = os_exits (exits o) (children w) ++ [c] ∧
    pid c = p ∧ argv c = cmd ∧ status c = Running ∧
    launches w' = S (launches w) ∧
    last (trace w') = Some (EvSleep LIVE_CHECK).
Proof.
  intros Hb Hk Hs cmd. unfold begins_session in Hb.
  apply andb_true_iff in Hb as [Hb Hu]. apply andb_true_iff in Hb as [Hr Hl].
  apply negb_true_iff in Hl.
  rewrite tick_dispatch, Hr. unfold polled_relay. rewrite Hl.
  unfold check_kick. mrun. frame. rewrite Hl, Hu. cbn [negb andb]. mrun.
  rewrite (start_outcome_spawned _ _ _ p heeds); [|by frame|done]. mrun. frame.
  eexists _, _. split; [reflexivity|]. frame. split_and!; try done.
  - by rewrite os_exits_length, lookup_insert_eq.
  - erewrite launches_count;
      [|frame; rewrite probe_world_trace; frame; rewrite <- !(assoc_L (++)); reflexivity].
    rewrite !List.filter_app. cbn [List.filter is_launch].
    rewrite !(filter_nil_Forall is_launch);
      [rewrite !length_app; cbn; lia
      |apply no_launch_Forall;
       first [apply ui_events_no_launch | apply log_events_no_launch
             |apply probe_events_no_launch]..].
  - by rewrite last_snoc.
Qed.

(** The first iteration after start, with the channel live. *)
Lemma session_begins_with_relay_witness :
  let o := obs_at [] 1000 up (Spawned 4242 true) in
  let cmd := build_cmd (default "" (probe_result o)) (yt_key (config (state started0))) in
  (begins_session o started0 = true ∧
   nonempty (yt_key (config (state started0))) = true ∧
   spawn o = Spawned 4242 true) ∧
  ∃ w' c, tick o None started0 = (Ret (Continue (Some (now2 o))), w') ∧
    is_live (state w') = true ∧ running (state w') = true ∧
    start_time (state w') = Some (now o) ∧
    restarts (state w') = 0 ∧ crash_times (state w') = [] ∧
    procs w' !! "ffmpeg" = Some (length (children started0)) ∧
    children w' = os_exits (exits o) (children started0) ++ [c] ∧
    pid c = 4242%Z ∧ argv c = cmd ∧ status c = Running ∧
    launches w' = S (launches started0) ∧
    last (trace w') = Some (EvSleep LIVE_CHECK).
Proof.
  intros o cmd.
  assert (H1 : begins_session o started0 = true) by (vm_compute; reflexivity).
  assert (H2 : nonempty (yt_key (config (state started0))) = true) by (vm_compute; reflexivity).
  assert (H3 : spawn o = Spawned 4242 true) by reflexivity.
  split; [by split_and!|].
  exact (session_begins_with_relay o None started0 4242%Z true H1 H2 H3).
Defined.

(** ** The operator commands and the loop *)

(** X22. [stop()] does not cancel an iteration in progress. When [stop()]
    runs while the loop is inside the probe of line 189, the loop goes on
    once the probe returns: with the channel live and a stream key saved it
    begins a session and launches a relay although [running] is false by
    then. The loop returns at its next test and leaves the relay running,
    held in [procs], with [is_live] true. (Run without the [stop()] in
    between, the two pieces of the iteration are [tick].) *)
Theorem stop_during_probe_does_not_cancel_launch o sst t w p heeds :
  running (state w) = true → polled_relay w = None →
  truthy_url (probe_result o) = true →
  nonempty (yt_key (config (state w))) = true →
  spawn o = Spawned p heeds →
  ∃ w1 w2 w3 c,
    tick o sst w = (url ← check_probe o; check_decide o sst url) (os_world o w) ∧
    check_probe o (os_world o w) = (Ret (probe_result o), w1) ∧
    API_stop t w1 = (Ret "stopped", w2) ∧
    check_decide o sst (probe_result o) w2 = (Ret (Continue (Some (now2 o))), w3) ∧
    running (state w3) = false ∧ is_live (state w3) = true ∧
    procs w3 !! "ffmpeg" = Some (length (children w)) ∧
    children w3 !! length (children w) = Some c ∧ is_running c = true ∧
    argv c = build_cmd (default "" (probe_result o)) (yt_key (config (state w))) ∧
    (∀ o' sst', tick o' sst' w3 = (Ret Return_, w3)).
Proof.
  intros Hr Hp Hu Hk Hs.
  exists (check_probe o (os_world o w)).2,
         (API_stop t (check_probe o (os_world o w)).2).2,
         (check_decide o sst (probe_result o)
            (API_stop t (check_probe o (os_world o w)).2).2).2,
         (mkChild p (build_cmd (default "" (probe_result o)) (yt_key (config (state w))))
                  heeds
                  (running_children
                     (stop_all (map_to_list (procs w)).*2 (os_exits (exits o) (children w))))
                  Running).
  split; [by apply tick_cut|].
  unfold check_probe, API_stop, check_decide. mrun. frame.
  rewrite Hu. cbn [negb andb]. mrun.
  rewrite (start_outcome_spawned _ _ _ p heeds); [|by frame|done]. mrun. frame.
  rewrite stop_world_children. frame.
  assert (∀ hs, length (stop_all hs (os_exits (exits o) (children w))) = length (children w))
    as Hlen by (intros; by rewrite stop_all_length, os_exits_length).
  split_and!; try done.
  - by rewrite Hlen, lookup_insert_eq.
  - rewrite lookup_app_r; rewrite Hlen; [|done]. by rewrite Nat.sub_diag.
  - intros o' sst'. by rewrite tick_not_running by by frame.
Qed.

(** [stop()] during the first probe after start. *)
Lemma stop_during_probe_does_not_cancel_launch_witness :
  let t := "12:00:01" in
  (running (state started0) = true ∧ polled_relay started0 = None ∧
   truthy_url (probe_result obs_live) = true ∧
   nonempty (yt_key (config (state started0))) = true ∧
   spawn obs_live = Spawned 4242 true) ∧
  ∃ w1 w2 w3 c,
    tick obs_live None started0 =
      (url ← check_probe obs_live; check_decide obs_live None url) (os_world obs_live started0) ∧
    check_probe obs_live (os_world obs_live started0) = (Ret (probe_result obs_live), w1) ∧
    API_stop t w1 = (Ret "stopped", w2) ∧
    check_decide obs_live None (probe_result obs_live) w2
      = (Ret (Continue (Some (now2 obs_live))), w3) ∧
    running (state w3) = false ∧ is_live (state w3) = true ∧
    procs w3 !! "ffmpeg" = Some (length (children started0)) ∧
    children w3 !! length (children started0) = Some c ∧ is_running c = true ∧
    argv c = build_cmd (default "" (probe_result obs_live))
                       (yt_key (config (state started0))) ∧
    (∀ o' sst', tick o' sst' w3 = (Ret Return_, w3)).
Proof.
  intros t.
  assert (H1 : running (state started0) = true) by reflexivity.
  assert (H2 : polled_relay started0 = None) by (vm_compute; reflexivity).
  assert (H3 : truthy_url (probe_result obs_live) = true) by (vm_compute; reflexivity).
  assert (H4 : nonempty (yt_key (config (state started0))) = true) by reflexivity.
  assert (H5 : spawn obs_live = Spawned 4242 true) by reflexivity.
  split; [by split_and!|].
  exact (stop_during_probe_does_not_cancel_launch obs_live None t started0 4242%Z true
           H1 H2 H3 H4 H5).
Defined.

(** X23. [save_settings] takes effect at the next call, not before. It
    stores both values, writes the configuration file and logs the new
    Kick URL; the session fields of [state], [procs] and the process table
    are untouched, so that a relay already running keeps the command it
    was launched with. The next probe runs streamlink on the new URL, and
    every [Popen] the next [start_ffmpeg] issues is the command built from
    the new key, which is then not empty. When the write of the file
    raises, the exception leaves [save_settings]: nothing is logged and
    "saved" is not returned, but the new values are in [state] already. *)
Theorem save_settings_takes_effect_at_next_call t k y w :
  (∃ w1, API_save_settings t Written k y w = (Ret "saved", w1) ∧
     config (state w1) = mkConfig k y ∧
     running (state w1) = running (state w) ∧ is_live (state w1) = is_live (state w) ∧
     start_time (state w1) = start_time (state w) ∧
     restarts (state w1) = restarts (state w) ∧
     crash_times (state w1) = crash_times (state w) ∧
     procs w1 = procs w ∧ children w1 = children w ∧
     last (logs (state w1)) = Some (mkLogEntry t ("Settings saved — " +:+ k) "green") ∧
     head (events_since w w1) = Some (EvWriteConfig (mkConfig k y)) ∧
     (∀ o, head (events_since w1 (get_hls_url o w1).2) =
           Some (EvRun ["python"; "-m"; "streamlink"; k; "--stream-url"; "best"])) ∧
     (∀ o url cmd, EvPopen cmd ∈ events_since w1 (start_ffmpeg o url w1).2 →
                   cmd = build_cmd url y ∧ nonempty y = true)) ∧
  (∀ e, ∃ w1, API_save_settings t (WriteRaised e) k y w = (Raise e, w1) ∧
     config (state w1) = mkConfig k y ∧
     logs (state w1) = logs (state w) ∧
     procs w1 = procs w ∧ children w1 = children w ∧
     events_since w w1 = [EvWriteConfig (mkConfig k y)]).
Proof.
  split.
  - rewrite API_save_settings_run. cbn [save_outcome].
    eexists. split; [reflexivity|]. unfold saved_config. frame.
    split_and!; try done.
    + apply logged_last.
    + erewrite events_since_app; [|frame; rewrite <- (assoc_L (++)); reflexivity]. done.
    + intros o. rewrite get_hls_url_run. cbn [snd].
      erewrite events_since_app; [|apply probe_world_trace]. done.
    + intros o url cmd. rewrite start_ffmpeg_run.
      start_split; revert Hkey; frame; intros Hkey; cbn [snd].
      * erewrite events_since_app; [|frame; reflexivity].
        by intros ?%log_events_no_launch.
      * erewrite events_since_app; [|frame; rewrite <- (assoc_L (++)); reflexivity].
        intros [Hin|Hin]%elem_of_app; [|by apply log_events_no_launch in Hin].
        by apply list_elem_of_singleton in Hin as [= ->].
      * erewrite events_since_app; [|frame; rewrite <- (assoc_L (++)); reflexivity].
        intros [Hin|Hin]%elem_of_app; [|by apply log_events_no_launch in Hin].
        by apply list_elem_of_singleton in Hin as [= ->].
      * erewrite events_since_app; [|frame; reflexivity].
        by intros [= ->]%list_elem_of_singleton.
  - intros e. rewrite API_save_settings_run. cbn [save_outcome].
    eexists. split; [reflexivity|]. unfold saved_config. frame.
    split_and!; try done.
    erewrite events_since_app; [|frame; reflexivity]. done.
Qed.

(** ** What [procs] holds *)

Ltac lens :=
  frame; rewrite ?stop_world_children; frame;
  rewrite ?length_app, ?stop_all_length; frame; rewrite ?os_exits_length;
  cbn [length]; try lia.

Ltac pstep :=
  first [ left; split; [by frame | by lens]
        | right; left; split; [by frame | by lens]
        | right; right; eexists; split;
          [|split; [frame; rewrite ?stop_world_children; frame;
                    rewrite ?stop_all_length; frame; rewrite ?os_exits_length; reflexivity
                   | by lens]]; frame; auto ].

Lemma tick_procs o sst w : procs_step w (tick o sst w).2.
Proof.
  rewrite tick_dispatch. destruct (running (state w)); [|by left].
  destruct (polled_relay w) as [proc|].
  - destruct (exited_at o w proc).
    + unfold relay_dead, record_death. mrun. frame.
      case_decide; [mrun; pstep|].
      destruct (truthy_time sst && _); [mrun; pstep|].
      mrun. destruct (truthy_url (probe_result o)); [|mrun; pstep].
      mrun. start_split; mrun; pstep.
    + unfold relay_alive. mrun. frame.
      destruct (_ && _); [|mrun; pstep].
      mrun. destruct (truthy_url (probe_result o)); [|mrun; pstep].
      mrun. start_split; mrun; pstep.
  - unfold check_kick. mrun. frame.
    destruct (truthy_url (probe_result o) && negb (is_live (state w))).
    + mrun. start_split; mrun; pstep.
    + destruct (negb (truthy_url (probe_result o)) && is_live (state w)); mrun; pstep.
Qed.

Lemma holds_latest_step w w' : holds_latest w → procs_step w w' → holds_latest w'.
Proof.
  intros HL [[Hp Hc]|[[Hp Hc]|(m & Hm & Hp & Hc)]].
  - destruct HL as [HL|(n & Hn & HL)]; [left; congruence|].
    right. exists n. split; congruence.
  - by left.
  - right. exists (length (children w)). split; [done|]. rewrite Hp.
    destruct Hm as [->| ->]; [|by rewrite insert_empty].
    destruct HL as [->|(n & _ & ->)]; [by rewrite insert_empty|].
    by rewrite insert_singleton_eq.
Qed.

Lemma holds_latest_same w w' :
  holds_latest w → procs w' = procs w → length (children w') = length (children w) →
  holds_latest w'.
Proof. intros HL Hp Hc. apply (holds_latest_step w); [done|]. by left. Qed.

Lemma holds_latest_while obs sst w :
  holds_latest w → holds_latest (while_running obs sst w).2.
Proof.
  revert sst w. induction obs as [|o obs IH]; intros sst w HL; [done|].
  cbn [while_running]. unfold mbind, M_bind.
  pose proof (holds_latest_step _ _ HL (tick_procs o sst w)) as Ht.
  destruct (tick o sst w) as [[[sst'|]|e] w']; cbn [snd] in *; [by apply IH|done..].
Qed.

(** X24. What [procs] holds along a run of one loop. Take a run of the
    loop, over any sequence of observations, that no operator command and
    no second loop overlaps, entered in a world where [Inv] holds and
    [procs] is empty or holds under "ffmpeg" the child spawned last (the
    world [start()] makes of the freshly imported module is one). In the
    world the run leaves, [procs] is again empty or holds, under the one
    key "ffmpeg", the handle of the child spawned last; and a child that
    runs is the child spawned last. *)
Theorem procs_holds_latest_child t obs w0 :
  Inv w0 → holds_latest w0 →
  let w := (stream_loop t obs w0).2 in
  holds_latest w ∧
  (∀ h c, children w !! h = Some c → is_running c = true →
          S h = length (children w)).
Proof.
  intros HI0 HL0 w.
  assert (HI : Inv w) by by apply Inv_stream_loop.
  assert (HL : holds_latest w).
  { unfold w. destruct (nonempty (kick_url (config (state w0)))) eqn:Hk.
    - rewrite stream_loop_runs by done. by apply holds_latest_while.
    - rewrite stream_loop_guarded by done.
      apply (holds_latest_same w0); [done|..];
        unfold stream_loop; mred; rewrite Hk; cbn [negb]; mrun; by frame. }
  clearbody w. split; [done|].
  intros h c Hc Hr.
  pose proof (inv_tracked _ HI h c Hc Hr) as Hp.
  destruct HL as [HL|(n & Hn & HL)]; rewrite HL in Hp.
  - by rewrite lookup_empty in Hp.
  - apply lookup_singleton_Some in Hp as [_ <-]. done.
Qed.

(** The run that finds the channel live and launches the relay. *)
Lemma procs_holds_latest_child_witness :
  let t := "12:00:00" in
  let obs := [obs_at [] 1000 up (Spawned 4242 true)] in
  (Inv started0 ∧ holds_latest started0) ∧
  let w := (stream_loop t obs started0).2 in
  holds_latest w ∧
  (∀ h c, children w !! h = Some c → is_running c = true →
          S h = length (children w)).
Proof.
  intros t obs.
  assert (H1 : Inv started0) by apply Inv_API_start, Inv_init.
  assert (H2 : holds_latest started0) by (left; vm_compute; reflexivity).
  split; [by split|].
  exact (procs_holds_latest_child t obs started0 H1 H2).
Defined.
